(** * Verification of the yep-fpv scan-and-ingest pipeline

    A shallow embedding of

    - [src/scanner/scan/info_scan.py]  (metadata phase, segment phase,
      existence oracle, retry-decorated storage calls),
    - [src/scanner/scan/metadata_scan.py] (the older metadata scanner's
      existence oracle and listing call),
    - [src/lark_bots/scan_service.py] (command parsing and the single-flight
      task executor),

    followed by the properties stated about them.

    Modelling conventions.
    - Python [str] values are modelled as [string] (sequences of 8-bit
      characters); every character class of the source ([\d], [\w],
      [str.isspace], [str.lower]) is taken at its ASCII restriction.
    - Python [int] is [Z]; counters that only ever count are [nat].
    - [datetime.date] is a record that is only built through [make_date],
      which fails where the Python constructor raises [ValueError].
    - Python exceptions are an error alternative of the result type of the
      state-and-error monad [M]; [try/except] is [catch].
    - The object store and the relational store are external services: the
      world carries, for each of them, the data they hold, an oracle that
      says which calls raise, and the trace of the calls made so far.
    - The connection to the relational store stays open: [execute] and
      [commit] may raise, [rollback] does not.  Statements that would
      otherwise rest on a rollback after a lost connection say which
      statements must not fail. *)

From Stdlib Require Import String Ascii ZArith List Bool Lia DecimalString.
From stdpp Require Import base option list gmap sets strings.
Import ListNotations.

Local Open Scope string_scope.
Local Open Scope Z_scope.

#[local] Set Warnings "-clear-no-such-hyp".

(** [simpl] may unfold string concatenation on a constructor. *)
#[local] Arguments String.append !s1 s2 : simpl nomatch.

(* ===================================================================== *)
(** * Python string primitives (ASCII restriction)                        *)
(* ===================================================================== *)

Module Py.

(** [str.isspace] on one ASCII character: TAB..CR, FS..US and SPACE. *)
Definition is_space (c : ascii) : bool :=
  let n := nat_of_ascii c in
  (Nat.leb 9 n && Nat.leb n 13) || (Nat.leb 28 n && Nat.leb n 32).

(** [\d] *)
Definition is_digit (c : ascii) : bool :=
  let n := nat_of_ascii c in Nat.leb 48 n && Nat.leb n 57.

(** [\w] *)
Definition is_word (c : ascii) : bool :=
  let n := nat_of_ascii c in
  is_digit c || (Nat.leb 65 n && Nat.leb n 90)
             || (Nat.leb 97 n && Nat.leb n 122)
             || Nat.eqb n 95.

Definition lower_ascii (c : ascii) : ascii :=
  let n := nat_of_ascii c in
  if Nat.leb 65 n && Nat.leb n 90 then ascii_of_nat (n + 32) else c.

(** [s.lower()] *)
Fixpoint lower (s : string) : string :=
  match s with
  | EmptyString => EmptyString
  | String c s' => String (lower_ascii c) (lower s')
  end.

Definition is_empty (s : string) : bool :=
  match s with EmptyString => true | _ => false end.

(** [s.lstrip()] *)
Fixpoint lstrip (s : string) : string :=
  match s with
  | EmptyString => EmptyString
  | String c s' => if is_space c then lstrip s' else s
  end.

(** [s.rstrip()] *)
Fixpoint rstrip (s : string) : string :=
  match s with
  | EmptyString => EmptyString
  | String c s' =>
      let r := rstrip s' in
      if is_space c && is_empty r then EmptyString else String c r
  end.

(** [s.strip()] *)
Definition strip (s : string) : string := rstrip (lstrip s).

(** [s.rstrip(ch)] for a one-character argument. *)
Fixpoint rstrip_char (ch : ascii) (s : string) : string :=
  match s with
  | EmptyString => EmptyString
  | String c s' =>
      let r := rstrip_char ch s' in
      if Ascii.eqb c ch && is_empty r then EmptyString else String c r
  end.

(** [s.split()]: the maximal runs of non-space characters. *)
Fixpoint split_ws (s : string) : list string :=
  match s with
  | EmptyString => []
  | String c s' =>
      if is_space c then split_ws s'
      else match s' with
           | EmptyString => [String c EmptyString]
           | String c' _ =>
               if is_space c' then String c EmptyString :: split_ws s'
               else match split_ws s' with
                    | w :: ws => String c w :: ws
                    | [] => [String c EmptyString]
                    end
           end
  end.

(** [s.split(ch)]: never empty, [""] for the empty string. *)
Fixpoint split_on (ch : ascii) (s : string) : list string :=
  match s with
  | EmptyString => [EmptyString]
  | String c s' =>
      if Ascii.eqb c ch then EmptyString :: split_on ch s'
      else match split_on ch s' with
           | w :: ws => String c w :: ws
           | [] => [String c EmptyString]
           end
  end.

(** [l[-1]] for a list known to be non-empty ([split_on] results). *)
Definition last_item (l : list string) : string := List.last l EmptyString.

(** [s.startswith(p)] *)
Definition startswith (p s : string) : bool := String.prefix p s.

(** [s.endswith(suf)] *)
Fixpoint endswith (suf s : string) : bool :=
  String.eqb s suf ||
  match s with
  | EmptyString => false
  | String _ s' => endswith suf s'
  end.

(** [sub in s] *)
Fixpoint contains (sub s : string) : bool :=
  String.prefix sub s ||
  match s with
  | EmptyString => false
  | String _ s' => contains sub s'
  end.

(** [s[n:]] *)
Fixpoint slice_from (n : nat) (s : string) : string :=
  match n, s with
  | O, _ => s
  | S _, EmptyString => EmptyString
  | S n', String _ s' => slice_from n' s'
  end.

(** The longest prefix of digits, and what follows it. *)
Fixpoint span_digits (s : string) : string * string :=
  match s with
  | EmptyString => (EmptyString, EmptyString)
  | String c s' =>
      if is_digit c then
        let '(d, r) := span_digits s' in (String c d, r)
      else (EmptyString, s)
  end.

(** Exactly [n] digits at the front of [s], and what follows them. *)
Fixpoint take_digits (n : nat) (s : string) : option (string * string) :=
  match n with
  | O => Some (EmptyString, s)
  | S n' =>
      match s with
      | String c s' =>
          if is_digit c then
            match take_digits n' s' with
            | Some (d, r) => Some (String c d, r)
            | None => None
            end
          else None
      | EmptyString => None
      end
  end.

Definition digit_value (c : ascii) : Z := Z.of_nat (nat_of_ascii c) - 48.

(** [int(s)] for a string of ASCII digits. *)
Definition int_of_digits (s : string) : Z :=
  fold_left (fun acc c => 10 * acc + digit_value c) (list_ascii_of_string s) 0.

(** [str(n)] for a non-negative integer. *)
Definition str_of_Z (n : Z) : string :=
  NilZero.string_of_uint (N.to_uint (Z.to_N n)).

(** [f"{n:02d}"] for a non-negative integer. *)
Definition fmt_02d (n : Z) : string :=
  if n <? 10 then "0" ++ str_of_Z n else str_of_Z n.

(** The anchor [$] of [re]: the end of the string, or just before a final
    newline. *)
Definition at_dollar (s : string) : bool :=
  String.eqb s "" || String.eqb s (String (ascii_of_nat 10) EmptyString).

(** [' '.join(l)] *)
Fixpoint join_sp (l : list string) : string :=
  match l with
  | [] => ""
  | [w] => w
  | w :: ws => w ++ " " ++ join_sp ws
  end.

End Py.

(* ===================================================================== *)
(** * Dates                                                               *)
(* ===================================================================== *)

Record date := mkDate { year : Z; month : Z; day : Z }.

#[global] Instance date_eq_dec : EqDecision date.
Proof. solve_decision. Defined.

Definition is_leap (y : Z) : bool :=
  (y mod 4 =? 0) && (negb (y mod 100 =? 0) || (y mod 400 =? 0)).

Definition days_in_month (y m : Z) : Z :=
  if m =? 2 then (if is_leap y then 29 else 28)
  else if (m =? 4) || (m =? 6) || (m =? 9) || (m =? 11) then 30
  else 31.

(** [date(y, m, d)]: [None] stands for [ValueError]. *)
Definition make_date (y m d : Z) : option date :=
  if (1 <=? y) && (y <=? 9999) && (1 <=? m) && (m <=? 12)
     && (1 <=? d) && (d <=? days_in_month y m)
  then Some (mkDate y m d) else None.

(** [a < b] on dates. *)
Definition date_ltb (a b : date) : bool :=
  (year a <? year b)
  || ((year a =? year b)
      && ((month a <? month b)
          || ((month a =? month b) && (day a <? day b)))).

(** [str(d)]: ISO format. *)
Definition date_iso (d : date) : string :=
  let y := Py.str_of_Z (year d) in
  let pad := String.string_of_list_ascii
               (List.repeat "0"%char (4 - String.length y)) in
  pad ++ y ++ "-" ++ Py.fmt_02d (month d) ++ "-" ++ Py.fmt_02d (day d).

(** ** [datetime.strptime(s, "%Y-%m-%d").date()]

    The format is compiled by [_strptime] to the regular expression
    [(?P<Y>\d\d\d\d)-(?P<m>1[0-2]|0[1-9]|[1-9])-(?P<d>3[0-1]|[1-2]\d|0[1-9]|[1-9]| [1-9])],
    matched at the start of the input; the match must consume the whole
    input, and the fields must form a date.  [None] is [ValueError]. *)

Definition in_range (lo hi : nat) (c : ascii) : bool :=
  let n := nat_of_ascii c in Nat.leb lo n && Nat.leb n hi.

(** The day field: the first alternative that matches wins (nothing follows
    it in the pattern, so there is no backtracking into it). *)
Definition match_day (s : string) : option (Z * string) :=
  match s with
  | String a (String b r) =>
      if Ascii.eqb a "3" && in_range 48 49 b then Some (30 + Py.digit_value b, r)
      else if in_range 49 50 a && Py.is_digit b
           then Some (10 * Py.digit_value a + Py.digit_value b, r)
      else if Ascii.eqb a "0" && in_range 49 57 b then Some (Py.digit_value b, r)
      else if in_range 49 57 a then Some (Py.digit_value a, String b r)
      else if Ascii.eqb a " " && in_range 49 57 b then Some (Py.digit_value b, r)
      else None
  | String a EmptyString =>
      if in_range 49 57 a then Some (Py.digit_value a, EmptyString) else None
  | EmptyString => None
  end.

(** What follows the month field: ["-"] and the day. *)
Definition match_dash_day (s : string) : option (Z * string) :=
  match s with
  | String c r => if Ascii.eqb c "-" then match_day r else None
  | EmptyString => None
  end.

(** The month field and the rest of the pattern: alternatives are tried in
    order, and the next one is tried when the rest fails to match. *)
Definition match_month_day (s : string) : option (Z * Z * string) :=
  let alt1 :=
    match s with
    | String a (String b r) =>
        if Ascii.eqb a "1" && in_range 48 50 b
        then match match_dash_day r with
             | Some (d, r') => Some (10 + Py.digit_value b, d, r')
             | None => None
             end
        else None
    | _ => None
    end in
  let alt2 :=
    match s with
    | String a (String b r) =>
        if Ascii.eqb a "0" && in_range 49 57 b
        then match match_dash_day r with
             | Some (d, r') => Some (Py.digit_value b, d, r')
             | None => None
             end
        else None
    | _ => None
    end in
  let alt3 :=
    match s with
    | String a r =>
        if in_range 49 57 a
        then match match_dash_day r with
             | Some (d, r') => Some (Py.digit_value a, d, r')
             | None => None
             end
        else None
    | EmptyString => None
    end in
  match alt1 with
  | Some x => Some x
  | None => match alt2 with Some x => Some x | None => alt3 end
  end.

Definition strptime_ymd (s : string) : option date :=
  match Py.take_digits 4 s with
  | Some (y, String c r) =>
      if Ascii.eqb c "-" then
        match match_month_day r with
        | Some (m, d, EmptyString) => make_date (Py.int_of_digits y) m d
        | _ => None
        end
      else None
  | _ => None
  end.

(* ===================================================================== *)
(** * Command parsing ([lark_bots/scan_service.py])                       *)
(* ===================================================================== *)

Record ScanCommand := mkScanCommand {
  scan_device_id : string;
  scan_start_date : date;
  scan_end_date : date
}.

Record ExportCommand := mkExportCommand {
  export_start_date : option date;
  export_end_date : option date;
  export_all : bool
}.

(** [re.match(r'^[\w-]+$', s)] *)
Fixpoint re_word_dash_tail (s : string) : bool :=
  match s with
  | EmptyString => true
  | String c s' =>
      if Py.is_word c || Ascii.eqb c "-" then re_word_dash_tail s'
      else Py.at_dollar s
  end.

Definition re_word_dash (s : string) : bool :=
  match s with
  | String c s' => (Py.is_word c || Ascii.eqb c "-") && re_word_dash_tail s'
  | EmptyString => false
  end.

(** [parse_scan_command], from [parts = args_text.split()] on; [today] is
    the value of [date.today()]. *)
Definition scan_command_of_parts (today : date) (parts : list string)
  : option ScanCommand :=
  match parts with
  | [] => None
  | device_id :: dates =>
      if negb (re_word_dash device_id)
         || Py.contains "date" (Py.lower device_id) then None
      else
        match dates with
        | [] => Some (mkScanCommand device_id today today)
        | [d1] =>
            match strptime_ymd d1 with
            | Some start_date => Some (mkScanCommand device_id start_date start_date)
            | None => None
            end
        | d1 :: d2 :: _ =>
            match strptime_ymd d1 with
            | Some start_date =>
                match strptime_ymd d2 with
                | Some end_date => Some (mkScanCommand device_id start_date end_date)
                | None => None
                end
            | None => None
            end
        end
  end.

(** [parse_scan_command] *)
Definition parse_scan_command (today : date) (text : string)
  : option ScanCommand :=
  let text := Py.strip text in
  if negb (Py.startswith "/scan" (Py.lower text)) then None else
  let args_text := Py.strip (Py.slice_from 5 text) in
  if Py.is_empty args_text then None else
  scan_command_of_parts today (Py.split_ws args_text).

(** [parse_export_command], from [parts = args_text.split()] on. *)
Definition export_command_of_parts (parts : list string)
  : option ExportCommand :=
  match parts with
  | [] => None
  | [d1] =>
      match strptime_ymd d1 with
      | Some start_date =>
          Some (mkExportCommand (Some start_date) (Some start_date) false)
      | None => None
      end
  | d1 :: d2 :: _ =>
      match strptime_ymd d1 with
      | Some start_date =>
          match strptime_ymd d2 with
          | Some end_date =>
              Some (mkExportCommand (Some start_date) (Some end_date) false)
          | None => None
          end
      | None => None
      end
  end.

(** [parse_export_command] *)
Definition parse_export_command (today : date) (text : string)
  : option ExportCommand :=
  let text := Py.strip text in
  if negb (Py.startswith "/export" (Py.lower text)) then None else
  let args_text := Py.strip (Py.slice_from 7 text) in
  if String.eqb (Py.lower args_text) "all"
  then Some (mkExportCommand None None true)
  else if Py.is_empty args_text
  then Some (mkExportCommand (Some today) (Some today) false)
  else export_command_of_parts (Py.split_ws args_text).

(** [str(command)] of a [ScanCommand] / [ExportCommand] (their [__str__]);
    the literals are the UTF-8 bytes of the source's. *)
Definition ScanCommand_str (c : ScanCommand) : string :=
  "设备=" ++ scan_device_id c ++ ", 日期="
    ++ date_iso (scan_start_date c) ++ "~" ++ date_iso (scan_end_date c).

Definition opt_date_str (d : option date) : string :=
  match d with Some d => date_iso d | None => "None" end.

Definition ExportCommand_str (c : ExportCommand) : string :=
  if export_all c then "导出全部数据"
  else "日期=" ++ opt_date_str (export_start_date c)
         ++ "~" ++ opt_date_str (export_end_date c).

(* ===================================================================== *)
(** * The single-flight task executor ([TaskExecutor])                    *)
(* ===================================================================== *)

(** The bodies guarded by [with self._lock] are atomic; each is one
    transition of the executor.  A started [threading.Thread] is a job in
    [threads] until its body ([_run_scan] / [_run_export]) has run. *)

Inductive job :=
| RunScan (command : ScanCommand) (chat_id : string)
| RunExport (command : ExportCommand) (chat_id : string).

Record TaskExecutor := mkTaskExecutor {
  is_running : bool;
  current_task : option string;
  threads : list job
}.

(** [TaskExecutor.__init__] *)
Definition TaskExecutor_init : TaskExecutor := mkTaskExecutor false None [].

Definition try_execute_scan (command : ScanCommand) (chat_id : string)
  (ex : TaskExecutor) : bool * TaskExecutor :=
  if is_running ex then (false, ex)
  else (true,
        mkTaskExecutor true (Some ("扫库: " ++ ScanCommand_str command))
                       (threads ex ++ [RunScan command chat_id])).

Definition try_execute_export (command : ExportCommand) (chat_id : string)
  (ex : TaskExecutor) : bool * TaskExecutor :=
  if is_running ex then (false, ex)
  else (true,
        mkTaskExecutor true (Some ("导出: " ++ ExportCommand_str command))
                       (threads ex ++ [RunExport command chat_id])).

(** What the [try] block of a worker body can do: the subprocess returns
    with an exit code, or something in the block raises. *)
Inductive job_outcome :=
| Exited (returncode : Z) (stdout stderr : string)
| Raised (message : string).

(** Messages sent to the chat by a worker. *)
Inductive notification :=
| ScanStarted (command : ScanCommand)
| ScanDone (command : ScanCommand) (stdout : string)
| ScanFailed (command : ScanCommand) (error_msg : string)
| ScanException (message : string)
| ExportStarted (command : ExportCommand)
| ExportDone (command : ExportCommand) (stdout : string)
| ExportFailed (error_msg : string)
| ExportException (message : string).

(** [stderr[-500:] if len(stderr) > 500 else stderr] *)
Definition error_tail (stderr : string) : string :=
  let n := String.length stderr in
  if Nat.ltb 500 n then Py.slice_from (n - 500) stderr else stderr.

(** The [finally] block shared by [_run_scan] and [_run_export]. *)
Definition clear_running (rest : list job) : TaskExecutor :=
  mkTaskExecutor false None rest.

(** [_run_scan]: start notice, outcome notice, then the [finally] block. *)
Definition run_scan (command : ScanCommand) (o : job_outcome)
  (rest : list job) : list notification * TaskExecutor :=
  let sent :=
    match o with
    | Exited rc out err =>
        if rc =? 0 then [ScanStarted command; ScanDone command out]
        else [ScanStarted command; ScanFailed command (error_tail err)]
    | Raised msg => [ScanStarted command; ScanException msg]
    end in
  (sent, clear_running rest).

(** [_run_export] *)
Definition run_export (command : ExportCommand) (o : job_outcome)
  (rest : list job) : list notification * TaskExecutor :=
  let sent :=
    match o with
    | Exited rc out err =>
        if rc =? 0 then [ExportStarted command; ExportDone command out]
        else [ExportStarted command; ExportFailed (error_tail err)]
    | Raised msg => [ExportStarted command; ExportException msg]
    end in
  (sent, clear_running rest).

(** The oldest live worker thread runs its body to the end. *)
Definition worker_finish (o : job_outcome) (ex : TaskExecutor)
  : list notification * TaskExecutor :=
  match threads ex with
  | RunScan c _ :: rest => run_scan c o rest
  | RunExport c _ :: rest => run_export c o rest
  | [] => ([], ex)
  end.

(** A request, whichever of the two entry points it goes through. *)
Definition try_execute (j : job) (ex : TaskExecutor) : bool * TaskExecutor :=
  match j with
  | RunScan c chat => try_execute_scan c chat ex
  | RunExport c chat => try_execute_export c chat ex
  end.

(** The executor's transitions and the states it can reach. *)
Inductive exec_step : TaskExecutor -> TaskExecutor -> Prop :=
| step_request j ex : exec_step ex (try_execute j ex).2
| step_finish o ex : threads ex <> [] -> exec_step ex (worker_finish o ex).2.

Inductive exec_reachable : TaskExecutor -> Prop :=
| reach_init : exec_reachable TaskExecutor_init
| reach_step ex ex' :
    exec_reachable ex -> exec_step ex ex' -> exec_reachable ex'.

(* ===================================================================== *)
(** * Entity parsing ([info_scan.py], helper functions)                   *)
(* ===================================================================== *)

(** Python-level outcomes: a value, or a raised exception. *)
Inductive exn :=
| OssError            (** an exception raised by an [oss2] call *)
| RetryError          (** [tenacity.RetryError], raised after the last attempt *)
| DbError             (** a [psycopg2] error other than a unique violation *)
| UniqueViolation     (** [psycopg2.errors.UniqueViolation] *)
| JSONDecodeError     (** [json.JSONDecodeError] *)
| AttributeError      (** [.get] on a value that is not a [dict] *)
| TypeError.          (** [len] of a value that has no length *)

Inductive result (A : Type) : Type :=
| Ok (a : A)
| Raise (e : exn).
Arguments Ok {A} a.
Arguments Raise {A} e.

(** The groups of
    [^session_(\d{4})(\d{2})(\d{2})_(\d{2})(\d{2})(\d{2})_\d+$]. *)
Definition session_id_groups (s : string)
  : option (string * string * string * string * string * string) :=
  if negb (String.prefix "session_" s) then None else
  match Py.take_digits 4 (Py.slice_from 8 s) with
  | Some (y, s1) =>
    match Py.take_digits 2 s1 with
    | Some (mo, s2) =>
      match Py.take_digits 2 s2 with
      | Some (d, String c3 s3) =>
        if negb (Ascii.eqb c3 "_") then None else
        match Py.take_digits 2 s3 with
        | Some (hh, s4) =>
          match Py.take_digits 2 s4 with
          | Some (mi, s5) =>
            match Py.take_digits 2 s5 with
            | Some (ss, String c6 s6) =>
              if negb (Ascii.eqb c6 "_") then None else
              let '(micro, r) := Py.span_digits s6 in
              if negb (Py.is_empty micro) && Py.at_dollar r
              then Some (y, mo, d, hh, mi, ss) else None
            | _ => None
            end
          | None => None
          end
        | None => None
        end
      | _ => None
      end
    | None => None
    end
  | None => None
  end.

(** The value returned by [parse_session_id]. *)
Definition parse_session_id_value (session_id : string)
  : string * string * option date :=
  match session_id_groups session_id with
  | Some (y, mo, d, hh, mi, ss) =>
      let year := Py.int_of_digits y in
      let month := Py.int_of_digits mo in
      let day := Py.int_of_digits d in
      let date_str :=
        Py.str_of_Z year ++ "-" ++ Py.fmt_02d month ++ "-" ++ Py.fmt_02d day in
      let time_str := hh ++ ":" ++ mi ++ ":" ++ ss in
      match make_date year month day with
      | Some date_obj => (date_str, time_str, Some date_obj)
      | None => ("", "", None)
      end
  | None => ("", "", None)
  end.

(** Whether [parse_session_id] logs its warning: the pattern matched and
    [date(year, month, day)] raised [ValueError]. *)
Definition parse_session_id_warns (session_id : string) : bool :=
  match session_id_groups session_id with
  | Some (y, mo, d, _, _, _) =>
      match make_date (Py.int_of_digits y) (Py.int_of_digits mo)
                      (Py.int_of_digits d) with
      | Some _ => false
      | None => true
      end
  | None => false
  end.

(** [is_date_in_range]; a [date] object is always truthy. *)
Definition is_date_in_range (session_date start_date end_date : option date)
  : bool :=
  match session_date with
  | None => false
  | Some sd =>
      match start_date, end_date with
      | None, None => true
      | _, _ =>
          if match start_date with Some s => date_ltb sd s | None => false end
          then false
          else if match end_date with Some e => date_ltb e sd | None => false end
          then false
          else true
      end
  end.

(** [_sbs_(\d+)\.mp4$] matched at the front of [t]: the digits. *)
Definition match_sbs_tail (t : string) : option string :=
  if String.prefix "_sbs_" t then
    let '(digits, r) := Py.span_digits (Py.slice_from 5 t) in
    if negb (Py.is_empty digits) && String.prefix ".mp4" r
       && Py.at_dollar (Py.slice_from 4 r)
    then Some digits else None
  else None.

(** [^(.+?)_sbs_(\d+)\.mp4$]: the lazy group takes the fewest characters
    (at least one, none of them a newline) after which the rest matches. *)
Fixpoint parse_mp4_from (label s : string) : option (string * string) :=
  match s with
  | EmptyString => None
  | String c s' =>
      if Ascii.eqb c (ascii_of_nat 10) then None
      else
        let label' := label ++ String c EmptyString in
        match match_sbs_tail s' with
        | Some n => Some (label', n)
        | None => parse_mp4_from label' s'
        end
  end.

(** [parse_mp4_filename] *)
Definition parse_mp4_filename (filename : string) : string * string :=
  match parse_mp4_from "" filename with
  | Some (camera, number) => (camera, number)
  | None => ("", "")
  end.

(** ** JSON values, as [json.load] returns them *)

#[local] Set Warnings "-register-all".

Inductive json :=
| JNull
| JBool (b : bool)
| JInt (n : Z)
| JFloat (mantissa exponent : Z)
| JString (s : string)
| JArray (items : list json)
| JObject (members : list (string * json)).

Fixpoint assoc {V : Type} (key : string) (l : list (string * V)) : option V :=
  match l with
  | [] => None
  | (k, v) :: l' => if String.eqb k key then Some v else assoc key l'
  end.

(** [d.get(key, default)]; [AttributeError] when [d] is not a [dict]. *)
Definition py_get (d : json) (key : string) (default : json) : result json :=
  match d with
  | JObject l =>
      Ok (match assoc key l with Some v => v | None => default end)
  | _ => Raise AttributeError
  end.

(** [len(x)]; [TypeError] on values without a length. *)
Definition py_len (x : json) : result Z :=
  match x with
  | JString s => Ok (Z.of_nat (String.length s))
  | JArray l => Ok (Z.of_nat (List.length l))
  | JObject l => Ok (Z.of_nat (List.length l))
  | _ => Raise TypeError
  end.

(** [get_nested_value(data, path, default)] with [path] already split. *)
Fixpoint get_nested_keys (current : json) (keys : list string)
  (default : json) : json :=
  match keys with
  | [] => current
  | key :: keys' =>
      match current with
      | JObject l =>
          match assoc key l with
          | Some v => get_nested_keys v keys' default
          | None => default
          end
      | _ => default
      end
  end.

Definition get_nested_value (data : json) (path : string) (default : json)
  : json :=
  get_nested_keys data (Py.split_on "." path) default.

(** A row of [fpv.sessions], as [prepare_session_record] builds it. *)
Record session_record := mkSessionRecord {
  s_session_id : string;
  s_device_id : string;
  s_collect_date : string;
  s_collect_time : string;
  s_start_time_utc : json;
  s_end_time_utc : json;
  s_task_description : json;
  s_scene : json;
  s_collect_site : json;
  s_operator_info : json;
  s_device_model : json;
  s_platform : json;
  s_resolution : json;
  s_fps : json;
  s_num_cameras : Z;
  s_raw_metadata_json : json
}.

(** A row of [fpv.segments], as [scan_segments] builds it. *)
Record segment_record := mkSegmentRecord {
  g_session_id : string;
  g_segment_number : string;
  g_down_file_name : string;
  g_down_oss_path : string;
  g_down_file_size_bytes : Z;
  g_front_file_name : string;
  g_front_oss_path : string;
  g_front_file_size_bytes : Z
}.

(** An entry of the [device_config] dictionary / a row of [fpv.devices];
    [mb_per_10min] in whole megabytes. *)
Record device_entry := mkDeviceEntry {
  mb_per_10min : Z;
  skip_scan : bool;
  device_is_active : bool
}.

(** The entry [ensure_device_exists] registers for an unknown device. *)
Definition default_device : device_entry := mkDeviceEntry 600 false true.

(* ===================================================================== *)
(** * The world: object store, relational store, configuration, log      *)
(* ===================================================================== *)

(** Calls on the [oss2.Bucket] object.  [ListObjectsV2 prefix delimiter page]
    is [list_objects_v2] for page number [page] of the listing (the
    continuation tokens number the pages). *)
Inductive oss_call :=
| ListObjectsV2 (prefix delimiter : string) (page : nat)
| ObjectExists (key : string)
| HeadObject (key : string)
| GetObjectToFile (key : string).

(** A stored object: its size, and what [json.load] makes of its content
    ([None]: not a JSON document). *)
Record oss_object := mkObject {
  content_length : Z;
  body : option json
}.

(** The bucket as the service presents it.  [object_pages prefix] are the
    successive pages of keys of the paginated listing under [prefix], the
    last one being the page with [is_truncated = False] (an empty list is
    one empty page).  [oss_fault n c] says that call [c], when it is the
    [n]-th call made on the bucket, raises. *)
Record Bucket := mkBucket {
  bucket_name : string;
  prefix_list : string -> list string;
  object_pages : string -> list (list string);
  objects : gmap string oss_object;
  oss_fault : nat -> oss_call -> bool
}.

(** The tables of the relational store. *)
Record Tables := mkTables {
  sessions : gmap string session_record;
  segments : gmap (string * string) segment_record;
  devices : gmap string device_entry;
  session_metadata : gmap string session_record
}.

(** Statements sent through the connection. *)
Inductive db_stmt :=
| SelectDevices
| SelectSession (session_id : string)
| SelectSegment (session_id segment_number : string)
| SelectSessionMetadata (session_id : string)
| InsertDevice (device_id : string)
| InsertSession (record : session_record)
| InsertSegment (record : segment_record)
| Commit.

Inductive db_event :=
| DbStmt (stmt : db_stmt) (raised : option exn)
| DbRollback.

Inductive level := DEBUG | INFO | WARNING | ERROR.

(** The warnings and errors the modelled functions log (records below
    [WARNING] are not modelled). *)
Inductive log_msg :=
| MsgLoadDevicesFailed
| MsgDeviceCreateFailed (device_id : string)
| MsgSessionCheckFailed
| MsgSegmentCheckFailed
| MsgObjectSizeUnavailable (object_key : string)
| MsgInvalidSessionDate (session_id : string)
| MsgInsertSessionFailed (session_id : string)
| MsgMetadataMissing (session_id : string)
| MsgInsertFailed
| MsgDebugLimitMetadata
| MsgJsonDecodeFailed
| MsgProcessingFailed
| MsgInsertSegmentFailed (segment_number : string)
| MsgSessionMissing (session_id : string)
| MsgListObjectsFailed
| MsgInvalidFilename (filename : string)
| MsgUnknownCamera (filename : string)
| MsgDebugLimitSegments
| MsgDbCheckFailed.

(** [working] is what the connection sees inside its current transaction,
    [committed] what the store holds; [db_fault n s] says that statement
    [s], when it is the [n]-th event on the connection, raises an error
    that is not a unique violation.  [slept] are the waits of the retry
    wrapper, in milliseconds, most recent first. *)
Record World := mkWorld {
  bucket : Bucket;
  oss_trace : list oss_call;
  slept : list Z;
  db_fault : nat -> db_stmt -> bool;
  committed : Tables;
  working : Tables;
  db_trace : list db_event;
  device_config : gmap string device_entry;
  log : list (level * log_msg)
}.

Definition with_oss_trace (t : list oss_call) (w : World) : World :=
  mkWorld (bucket w) t (slept w) (db_fault w) (committed w) (working w)
          (db_trace w) (device_config w) (log w).

Definition with_slept (s : list Z) (w : World) : World :=
  mkWorld (bucket w) (oss_trace w) s (db_fault w) (committed w) (working w)
          (db_trace w) (device_config w) (log w).

Definition with_committed (t : Tables) (w : World) : World :=
  mkWorld (bucket w) (oss_trace w) (slept w) (db_fault w) t (working w)
          (db_trace w) (device_config w) (log w).

Definition with_working (t : Tables) (w : World) : World :=
  mkWorld (bucket w) (oss_trace w) (slept w) (db_fault w) (committed w) t
          (db_trace w) (device_config w) (log w).

Definition with_db_trace (t : list db_event) (w : World) : World :=
  mkWorld (bucket w) (oss_trace w) (slept w) (db_fault w) (committed w)
          (working w) t (device_config w) (log w).

Definition with_device_config (c : gmap string device_entry) (w : World)
  : World :=
  mkWorld (bucket w) (oss_trace w) (slept w) (db_fault w) (committed w)
          (working w) (db_trace w) c (log w).

Definition with_log (l : list (level * log_msg)) (w : World) : World :=
  mkWorld (bucket w) (oss_trace w) (slept w) (db_fault w) (committed w)
          (working w) (db_trace w) (device_config w) l.

(** ** The state-and-error monad *)

Definition M (A : Type) : Type := World -> result A * World.

Definition ret {A : Type} (a : A) : M A := fun w => (Ok a, w).

Definition raise {A : Type} (e : exn) : M A := fun w => (Raise e, w).

Definition bind {A B : Type} (m : M A) (k : A -> M B) : M B :=
  fun w =>
    match m w with
    | (Ok a, w') => k a w'
    | (Raise e, w') => (Raise e, w')
    end.

(** [try: m except Exception as e: h e] *)
Definition catch {A : Type} (m : M A) (h : exn -> M A) : M A :=
  fun w =>
    match m w with
    | (Ok a, w') => (Ok a, w')
    | (Raise e, w') => h e w'
    end.

Definition get_world : M World := fun w => (Ok w, w).

Definition modify (f : World -> World) : M unit := fun w => (Ok tt, f w).

Definition lift_result {A : Type} (r : result A) : M A := fun w => (r, w).

Declare Scope m_scope.
Delimit Scope m_scope with M.
Notation "x <- m ;; k" := (bind m (fun x => k))
  (at level 100, m at next level, right associativity) : m_scope.
Notation "m ;; k" := (bind m (fun _ => k))
  (at level 100, right associativity) : m_scope.
Local Open Scope m_scope.

(** [logging.warning] / [logging.error] *)
Definition log_at (l : level) (m : log_msg) : M unit :=
  modify (fun w => with_log ((l, m) :: log w) w).

(** Loops: the body either goes on with the next element ([continue], or
    falling off the end of the body) or leaves the function ([return]). *)
Inductive flow (S R : Type) : Type :=
| Next (s : S)
| Return (r : R).
Arguments Next {S R} s.
Arguments Return {S R} r.

Fixpoint foreach {X S R : Type} (l : list X) (body : X -> S -> M (flow S R))
  (s : S) : M (flow S R) :=
  match l with
  | [] => ret (Next s)
  | x :: l' =>
      f <- body x s ;;
      match f with
      | Next s' => foreach l' body s'
      | Return r => ret (Return r)
      end
  end.

(** A loop without [return]. *)
Fixpoint fold_m {X S : Type} (l : list X) (body : X -> S -> M S) (s : S)
  : M S :=
  match l with
  | [] => ret s
  | x :: l' => s' <- body x s ;; fold_m l' body s'
  end.

(** ** Calls on the bucket *)

(** Any call: it is traced, and raises when the oracle says so. *)
Definition oss_request (c : oss_call) : M unit :=
  fun w =>
    let n := List.length (oss_trace w) in
    let w' := with_oss_trace (c :: oss_trace w) w in
    if oss_fault (bucket w) n c then (Raise OssError, w') else (Ok tt, w').

(** [bucket.object_exists(key)] *)
Definition bucket_object_exists (key : string) : M bool :=
  oss_request (ObjectExists key) ;;
  w <- get_world ;;
  ret (match objects (bucket w) !! key with Some _ => true | None => false end).

(** [bucket.head_object(key).content_length] *)
Definition bucket_head_object (key : string) : M Z :=
  oss_request (HeadObject key) ;;
  w <- get_world ;;
  match objects (bucket w) !! key with
  | Some o => ret (content_length o)
  | None => raise OssError
  end.

(** [bucket.get_object_to_file(key, local_path)]: the downloaded file. *)
Definition bucket_get_object_to_file (key : string) : M oss_object :=
  oss_request (GetObjectToFile key) ;;
  w <- get_world ;;
  match objects (bucket w) !! key with
  | Some o => ret o
  | None => raise OssError
  end.

(** [json.load(f)] on the downloaded file. *)
Definition json_load (file : oss_object) : M json :=
  match body file with
  | Some j => ret j
  | None => raise JSONDecodeError
  end.

(** ** The retry decorator
    [@retry(retry=retry_if_exception_type(Exception),
            stop=stop_after_attempt(5),
            wait=wait_exponential(multiplier=0.5, min=1, max=10))] *)

(** [wait_exponential(multiplier=0.5, min=1, max=10)] after attempt number
    [attempt] (from 1), in milliseconds:
    [max(min, min(multiplier * 2 ** (attempt - 1), max))]. *)
Definition wait_exponential_ms (attempt : nat) : Z :=
  Z.max 1000 (Z.min (500 * 2 ^ (Z.of_nat attempt - 1)) 10000).

Definition sleep_ms (t : Z) : M unit :=
  modify (fun w => with_slept (t :: slept w) w).

(** Attempt number [attempt], with [remaining] attempts left including
    this one. *)
Fixpoint retry_loop {A : Type} (attempt remaining : nat) (f : M A) : M A :=
  match remaining with
  | O => raise RetryError
  | S r =>
      catch f (fun _ =>
        match r with
        | O => raise RetryError
        | S _ =>
            sleep_ms (wait_exponential_ms attempt) ;;
            retry_loop (S attempt) r f
        end)
  end.

Definition retry {A : Type} (f : M A) : M A := retry_loop 1 5 f.

(** ** Calls on the connection *)

Definition trace_db (e : db_event) (w : World) : World :=
  with_db_trace (e :: db_trace w) w.

Definition set_sessions (m : gmap string session_record) (t : Tables)
  : Tables :=
  mkTables m (segments t) (devices t) (session_metadata t).

Definition set_segments (m : gmap (string * string) segment_record)
  (t : Tables) : Tables :=
  mkTables (sessions t) m (devices t) (session_metadata t).

Definition set_devices (m : gmap string device_entry) (t : Tables) : Tables :=
  mkTables (sessions t) (segments t) m (session_metadata t).

(** The effect of a statement on the tables seen by the transaction.  The
    primary key of [fpv.sessions] is [session_id]; [fpv.segments] is unique
    on [(session_id, segment_number)]; the device insert is
    [ON CONFLICT (device_id) DO NOTHING]. *)
Definition apply_stmt (s : db_stmt) (t : Tables) : result Tables :=
  match s with
  | InsertDevice d =>
      match devices t !! d with
      | Some _ => Ok t
      | None => Ok (set_devices (<[d := default_device]> (devices t)) t)
      end
  | InsertSession r =>
      match sessions t !! s_session_id r with
      | Some _ => Raise UniqueViolation
      | None => Ok (set_sessions (<[s_session_id r := r]> (sessions t)) t)
      end
  | InsertSegment r =>
      let k := (g_session_id r, g_segment_number r) in
      match segments t !! k with
      | Some _ => Raise UniqueViolation
      | None => Ok (set_segments (<[k := r]> (segments t)) t)
      end
  | _ => Ok t
  end.

(** [cur.execute(stmt)] *)
Definition db_execute (s : db_stmt) : M unit :=
  fun w =>
    let n := List.length (db_trace w) in
    if db_fault w n s then (Raise DbError, trace_db (DbStmt s (Some DbError)) w)
    else match apply_stmt s (working w) with
         | Ok t => (Ok tt, with_working t (trace_db (DbStmt s None) w))
         | Raise e => (Raise e, trace_db (DbStmt s (Some e)) w)
         end.

(** [conn.commit()] *)
Definition db_commit : M unit :=
  fun w =>
    let n := List.length (db_trace w) in
    if db_fault w n Commit
    then (Raise DbError, trace_db (DbStmt Commit (Some DbError)) w)
    else (Ok tt, with_committed (working w) (trace_db (DbStmt Commit None) w)).

(** [conn.rollback()] on a connection that is open: the pending writes are
    dropped.  The oracle [db_fault] speaks of [execute] and [commit] only; a
    rollback that raises because the connection is gone is outside the
    model, and the statements that would depend on it are made under the
    condition that the handlers which roll back after such a failure are
    not reached. *)
Definition db_rollback : M unit :=
  modify (fun w => with_working (committed w) (trace_db DbRollback w)).

(** ** Store access of [info_scan.py] *)

(** [load_device_config]: the rows of [fpv.devices], or [{}] on failure. *)
Definition load_device_config : M (gmap string device_entry) :=
  catch
    (db_execute SelectDevices ;;
     w <- get_world ;;
     ret (devices (working w)))
    (fun _ => log_at ERROR MsgLoadDevicesFailed ;; ret ∅).

(** [ensure_device_exists] *)
Definition ensure_device_exists (device_id : string) : M bool :=
  w <- get_world ;;
  match device_config w !! device_id with
  | Some e =>
      if skip_scan e then ret false
      else if negb (device_is_active e) then ret false
      else ret true
  | None =>
      catch
        (db_execute (InsertDevice device_id) ;;
         db_commit ;;
         modify (fun w =>
           with_device_config (<[device_id := default_device]> (device_config w)) w) ;;
         ret true)
        (fun _ =>
           log_at ERROR (MsgDeviceCreateFailed device_id) ;;
           db_rollback ;;
           ret false)
  end.

(** [is_session_exists] *)
Definition is_session_exists (session_id : string) : M bool :=
  catch
    (db_execute (SelectSession session_id) ;;
     w <- get_world ;;
     ret (match sessions (working w) !! session_id with
          | Some _ => true
          | None => false
          end))
    (fun _ => log_at ERROR MsgSessionCheckFailed ;; ret false).

(** [is_segment_exists] *)
Definition is_segment_exists (session_id segment_number : string) : M bool :=
  catch
    (db_execute (SelectSegment session_id segment_number) ;;
     w <- get_world ;;
     ret (match segments (working w) !! (session_id, segment_number) with
          | Some _ => true
          | None => false
          end))
    (fun _ => log_at ERROR MsgSegmentCheckFailed ;; ret false).

(** [insert_session] *)
Definition insert_session (record : session_record) : M bool :=
  catch
    (db_execute (InsertSession record) ;;
     db_commit ;;
     ret true)
    (fun e =>
       match e with
       | UniqueViolation => db_rollback ;; ret false
       | _ =>
           log_at ERROR (MsgInsertSessionFailed (s_session_id record)) ;;
           db_rollback ;;
           ret false
       end).

(** [insert_segment] *)
Definition insert_segment (record : segment_record) : M bool :=
  catch
    (db_execute (InsertSegment record) ;;
     db_commit ;;
     ret true)
    (fun e =>
       match e with
       | UniqueViolation => db_rollback ;; ret false
       | _ =>
           log_at ERROR (MsgInsertSegmentFailed (g_segment_number record)) ;;
           db_rollback ;;
           ret false
       end).

(** ** Storage access of [info_scan.py] (retry-decorated) *)

(** [list_prefixes(bucket, prefix)] *)
Definition list_prefixes (prefix : string) : M (list string) :=
  retry
    (oss_request (ListObjectsV2 prefix "/" 0) ;;
     w <- get_world ;;
     ret (prefix_list (bucket w) prefix)).

(** The pages a listing hands out: at least one. *)
Definition pages_of (b : Bucket) (prefix : string) : list (list string) :=
  match object_pages b prefix with
  | [] => [[]]
  | ps => ps
  end.

(** The [while True] loop of [list_objects]: one request per page, until
    the page that is not truncated. *)
Fixpoint list_objects_loop (prefix : string) (page : nat)
  (pages : list (list string)) (objs : list string) : M (list string) :=
  match pages with
  | [] => ret objs
  | p :: rest =>
      oss_request (ListObjectsV2 prefix "" page) ;;
      list_objects_loop prefix (S page) rest (objs ++ p)
  end.

(** [list_objects(bucket, prefix)] *)
Definition list_objects (prefix : string) : M (list string) :=
  retry
    (w <- get_world ;;
     list_objects_loop prefix 0 (pages_of (bucket w) prefix) []).

(** [get_object_size(bucket, object_key)] *)
Definition get_object_size (object_key : string) : M Z :=
  retry
    (catch
       (bucket_head_object object_key)
       (fun _ =>
          log_at WARNING (MsgObjectSizeUnavailable object_key) ;;
          ret 0)).

(** [parse_session_id], with its warning. *)
Definition parse_session_id (session_id : string)
  : M (string * string * option date) :=
  (if parse_session_id_warns session_id
   then log_at WARNING (MsgInvalidSessionDate session_id)
   else ret tt) ;;
  ret (parse_session_id_value session_id).

(** [prepare_session_record] *)
Definition prepare_session_record (device_id session_id : string)
  (metadata : json) : M session_record :=
  start_time_iso <- lift_result (py_get metadata "start_time_utc_iso8601" (JString "")) ;;
  end_time_iso <- lift_result (py_get metadata "end_time_utc_iso8601" (JString "")) ;;
  parsed <- parse_session_id session_id ;;
  let '(collect_date_str, collect_time_str, _) := parsed in
  task_info <- lift_result (py_get metadata "task_info" (JObject [])) ;;
  camera_settings <- lift_result (py_get metadata "camera_settings" (JObject [])) ;;
  device_info <- lift_result (py_get metadata "device_info" (JObject [])) ;;
  operator_height <- lift_result (py_get task_info "operator_height" JNull) ;;
  let operator_info :=
    match operator_height with
    | JNull => JNull
    | h => JObject [("operator_height", h)]
    end in
  let collect_site :=
    get_nested_value metadata "task_info.collect_site" (JString "N/A") in
  cams <- lift_result (py_get camera_settings "stereo_cameras" (JArray [])) ;;
  num_cameras <- lift_result (py_len cams) ;;
  task_description <- lift_result (py_get task_info "task_description" JNull) ;;
  scene <- lift_result (py_get task_info "scene" JNull) ;;
  model <- lift_result (py_get device_info "model" JNull) ;;
  platform <- lift_result (py_get device_info "platform" JNull) ;;
  resolution <- lift_result (py_get camera_settings "resolution" JNull) ;;
  fps <- lift_result (py_get camera_settings "fps" JNull) ;;
  ret (mkSessionRecord session_id device_id collect_date_str collect_time_str
         start_time_iso end_time_iso task_description scene collect_site
         operator_info model platform resolution fps num_cameras metadata).

(* ===================================================================== *)
(** * The metadata phase ([scan_metadata])                                *)
(* ===================================================================== *)

(** The statistics dictionaries, keyed as in the source. *)
Definition stat (key : string) (stats : gmap string nat) : nat :=
  default O (stats !! key).

(** [stats[key] += n] *)
Definition add_stat (key : string) (n : nat) (stats : gmap string nat)
  : gmap string nat :=
  <[key := (stat key stats + n)%nat]> stats.

Definition incr (key : string) (stats : gmap string nat) : gmap string nat :=
  add_stat key 1 stats.

Definition METADATA_FILENAME : string := "metadata.json".

Definition metadata_stats_init : gmap string nat :=
  list_to_map
    [("扫描设备数", O); ("扫描会话数", O); ("新增会话数", O);
     ("已存在会话数", O); ("跳过会话数", O); ("metadata不存在", O);
     ("解析失败数", O); ("插入失败数", O)].

(** [session_prefix.rstrip("/").split("/")[-1]] *)
Definition session_id_of (session_prefix : string) : string :=
  Py.last_item (Py.split_on "/" (Py.rstrip_char "/" session_prefix)).

(** [if device_id_filter and device_id != device_id_filter] *)
Definition filtered_out (device_id_filter : option string) (device_id : string)
  : bool :=
  match device_id_filter with
  | Some f => negb (Py.is_empty f) && negb (String.eqb device_id f)
  | None => false
  end.

(** The body of the session loop of [scan_metadata].  Nothing in the [try]
    block can raise after it has touched [stats], so the handlers see the
    statistics the block started with. *)
Definition scan_metadata_session (device_id : string)
  (start_date end_date : option date) (debug_mode : bool)
  (session_prefix : string) (stats : gmap string nat)
  : M (flow (gmap string nat) (gmap string nat)) :=
  let session_id := session_id_of session_prefix in
  let stats := incr "扫描会话数" stats in
  parsed <- parse_session_id session_id ;;
  let '(_, _, session_date) := parsed in
  if negb (is_date_in_range session_date start_date end_date)
  then ret (Next (incr "跳过会话数" stats))
  else
    found <- is_session_exists session_id ;;
    if found then ret (Next (incr "已存在会话数" stats))
    else
      let oss_key := session_prefix ++ METADATA_FILENAME in
      catch
        (present <- bucket_object_exists oss_key ;;
         if negb present
         then log_at WARNING (MsgMetadataMissing session_id) ;;
              ret (Next (incr "metadata不存在" stats))
         else
           file <- bucket_get_object_to_file oss_key ;;
           metadata <- json_load file ;;
           record <- prepare_session_record device_id session_id metadata ;;
           inserted <- insert_session record ;;
           stats' <- (if inserted then ret (incr "新增会话数" stats)
                      else log_at WARNING MsgInsertFailed ;;
                           ret (incr "插入失败数" stats)) ;;
           if debug_mode && Nat.leb 5 (stat "新增会话数" stats')
           then log_at WARNING MsgDebugLimitMetadata ;; ret (Return stats')
           else ret (Next stats'))
        (fun e =>
           match e with
           | JSONDecodeError =>
               log_at ERROR MsgJsonDecodeFailed ;;
               ret (Next (incr "解析失败数" stats))
           | _ =>
               log_at ERROR MsgProcessingFailed ;;
               ret (Next (incr "解析失败数" stats))
           end).

(** [s.rstrip("/").split("/")[-1].startswith("session_")] *)
Definition is_session_prefix (s : string) : bool :=
  Py.startswith "session_" (session_id_of s).

(** The body of the device loop of [scan_metadata]. *)
Definition scan_metadata_device (start_date end_date : option date)
  (device_id_filter : option string) (debug_mode : bool)
  (device_prefix : string) (stats : gmap string nat)
  : M (flow (gmap string nat) (gmap string nat)) :=
  let device_id := Py.rstrip_char "/" device_prefix in
  if filtered_out device_id_filter device_id then ret (Next stats)
  else
    usable <- ensure_device_exists device_id ;;
    if negb usable then ret (Next stats)
    else
      let stats := incr "扫描设备数" stats in
      session_prefixes <- list_prefixes device_prefix ;;
      let valid_sessions := List.filter is_session_prefix session_prefixes in
      foreach valid_sessions
        (scan_metadata_session device_id start_date end_date debug_mode)
        stats.

Definition flow_value {S : Type} (f : flow S S) : S :=
  match f with
  | Next s => s
  | Return s => s
  end.

(** [scan_metadata] *)
Definition scan_metadata (start_date end_date : option date)
  (device_id_filter : option string) (debug_mode : bool)
  : M (gmap string nat) :=
  device_prefixes <- list_prefixes "" ;;
  f <- foreach device_prefixes
         (scan_metadata_device start_date end_date device_id_filter debug_mode)
         metadata_stats_init ;;
  ret (flow_value f).

(* ===================================================================== *)
(** * The segment phase ([scan_segments])                                 *)
(* ===================================================================== *)

(** The three keys the grouping loop stores for one camera of a segment. *)
Record camera_file := mkCameraFile {
  file_name : string;
  oss_path : string;
  file_size_bytes : Z
}.

(** An entry of [segments_dict]: the [down_*] keys and the [front_*] keys,
    each triple present or absent as a whole. *)
Record segment_files := mkSegmentFiles {
  down_file : option camera_file;
  front_file : option camera_file
}.

Definition no_files : segment_files := mkSegmentFiles None None.

(** [segments_dict]: a dictionary in insertion order. *)
Fixpoint dict_update (key : string) (f : segment_files -> segment_files)
  (d : list (string * segment_files)) : list (string * segment_files) :=
  match d with
  | [] => [(key, f no_files)]
  | (k, v) :: d' =>
      if String.eqb k key then (k, f v) :: d'
      else (k, v) :: dict_update key f d'
  end.

Definition set_down (c : camera_file) (v : segment_files) : segment_files :=
  mkSegmentFiles (Some c) (front_file v).

Definition set_front (c : camera_file) (v : segment_files) : segment_files :=
  mkSegmentFiles (down_file v) (Some c).

(** [sorted(segments_dict.items())]: ascending by key (keys are distinct,
    so the values are never compared). *)
Fixpoint insert_sorted (x : string * segment_files)
  (l : list (string * segment_files)) : list (string * segment_files) :=
  match l with
  | [] => [x]
  | y :: l' =>
      if String.leb x.1 y.1 then x :: y :: l' else y :: insert_sorted x l'
  end.

Fixpoint sorted_items (d : list (string * segment_files))
  : list (string * segment_files) :=
  match d with
  | [] => []
  | x :: d' => insert_sorted x (sorted_items d')
  end.

Definition segments_stats_init : gmap string nat :=
  list_to_map
    [("扫描设备数", O); ("扫描会话数", O); ("处理会话数", O);
     ("新增视频段数", O); ("已存在视频段数", O); ("跳过会话数", O);
     ("未配对段数", O); ("文件名无效数", O); ("会话不存在数", O)].

(** [obj_key.split("/")[-1]] *)
Definition basename (obj_key : string) : string :=
  Py.last_item (Py.split_on "/" obj_key).

(** The body of the grouping loop: the state is [segments_dict] and
    [invalid_filenames]. *)
Definition group_object (obj_key : string)
  (st : list (string * segment_files) * nat)
  : M (list (string * segment_files) * nat) :=
  let '(segments_dict, invalid_filenames) := st in
  let filename := basename obj_key in
  let '(camera_type, segment_number) := parse_mp4_filename filename in
  if Py.is_empty camera_type || Py.is_empty segment_number
  then log_at WARNING (MsgInvalidFilename filename) ;;
       ret (segments_dict, S invalid_filenames)
  else
    w <- get_world ;;
    let oss_path := "oss://" ++ bucket_name (bucket w) ++ "/" ++ obj_key in
    file_size_bytes <- get_object_size obj_key ;;
    let camera_lower := Py.lower camera_type in
    let c := mkCameraFile filename oss_path file_size_bytes in
    if Py.contains "down" camera_lower
    then ret (dict_update segment_number (set_down c) segments_dict,
              invalid_filenames)
    else if Py.contains "front" camera_lower
    then ret (dict_update segment_number (set_front c) segments_dict,
              invalid_filenames)
    else log_at WARNING (MsgUnknownCamera filename) ;;
         ret (segments_dict, S invalid_filenames).

(** The counters of the pairing loop and the set of new segments. *)
Record pair_state := mkPairState {
  paired_new : nat;
  paired_exists : nat;
  unpaired : nat;
  new_segments : gset (string * string)
}.

(** What [scan_segments] returns. *)
Definition segments_result : Type := gmap string nat * gset (string * string).

(** The body of the pairing loop. *)
Definition pair_segment (session_id : string) (debug_mode : bool)
  (stats : gmap string nat) (item : string * segment_files) (st : pair_state)
  : M (flow pair_state segments_result) :=
  let '(segment_number, files) := item in
  match down_file files, front_file files with
  | Some down, Some front =>
      found <- is_segment_exists session_id segment_number ;;
      if found
      then ret (Next (mkPairState (paired_new st) (S (paired_exists st))
                                  (unpaired st) (new_segments st)))
      else
        let record :=
          mkSegmentRecord session_id segment_number
            (file_name down) (oss_path down) (file_size_bytes down)
            (file_name front) (oss_path front) (file_size_bytes front) in
        inserted <- insert_segment record ;;
        let st' :=
          if inserted
          then mkPairState (S (paired_new st)) (paired_exists st) (unpaired st)
                           ({[ (session_id, segment_number) ]} ∪ new_segments st)
          else st in
        if debug_mode && Nat.leb 5 (stat "新增视频段数" stats + paired_new st')
        then
          log_at WARNING MsgDebugLimitSegments ;;
          ret (Return
                 (add_stat "未配对段数" (unpaired st')
                    (add_stat "已存在视频段数" (paired_exists st')
                       (add_stat "新增视频段数" (paired_new st') stats)),
                  new_segments st'))
        else ret (Next st')
  | _, _ =>
      ret (Next (mkPairState (paired_new st) (paired_exists st)
                             (S (unpaired st)) (new_segments st)))
  end.

(** The body of the session loop of [scan_segments]; the loop state is
    [stats] and [new_segments]. *)
Definition scan_segments_session (start_date end_date : option date)
  (debug_mode : bool) (session_prefix : string) (st : segments_result)
  : M (flow segments_result segments_result) :=
  let '(stats, new_segs) := st in
  let session_id := session_id_of session_prefix in
  let stats := incr "扫描会话数" stats in
  parsed <- parse_session_id session_id ;;
  let '(_, _, session_date) := parsed in
  if negb (is_date_in_range session_date start_date end_date)
  then ret (Next (incr "跳过会话数" stats, new_segs))
  else
    found <- is_session_exists session_id ;;
    if negb found
    then log_at WARNING (MsgSessionMissing session_id) ;;
         ret (Next (incr "会话不存在数" stats, new_segs))
    else
      let stats := incr "处理会话数" stats in
      let segments_prefix := session_prefix ++ "segments/" in
      listed <- catch (objs <- list_objects segments_prefix ;; ret (Some objs))
                      (fun _ => log_at ERROR MsgListObjectsFailed ;; ret None) ;;
      match listed with
      | None => ret (Next (stats, new_segs))
      | Some objs =>
          let mp4_objects := List.filter (Py.endswith ".mp4") objs in
          match mp4_objects with
          | [] => ret (Next (stats, new_segs))
          | _ =>
              grouped <- fold_m mp4_objects group_object ([], O) ;;
              let '(segments_dict, invalid_filenames) := grouped in
              let stats :=
                if Nat.ltb 0 invalid_filenames
                then add_stat "文件名无效数" invalid_filenames stats
                else stats in
              f <- foreach (sorted_items segments_dict)
                     (pair_segment session_id debug_mode stats)
                     (mkPairState O O O new_segs) ;;
              match f with
              | Return r => ret (Return r)
              | Next p =>
                  ret (Next
                         (add_stat "未配对段数" (unpaired p)
                            (add_stat "已存在视频段数" (paired_exists p)
                               (add_stat "新增视频段数" (paired_new p) stats)),
                          new_segments p))
              end
          end
      end.

(** The body of the device loop of [scan_segments]. *)
Definition scan_segments_device (start_date end_date : option date)
  (device_id_filter : option string) (debug_mode : bool)
  (device_prefix : string) (st : segments_result)
  : M (flow segments_result segments_result) :=
  let '(stats, new_segs) := st in
  let device_id := Py.rstrip_char "/" device_prefix in
  if filtered_out device_id_filter device_id then ret (Next st)
  else
    w <- get_world ;;
    match device_config w !! device_id with
    | None => ret (Next st)
    | Some e =>
        if skip_scan e then ret (Next st)
        else
          let stats := incr "扫描设备数" stats in
          session_prefixes <- list_prefixes device_prefix ;;
          let valid_sessions := List.filter is_session_prefix session_prefixes in
          foreach valid_sessions
            (scan_segments_session start_date end_date debug_mode)
            (stats, new_segs)
    end.

(** [scan_segments] *)
Definition scan_segments (start_date end_date : option date)
  (device_id_filter : option string) (debug_mode : bool)
  : M segments_result :=
  device_prefixes <- list_prefixes "" ;;
  f <- foreach device_prefixes
         (scan_segments_device start_date end_date device_id_filter debug_mode)
         (segments_stats_init, ∅) ;;
  ret (flow_value f).

(** The part of [main] that runs the metadata phase: the device
    configuration is loaded from the store, then [scan_metadata] runs. *)
Definition main_metadata (start_date end_date : option date)
  (device_id_filter : option string) (debug_mode : bool)
  : M (gmap string nat) :=
  cfg <- load_device_config ;;
  modify (with_device_config cfg) ;;
  scan_metadata start_date end_date device_id_filter debug_mode.

(* ===================================================================== *)
(** * [metadata_scan.py]                                                  *)
(* ===================================================================== *)

Module MetadataScan.

(** [is_session_exists] of [metadata_scan.py], on table
    [session_info.session_metadata]. *)
Definition is_session_exists (session_id : string) : M bool :=
  catch
    (db_execute (SelectSessionMetadata session_id) ;;
     w <- get_world ;;
     ret (match session_metadata (working w) !! session_id with
          | Some _ => true
          | None => false
          end))
    (fun _ => log_at ERROR MsgDbCheckFailed ;; ret false).

(** [list_prefixes] of [metadata_scan.py] *)
Definition list_prefixes (prefix : string) : M (list string) :=
  retry
    (oss_request (ListObjectsV2 prefix "/" 0) ;;
     w <- get_world ;;
     ret (prefix_list (bucket w) prefix)).

End MetadataScan.

(* ===================================================================== *)
(** * Vocabulary of the statements                                        *)
(* ===================================================================== *)

(** A token of a command line: non-empty and free of whitespace. *)
Definition is_token (w : string) : bool :=
  negb (Py.is_empty w)
  && forallb (fun c => negb (Py.is_space c)) (list_ascii_of_string w).

(** A text of ASCII characters ([str.isascii]).  On such texts the
    character classes of this model and those of Python ([\w], [\d],
    [str.split], [str.lower]) are the same. *)
Definition ascii_only (s : string) : bool :=
  forallb (fun c => Nat.ltb (nat_of_ascii c) 128) (list_ascii_of_string s).

(** The text of a command: its name and its arguments, separated by single
    spaces. *)
Definition command_text (name : string) (args : list string) : string :=
  Py.join_sp (name :: args).

(* ===================================================================== *)
(** * Facts about the string primitives                                   *)
(* ===================================================================== *)

Section PyFacts.

Lemma is_token_cons c w :
  is_token (String c w) = true ->
  Py.is_space c = false /\ (w = EmptyString \/ is_token w = true).
Proof.
  unfold is_token. simpl. intros H.
  apply andb_prop in H as [Hc Hw]. apply negb_true_iff in Hc.
  split; [exact Hc|]. destruct w as [|c' w']; [now left|right].
  simpl in *. exact Hw.
Qed.

Lemma is_token_nonempty w : is_token w = true -> w <> EmptyString.
Proof. destruct w; [discriminate|congruence]. Qed.

Lemma lstrip_token w s :
  is_token w = true -> Py.lstrip (w ++ s) = w ++ s.
Proof.
  destruct w as [|c w]; [discriminate|]. intros H.
  apply is_token_cons in H as [Hc _]. simpl. now rewrite Hc.
Qed.

Lemma rstrip_cons c s :
  Py.rstrip (String c s)
  = if Py.is_space c && Py.is_empty (Py.rstrip s) then EmptyString
    else String c (Py.rstrip s).
Proof. reflexivity. Qed.

Lemma rstrip_fixed_app s t :
  Py.rstrip t = t -> t <> EmptyString -> Py.rstrip (s ++ t) = s ++ t.
Proof.
  intros Ht Hne.
  assert (Hemp : forall u, Py.is_empty (u ++ t) = false).
  { intros [|a u]; simpl; [|reflexivity]. destruct t; [congruence|reflexivity]. }
  induction s as [|c s IH]; simpl; [exact Ht|].
  rewrite IH, Hemp, andb_false_r. reflexivity.
Qed.

Lemma rstrip_token w : is_token w = true -> Py.rstrip w = w.
Proof.
  induction w as [|c w IH]; [discriminate|]. intros H.
  apply is_token_cons in H as [Hc [->|Hw]]; simpl.
  - now rewrite Hc.
  - rewrite (IH Hw), Hc. reflexivity.
Qed.

Lemma join_sp_cons w ws :
  ws <> [] -> Py.join_sp (w :: ws) = w ++ " " ++ Py.join_sp ws.
Proof. destruct ws; [congruence|reflexivity]. Qed.

Lemma join_sp_nonempty ws :
  ws <> [] -> forallb is_token ws = true -> Py.join_sp ws <> EmptyString.
Proof.
  destruct ws as [|w ws]; [congruence|]. intros _ H.
  simpl in H. apply andb_prop in H as [Hw _].
  destruct w as [|c w]; [discriminate|].
  destruct ws; simpl; congruence.
Qed.

Lemma rstrip_join_sp ws :
  ws <> [] -> forallb is_token ws = true ->
  Py.rstrip (Py.join_sp ws) = Py.join_sp ws.
Proof.
  induction ws as [|w ws IH]; [congruence|]. intros _ H.
  simpl in H. apply andb_prop in H as [Hw Hws].
  destruct ws as [|w2 ws].
  - simpl. now apply rstrip_token.
  - rewrite join_sp_cons by congruence.
    assert (Hne : Py.join_sp (w2 :: ws) <> EmptyString)
      by (apply join_sp_nonempty; [congruence|exact Hws]).
    apply rstrip_fixed_app.
    + change (" " ++ Py.join_sp (w2 :: ws))
        with (String " "%char (Py.join_sp (w2 :: ws))).
      rewrite rstrip_cons, IH by (congruence || exact Hws).
      destruct (Py.join_sp (w2 :: ws)); [congruence|reflexivity].
    + discriminate.
Qed.

Lemma strip_join_sp ws :
  ws <> [] -> forallb is_token ws = true ->
  Py.strip (Py.join_sp ws) = Py.join_sp ws.
Proof.
  intros Hne H. unfold Py.strip.
  assert (Hl : Py.lstrip (Py.join_sp ws) = Py.join_sp ws).
  { destruct ws as [|w ws]; [congruence|].
    simpl in H. apply andb_prop in H as [Hw _].
    destruct ws as [|w2 ws].
    - simpl. destruct w as [|c w]; [discriminate|].
      apply is_token_cons in Hw as [Hc _]. simpl. now rewrite Hc.
    - rewrite join_sp_cons by congruence. now apply lstrip_token. }
  rewrite Hl. now apply rstrip_join_sp.
Qed.

Lemma split_ws_token w : is_token w = true -> Py.split_ws w = [w].
Proof.
  induction w as [|c w IH]; [discriminate|]. intros H.
  apply is_token_cons in H as [Hc [->|Hw]].
  - simpl. now rewrite Hc.
  - specialize (IH Hw). destruct w as [|c' w']; [discriminate|].
    apply is_token_cons in Hw as [Hc' _].
    change (Py.split_ws (String c (String c' w')))
      with (if Py.is_space c then Py.split_ws (String c' w')
            else if Py.is_space c'
                 then String c EmptyString :: Py.split_ws (String c' w')
                 else match Py.split_ws (String c' w') with
                      | x :: xs => String c x :: xs
                      | [] => [String c EmptyString]
                      end).
    rewrite Hc, Hc', IH. reflexivity.
Qed.

Lemma split_ws_token_space w r :
  is_token w = true ->
  Py.split_ws (w ++ String " "%char r) = w :: Py.split_ws r.
Proof.
  induction w as [|c w IH]; [discriminate|]. intros H.
  apply is_token_cons in H as [Hc [->|Hw]].
  - simpl. now rewrite Hc.
  - specialize (IH Hw). destruct w as [|c' w']; [discriminate|].
    apply is_token_cons in Hw as [Hc' _].
    change (Py.split_ws (String c (String c' w') ++ String " "%char r))
      with (if Py.is_space c
            then Py.split_ws (String c' w' ++ String " "%char r)
            else if Py.is_space c'
                 then String c EmptyString
                        :: Py.split_ws (String c' w' ++ String " "%char r)
                 else match Py.split_ws (String c' w' ++ String " "%char r) with
                      | x :: xs => String c x :: xs
                      | [] => [String c EmptyString]
                      end).
    rewrite Hc, Hc', IH. reflexivity.
Qed.

Lemma split_ws_join_sp ws :
  forallb is_token ws = true -> Py.split_ws (Py.join_sp ws) = ws.
Proof.
  induction ws as [|w ws IH]; [reflexivity|]. intros H.
  simpl in H. apply andb_prop in H as [Hw Hws].
  destruct ws as [|w2 ws].
  - simpl. now apply split_ws_token.
  - rewrite join_sp_cons by congruence.
    change (w ++ " " ++ Py.join_sp (w2 :: ws))
      with (w ++ String " "%char (Py.join_sp (w2 :: ws))).
    rewrite split_ws_token_space by exact Hw. now rewrite IH.
Qed.

Lemma prefix_app p s : String.prefix p (p ++ s) = true.
Proof.
  induction p as [|c p IH]; simpl; [now destruct s|].
  destruct (ascii_dec c c); [exact IH|congruence].
Qed.

Lemma lower_app a b : Py.lower (a ++ b) = Py.lower a ++ Py.lower b.
Proof. induction a as [|c a IH]; simpl; [reflexivity|now rewrite IH]. Qed.

Lemma slice_from_app p s : Py.slice_from (String.length p) (p ++ s) = s.
Proof. induction p as [|c p IH]; simpl; [now destruct s|exact IH]. Qed.

Lemma prefix_lower p s :
  String.prefix p s = true -> String.prefix (Py.lower p) (Py.lower s) = true.
Proof.
  revert s. induction p as [|c p IH]; intros s H; simpl; [now destruct s|].
  destruct s as [|c' s]; simpl in *; [discriminate|].
  destruct (ascii_dec c c') as [->|]; [|discriminate].
  destruct (ascii_dec (Py.lower_ascii c') (Py.lower_ascii c')); [|congruence].
  now apply IH.
Qed.

Lemma contains_lower sub s :
  Py.contains sub s = true -> Py.contains (Py.lower sub) (Py.lower s) = true.
Proof.
  induction s as [|c s IH]; simpl; intros H.
  - rewrite orb_false_r in *. now apply (prefix_lower sub EmptyString).
  - apply orb_true_iff in H as [H|H]; apply orb_true_iff.
    + left. now apply (prefix_lower sub (String c s)).
    + right. now apply IH.
Qed.

(** The argument list the two parsers see on a well-formed command text. *)
Lemma command_args name args :
  is_token name = true -> forallb is_token args = true -> args <> [] ->
  Py.strip (command_text name args) = command_text name args
  /\ Py.strip (Py.slice_from (String.length name) (command_text name args))
     = Py.join_sp args
  /\ Py.split_ws (Py.join_sp args) = args
  /\ Py.is_empty (Py.join_sp args) = false.
Proof.
  intros Hn Ha Hne. unfold command_text.
  assert (Hall : forallb is_token (name :: args) = true)
    by (simpl; now rewrite Hn, Ha).
  split; [apply strip_join_sp; [congruence|exact Hall]|].
  split; [|split].
  - rewrite join_sp_cons by exact Hne. rewrite slice_from_app.
    unfold Py.strip.
    change (" " ++ Py.join_sp args) with (String " "%char (Py.join_sp args)).
    change (Py.lstrip (String " "%char (Py.join_sp args)))
      with (Py.lstrip (Py.join_sp args)).
    now apply strip_join_sp.
  - now apply split_ws_join_sp.
  - pose proof (join_sp_nonempty args Hne Ha) as H.
    destruct (Py.join_sp args); [congruence|reflexivity].
Qed.

End PyFacts.

(* ===================================================================== *)
(** * Command parsing                                                     *)
(* ===================================================================== *)

Section CommandParsing.

Variable today : date.

Lemma parse_scan_on_tokens args :
  forallb is_token args = true -> args <> [] ->
  parse_scan_command today (command_text "/scan" args)
  = scan_command_of_parts today args.
Proof.
  intros Ha Hne.
  destruct (command_args "/scan" args eq_refl Ha Hne) as (H1 & H2 & H3 & H4).
  unfold parse_scan_command. rewrite H1.
  change 5%nat with (String.length "/scan"). rewrite H2, H3, H4.
  unfold command_text. rewrite join_sp_cons by exact Hne.
  unfold Py.startswith. rewrite lower_app.
  change (Py.lower "/scan") with "/scan". rewrite prefix_app. reflexivity.
Qed.

Lemma lower_all_no_space w r :
  is_token w = true -> Py.lower (w ++ String " "%char r) <> "all".
Proof.
  intros Hw.
  destruct w as [|c1 [|c2 [|c3 [|c4 w]]]]; simpl; try discriminate.
Qed.

Lemma parse_export_on_tokens args :
  forallb is_token args = true -> args <> [] ->
  Py.lower (Py.join_sp args) <> "all" ->
  parse_export_command today (command_text "/export" args)
  = export_command_of_parts args.
Proof.
  intros Ha Hne Hall.
  destruct (command_args "/export" args eq_refl Ha Hne) as (H1 & H2 & H3 & H4).
  unfold parse_export_command. rewrite H1.
  change 7%nat with (String.length "/export"). rewrite H2, H3, H4.
  apply String.eqb_neq in Hall. rewrite Hall.
  unfold command_text. rewrite join_sp_cons by exact Hne.
  unfold Py.startswith. rewrite lower_app.
  change (Py.lower "/export") with "/export". rewrite prefix_app. reflexivity.
Qed.

Lemma export_two_not_all d1 d2 rest :
  is_token d1 = true -> Py.lower (Py.join_sp (d1 :: d2 :: rest)) <> "all".
Proof.
  intros H. rewrite join_sp_cons by congruence.
  now apply lower_all_no_space.
Qed.

(** C8.  [parse_scan_command] and [parse_export_command] on the command
    lines of the specification: the five listed examples; a [/scan] whose
    device token does not match [[\w-]+] or contains "date" (in any case)
    is rejected; [/scan <device>] alone means today for both dates; a date
    argument that [strptime] refuses makes either parser return nothing.
    Command lines are written as tokens separated by single spaces, and
    the parts on rejection are stated for tokens of ASCII characters, where
    [\w] and the whitespace of [str.split] are those of this model (a
    device token that matches [[\w-]+] here is made of ASCII characters
    anyway). *)
Theorem parse_commands_spec :
  parse_scan_command today "/scan 7393 2025-01-15"
  = Some (mkScanCommand "7393" (mkDate 2025 1 15) (mkDate 2025 1 15))
  /\ parse_scan_command today "/scan 7393 2025-01-01 2025-01-15"
     = Some (mkScanCommand "7393" (mkDate 2025 1 1) (mkDate 2025 1 15))
  /\ parse_scan_command today "/scan" = None
  /\ parse_export_command today "/export all"
     = Some (mkExportCommand None None true)
  /\ parse_export_command today "/export 2025-01-15"
     = Some (mkExportCommand (Some (mkDate 2025 1 15))
                             (Some (mkDate 2025 1 15)) false)
  /\ (forall dev dates,
        forallb ascii_only (dev :: dates) = true ->
        forallb is_token (dev :: dates) = true ->
        re_word_dash dev = false
        \/ Py.contains "date" dev = true
        \/ Py.contains "date" (Py.lower dev) = true ->
        parse_scan_command today (command_text "/scan" (dev :: dates)) = None)
  /\ (forall dev,
        is_token dev = true ->
        re_word_dash dev = true ->
        Py.contains "date" (Py.lower dev) = false ->
        parse_scan_command today (command_text "/scan" [dev])
        = Some (mkScanCommand dev today today))
  /\ (forall dev d1 rest,
        forallb ascii_only (dev :: d1 :: rest) = true ->
        forallb is_token (dev :: d1 :: rest) = true ->
        strptime_ymd d1 = None ->
        parse_scan_command today (command_text "/scan" (dev :: d1 :: rest))
        = None)
  /\ (forall dev d1 d2 rest,
        forallb ascii_only (dev :: d1 :: d2 :: rest) = true ->
        forallb is_token (dev :: d1 :: d2 :: rest) = true ->
        strptime_ymd d2 = None ->
        parse_scan_command today
          (command_text "/scan" (dev :: d1 :: d2 :: rest)) = None)
  /\ (forall d1,
        ascii_only d1 = true ->
        is_token d1 = true ->
        Py.lower d1 <> "all" ->
        strptime_ymd d1 = None ->
        parse_export_command today (command_text "/export" [d1]) = None)
  /\ (forall d1 d2 rest,
        forallb ascii_only (d1 :: d2 :: rest) = true ->
        forallb is_token (d1 :: d2 :: rest) = true ->
        strptime_ymd d1 = None \/ strptime_ymd d2 = None ->
        parse_export_command today (command_text "/export" (d1 :: d2 :: rest))
        = None).
Proof.
  repeat split; try reflexivity.
  - intros dev dates _ Ht Hbad.
    rewrite parse_scan_on_tokens by (exact Ht || congruence).
    unfold scan_command_of_parts.
    destruct Hbad as [H|[H|H]].
    + now rewrite H.
    + apply contains_lower in H. change (Py.lower "date") with "date" in H.
      rewrite H, orb_true_r. reflexivity.
    + rewrite H, orb_true_r. reflexivity.
  - intros dev Ht Hre Hd.
    rewrite parse_scan_on_tokens
      by (simpl; rewrite ?Ht; (reflexivity || congruence)).
    unfold scan_command_of_parts. now rewrite Hre, Hd.
  - intros dev d1 rest _ Ht Hd.
    rewrite parse_scan_on_tokens by (exact Ht || congruence).
    unfold scan_command_of_parts.
    destruct (negb (re_word_dash dev) || Py.contains "date" (Py.lower dev));
      [reflexivity|].
    rewrite Hd. now destruct rest.
  - intros dev d1 d2 rest _ Ht Hd.
    rewrite parse_scan_on_tokens by (exact Ht || congruence).
    unfold scan_command_of_parts.
    destruct (negb (re_word_dash dev) || Py.contains "date" (Py.lower dev));
      [reflexivity|].
    rewrite Hd. now destruct (strptime_ymd d1).
  - intros d1 _ Ht Hall Hd.
    rewrite parse_export_on_tokens
      by (simpl; rewrite ?Ht; (reflexivity || congruence || exact Hall)).
    unfold export_command_of_parts. now rewrite Hd.
  - intros d1 d2 rest _ Ht Hd.
    assert (H1 : is_token d1 = true)
      by (simpl in Ht; now apply andb_prop in Ht as [? _]).
    rewrite parse_export_on_tokens
      by (exact Ht || congruence || now apply export_two_not_all).
    unfold export_command_of_parts.
    destruct Hd as [Hd|Hd]; rewrite Hd; [reflexivity|].
    now destruct (strptime_ymd d1).
Qed.

End CommandParsing.

(** The examples of [parse_commands_spec]'s conditional parts, at concrete
    command lines. *)
Lemma parse_commands_witness :
  parse_scan_command (mkDate 2026 11 3)
    (command_text "/scan" ["up-date"; "2025-01-15"]) = None
  /\ parse_scan_command (mkDate 2026 11 3) (command_text "/scan" ["7393"])
     = Some (mkScanCommand "7393" (mkDate 2026 11 3) (mkDate 2026 11 3))
  /\ parse_scan_command (mkDate 2026 11 3)
       (command_text "/scan" ["7393"; "2025-02-30"]) = None
  /\ parse_export_command (mkDate 2026 11 3)
       (command_text "/export" ["2025-01-15"; "15-01-2025"]) = None.
Proof.
  destruct (parse_commands_spec (mkDate 2026 11 3))
    as (_ & _ & _ & _ & _ & Hdev & Htoday & Hd1 & _ & _ & He2).
  split; [|split; [|split]].
  - apply Hdev; [reflexivity|reflexivity|]. right; left. reflexivity.
  - apply Htoday; reflexivity.
  - apply Hd1; reflexivity.
  - apply He2; [reflexivity|reflexivity|]. right. reflexivity.
Defined.

(* ===================================================================== *)
(** * The single-flight executor                                          *)
(* ===================================================================== *)

Section SingleFlight.

(** The executor tells what it is running. *)
Definition described (ex : TaskExecutor) : Prop :=
  exists s, current_task ex = Some s /\ s <> EmptyString.

(** The shape of every reachable state: idle with nothing recorded, or
    running exactly one described job. *)
Definition exec_wf (ex : TaskExecutor) : Prop :=
  (is_running ex = false /\ current_task ex = None /\ threads ex = [])
  \/ (is_running ex = true /\ described ex /\ exists j, threads ex = [j]).

Lemma try_execute_accepts j ex :
  (try_execute j ex).1 = negb (is_running ex).
Proof.
  destruct j; simpl; unfold try_execute_scan, try_execute_export;
    now destruct (is_running ex).
Qed.

Lemma try_execute_busy j ex :
  is_running ex = true -> try_execute j ex = (false, ex).
Proof.
  intros H. destruct j; simpl; unfold try_execute_scan, try_execute_export;
    now rewrite H.
Qed.

Lemma try_execute_idle j ex :
  is_running ex = false ->
  (try_execute j ex).1 = true
  /\ is_running (try_execute j ex).2 = true
  /\ described (try_execute j ex).2
  /\ threads (try_execute j ex).2 = (threads ex ++ [j])%list.
Proof.
  intros H. destruct j; simpl; unfold try_execute_scan, try_execute_export;
    rewrite H; simpl; (repeat split; try reflexivity);
    eexists; (split; [reflexivity|discriminate]).
Qed.

Lemma worker_finish_clears o ex :
  threads ex <> [] ->
  is_running (worker_finish o ex).2 = false
  /\ current_task (worker_finish o ex).2 = None
  /\ threads (worker_finish o ex).2 = List.tl (threads ex).
Proof.
  intros H. unfold worker_finish.
  destruct (threads ex) as [|[c chat|c chat] rest]; [congruence| |];
    now repeat split.
Qed.

Lemma exec_wf_step ex ex' : exec_wf ex -> exec_step ex ex' -> exec_wf ex'.
Proof.
  intros Hwf Hstep. destruct Hstep as [j ex|o ex Hne].
  - destruct Hwf as [(Hr & Hc & Ht)|(Hr & Hd & Ht)].
    + destruct (try_execute_idle j ex Hr) as (_ & Hr' & Hd' & Ht').
      right. repeat split; [exact Hr'|exact Hd'|].
      exists j. now rewrite Ht', Ht.
    + rewrite (try_execute_busy j ex Hr). right. now repeat split.
  - destruct (worker_finish_clears o ex Hne) as (Hr' & Hc' & Ht').
    left. repeat split; [exact Hr'|exact Hc'|].
    rewrite Ht'. destruct Hwf as [(_ & _ & Ht)|(_ & _ & [j Ht])];
      now rewrite Ht.
Qed.

Lemma exec_reachable_wf ex : exec_reachable ex -> exec_wf ex.
Proof.
  induction 1 as [|ex ex' _ IH Hstep].
  - left. now repeat split.
  - now apply (exec_wf_step ex).
Qed.

(** C2.  Single flight: a request is accepted exactly when no job runs; a
    request made while a job runs is rejected and changes nothing (no worker
    is started); in every reachable state a running executor has a non-empty
    description and exactly one worker; when the worker ends, whatever the
    outcome of its job, the flag and the description are cleared and the
    next request is accepted; of two requests made one after the other on an
    idle executor, in either order, exactly the first is accepted. *)
Theorem single_flight :
  (forall j ex, (try_execute j ex).1 = negb (is_running ex))
  /\ (forall c chat ex,
        (try_execute_scan c chat ex).1 = negb (is_running ex))
  /\ (forall c chat ex,
        (try_execute_export c chat ex).1 = negb (is_running ex))
  /\ (forall j ex, is_running ex = true -> try_execute j ex = (false, ex))
  /\ (forall ex, exec_reachable ex -> is_running ex = true ->
        described ex /\ exists j, threads ex = [j])
  /\ (forall ex, exec_reachable ex -> is_running ex = false ->
        current_task ex = None /\ threads ex = [])
  /\ (forall c o rest,
        is_running (run_scan c o rest).2 = false
        /\ current_task (run_scan c o rest).2 = None)
  /\ (forall c o rest,
        is_running (run_export c o rest).2 = false
        /\ current_task (run_export c o rest).2 = None)
  /\ (forall ex o j, exec_reachable ex -> is_running ex = true ->
        is_running (worker_finish o ex).2 = false
        /\ current_task (worker_finish o ex).2 = None
        /\ (try_execute j (worker_finish o ex).2).1 = true)
  /\ (forall ex j1 j2, is_running ex = false ->
        (try_execute j1 ex).1 = true
        /\ try_execute j2 (try_execute j1 ex).2
           = (false, (try_execute j1 ex).2)
        /\ described (try_execute j1 ex).2
        /\ threads (try_execute j1 ex).2 = (threads ex ++ [j1])%list).
Proof.
  split; [exact try_execute_accepts|].
  split; [intros c chat ex; exact (try_execute_accepts (RunScan c chat) ex)|].
  split; [intros c chat ex; exact (try_execute_accepts (RunExport c chat) ex)|].
  split; [exact try_execute_busy|].
  split.
  { intros ex Hreach Hrun.
    destruct (exec_reachable_wf ex Hreach) as [(Hr & _)|(_ & Hd & Ht)];
      [congruence|now split]. }
  split.
  { intros ex Hreach Hrun.
    destruct (exec_reachable_wf ex Hreach) as [(_ & Hc & Ht)|(Hr & _)];
      [now split|congruence]. }
  split; [intros c o rest; now split|].
  split; [intros c o rest; now split|].
  split.
  { intros ex o j Hreach Hrun.
    destruct (exec_reachable_wf ex Hreach) as [(Hr & _)|(_ & _ & [j0 Ht])];
      [congruence|].
    assert (Hne : threads ex <> []) by (rewrite Ht; discriminate).
    destruct (worker_finish_clears o ex Hne) as (Hr' & Hc' & _).
    repeat split; [exact Hr'|exact Hc'|].
    rewrite try_execute_accepts, Hr'. reflexivity. }
  intros ex j1 j2 Hidle.
  destruct (try_execute_idle j1 ex Hidle) as (Ha & Hr & Hd & Ht).
  repeat split; [exact Ha| |exact Hd|exact Ht].
  now apply try_execute_busy.
Qed.

End SingleFlight.

(* ===================================================================== *)
(** * Reasoning about monadic code                                        *)
(* ===================================================================== *)

Section Logic.

(** [wp m w Q]: running [m] in [w] ends in a result and a world that
    satisfy [Q]. *)
Definition wp {A : Type} (m : M A) (w : World)
  (Q : result A -> World -> Prop) : Prop :=
  Q (m w).1 (m w).2.

Lemma wp_ret {A : Type} (a : A) w Q : Q (Ok a) w -> wp (ret a) w Q.
Proof. exact (fun H => H). Qed.

Lemma wp_raise {A : Type} (e : exn) w (Q : result A -> World -> Prop) :
  Q (Raise e) w -> wp (raise e) w Q.
Proof. exact (fun H => H). Qed.

Lemma wp_bind {A B : Type} (m : M A) (k : A -> M B) w Q :
  wp m w (fun r w' =>
            match r with
            | Ok a => wp (k a) w' Q
            | Raise e => Q (Raise e) w'
            end) ->
  wp (bind m k) w Q.
Proof. unfold wp, bind. now destruct (m w) as [[a|e] w']. Qed.

Lemma wp_catch {A : Type} (m : M A) (h : exn -> M A) w Q :
  wp m w (fun r w' =>
            match r with
            | Ok a => Q (Ok a) w'
            | Raise e => wp (h e) w' Q
            end) ->
  wp (catch m h) w Q.
Proof. unfold wp, catch. now destruct (m w) as [[a|e] w']. Qed.

Lemma wp_conseq {A : Type} (m : M A) w (Q Q' : result A -> World -> Prop) :
  wp m w Q -> (forall r w', Q r w' -> Q' r w') -> wp m w Q'.
Proof. unfold wp. auto. Qed.

Lemma wp_get_world w Q : Q (Ok w) w -> wp get_world w Q.
Proof. exact (fun H => H). Qed.

Lemma wp_modify f w Q : Q (Ok tt) (f w) -> wp (modify f) w Q.
Proof. exact (fun H => H). Qed.

Lemma wp_lift_result {A : Type} (r : result A) w Q :
  Q r w -> wp (lift_result r) w Q.
Proof. exact (fun H => H). Qed.

(** The loop rule: [I done s] holds of the loop state [s] once the
    elements [done] have been processed. *)
Lemma wp_foreach {X S R : Type} (body : X -> S -> M (flow S R))
  (I : list X -> S -> World -> Prop)
  (QR : R -> World -> Prop) (QE : exn -> World -> Prop) :
  forall todo done s w,
    (forall d x s w, (exists rest, (done ++ todo)%list = (d ++ x :: rest)%list) ->
       I d s w ->
       wp (body x s) w (fun r w' =>
         match r with
         | Ok (Next s') => I (d ++ [x])%list s' w'
         | Ok (Return v) => QR v w'
         | Raise e => QE e w'
         end)) ->
    I done s w ->
    wp (foreach todo body s) w (fun r w' =>
      match r with
      | Ok (Next s') => I (done ++ todo)%list s' w'
      | Ok (Return v) => QR v w'
      | Raise e => QE e w'
      end).
Proof.
  induction todo as [|x todo IH]; intros done s w Hbody HI.
  - simpl. apply wp_ret. now rewrite app_nil_r.
  - simpl. apply wp_bind.
    eapply wp_conseq; [apply (Hbody done x s w); [now exists todo|exact HI]|].
    intros [[s'|v]|e] w' H; [|now apply wp_ret|exact H].
    replace (done ++ x :: todo)%list with ((done ++ [x]) ++ todo)%list
      by now rewrite <- app_assoc.
    apply IH; [|exact H].
    intros d y s0 w0 Hsplit. apply Hbody.
    now rewrite <- app_assoc in Hsplit.
Qed.

Lemma wp_fold_m {X S : Type} (body : X -> S -> M S)
  (I : list X -> S -> World -> Prop) (QE : exn -> World -> Prop) :
  forall todo done s w,
    (forall d x s w, (exists rest, (done ++ todo)%list = (d ++ x :: rest)%list) ->
       I d s w ->
       wp (body x s) w (fun r w' =>
         match r with
         | Ok s' => I (d ++ [x])%list s' w'
         | Raise e => QE e w'
         end)) ->
    I done s w ->
    wp (fold_m todo body s) w (fun r w' =>
      match r with
      | Ok s' => I (done ++ todo)%list s' w'
      | Raise e => QE e w'
      end).
Proof.
  induction todo as [|x todo IH]; intros done s w Hbody HI.
  - simpl. apply wp_ret. now rewrite app_nil_r.
  - simpl. apply wp_bind.
    eapply wp_conseq; [apply (Hbody done x s w); [now exists todo|exact HI]|].
    intros [s'|e] w' H; [|exact H].
    replace (done ++ x :: todo)%list with ((done ++ [x]) ++ todo)%list
      by now rewrite <- app_assoc.
    apply IH; [|exact H].
    intros d y s0 w0 Hsplit. apply Hbody.
    now rewrite <- app_assoc in Hsplit.
Qed.

(** ** Steps that only talk: traces, waits and the log may change, the
    stores and the configuration do not. *)

Definition io_step (w w' : World) : Prop :=
  bucket w' = bucket w /\ db_fault w' = db_fault w
  /\ committed w' = committed w /\ working w' = working w
  /\ device_config w' = device_config w.

Lemma io_step_refl w : io_step w w.
Proof. now repeat split. Qed.

Lemma io_step_trans w1 w2 w3 : io_step w1 w2 -> io_step w2 w3 -> io_step w1 w3.
Proof.
  intros (A1 & A2 & A3 & A4 & A5) (B1 & B2 & B3 & B4 & B5).
  repeat split; congruence.
Qed.

Definition io_only {A : Type} (m : M A) : Prop := forall w, io_step w (m w).2.

Lemma io_only_ret {A : Type} (a : A) : io_only (ret a).
Proof. intros w. apply io_step_refl. Qed.

Lemma io_only_raise {A : Type} (e : exn) : io_only (@raise A e).
Proof. intros w. apply io_step_refl. Qed.

Lemma io_only_lift_result {A : Type} (r : result A) : io_only (lift_result r).
Proof. intros w. apply io_step_refl. Qed.

Lemma io_only_get_world : io_only get_world.
Proof. intros w. apply io_step_refl. Qed.

Lemma io_only_bind {A B : Type} (m : M A) (k : A -> M B) :
  io_only m -> (forall a, io_only (k a)) -> io_only (bind m k).
Proof.
  intros Hm Hk w. unfold bind. specialize (Hm w).
  destruct (m w) as [[a|e] w']; simpl in *; [|exact Hm].
  eapply io_step_trans; [exact Hm|apply Hk].
Qed.

Lemma io_only_catch {A : Type} (m : M A) (h : exn -> M A) :
  io_only m -> (forall e, io_only (h e)) -> io_only (catch m h).
Proof.
  intros Hm Hh w. unfold catch. specialize (Hm w).
  destruct (m w) as [[a|e] w']; simpl in *; [exact Hm|].
  eapply io_step_trans; [exact Hm|apply Hh].
Qed.

Lemma io_only_log_at l m : io_only (log_at l m).
Proof. intros w. now repeat split. Qed.

Lemma io_only_sleep_ms t : io_only (sleep_ms t).
Proof. intros w. now repeat split. Qed.

Lemma io_only_oss_request c : io_only (oss_request c).
Proof.
  intros w. unfold oss_request.
  destruct (oss_fault _ _ _); now repeat split.
Qed.

Lemma io_only_retry_loop {A : Type} (f : M A) :
  io_only f -> forall remaining attempt, io_only (retry_loop attempt remaining f).
Proof.
  intros Hf. induction remaining as [|r IH]; intros attempt; simpl.
  - apply io_only_raise.
  - apply io_only_catch; [exact Hf|]. intros _.
    destruct r; [apply io_only_raise|].
    apply io_only_bind; [apply io_only_sleep_ms|]. intros _. apply IH.
Qed.

Lemma io_only_fold_m {X S : Type} (body : X -> S -> M S) :
  (forall x s, io_only (body x s)) -> forall l s, io_only (fold_m l body s).
Proof.
  intros Hb. induction l as [|x l IH]; intros s; simpl.
  - apply io_only_ret.
  - apply io_only_bind; [apply Hb|]. intros s'. apply IH.
Qed.

End Logic.

Create HintDb io.

#[local] Hint Resolve io_only_ret io_only_raise io_only_lift_result
  io_only_get_world io_only_log_at io_only_sleep_ms io_only_oss_request
  : io.

(** Decomposes an [io_only] goal along the structure of the code. *)
Ltac io_solve :=
  repeat first
    [ apply io_only_bind; [|intro]
    | apply io_only_catch; [|intro]
    | apply io_only_retry_loop
    | apply io_only_fold_m; intros
    | solve [auto with io]
    | match goal with
      | |- io_only (match ?x with _ => _ end) => destruct x
      | |- io_only (if ?b then _ else _) => destruct b
      | |- io_only (let '(_, _) := ?x in _) => destruct x
      end ].

Section IoOnly.

Lemma io_only_bucket_object_exists key : io_only (bucket_object_exists key).
Proof. unfold bucket_object_exists. io_solve. Qed.

Lemma io_only_bucket_head_object key : io_only (bucket_head_object key).
Proof. unfold bucket_head_object. io_solve. Qed.

Lemma io_only_bucket_get_object_to_file key :
  io_only (bucket_get_object_to_file key).
Proof. unfold bucket_get_object_to_file. io_solve. Qed.

Lemma io_only_json_load file : io_only (json_load file).
Proof. unfold json_load. io_solve. Qed.

Lemma io_only_list_prefixes prefix : io_only (list_prefixes prefix).
Proof. unfold list_prefixes, retry. io_solve. Qed.

Lemma io_only_list_objects_loop prefix pages :
  forall page objs, io_only (list_objects_loop prefix page pages objs).
Proof.
  induction pages as [|p pages IH]; intros page objs; simpl.
  - apply io_only_ret.
  - apply io_only_bind; [apply io_only_oss_request|]. intros _. apply IH.
Qed.

Lemma io_only_list_objects prefix : io_only (list_objects prefix).
Proof.
  unfold list_objects, retry. apply io_only_retry_loop.
  apply io_only_bind; [apply io_only_get_world|].
  intros w. apply io_only_list_objects_loop.
Qed.

Lemma io_only_get_object_size key : io_only (get_object_size key).
Proof.
  unfold get_object_size, retry. apply io_only_retry_loop.
  apply io_only_catch; [apply io_only_bucket_head_object|].
  intros _. io_solve.
Qed.

Lemma io_only_parse_session_id sid : io_only (parse_session_id sid).
Proof. unfold parse_session_id. io_solve. Qed.

Lemma io_only_prepare_session_record d sid j :
  io_only (prepare_session_record d sid j).
Proof.
  unfold prepare_session_record.
  repeat first
    [ apply io_only_bind; [solve [auto with io | apply io_only_parse_session_id]|intro]
    | match goal with
      | |- io_only (let '(_, _) := ?x in _) => destruct x
      end
    | apply io_only_ret ].
Qed.

Lemma io_only_db_select s :
  apply_stmt s = Ok -> io_only (db_execute s).
Proof.
  intros Hs w. unfold db_execute.
  destruct (db_fault w _ s); [now repeat split|].
  rewrite Hs. now repeat split.
Qed.

Lemma io_only_is_session_exists sid : io_only (is_session_exists sid).
Proof.
  unfold is_session_exists. apply io_only_catch.
  - apply io_only_bind; [now apply io_only_db_select|]. intros _. io_solve.
  - intros _. io_solve.
Qed.

Lemma io_only_is_segment_exists sid n : io_only (is_segment_exists sid n).
Proof.
  unfold is_segment_exists. apply io_only_catch.
  - apply io_only_bind; [now apply io_only_db_select|]. intros _. io_solve.
  - intros _. io_solve.
Qed.

Lemma io_only_group_object key st : io_only (group_object key st).
Proof.
  unfold group_object. destruct st as [d n].
  destruct (parse_mp4_filename (basename key)) as [cam num].
  destruct (Py.is_empty cam || Py.is_empty num); [io_solve|].
  apply io_only_bind; [apply io_only_get_world|]. intros w.
  apply io_only_bind; [apply io_only_get_object_size|]. intros sz.
  io_solve.
Qed.

End IoOnly.

#[local] Hint Resolve io_only_bucket_object_exists io_only_bucket_head_object
  io_only_bucket_get_object_to_file io_only_json_load io_only_list_prefixes
  io_only_list_objects io_only_get_object_size io_only_parse_session_id
  io_only_prepare_session_record io_only_is_session_exists
  io_only_is_segment_exists io_only_group_object : io.

(* ===================================================================== *)
(** * Specifications of the store and storage wrappers                    *)
(* ===================================================================== *)

(** No write is pending on the connection. *)
Definition clean (w : World) : Prop := working w = committed w.

(** What a step may change besides traces, waits and the log: the tables
    (through committed transactions) and the device configuration. *)
Definition db_step (w w' : World) : Prop :=
  bucket w' = bucket w /\ db_fault w' = db_fault w.

Section WrapperSpecs.

Lemma wp_io {A : Type} (m : M A) w (Q : result A -> World -> Prop) :
  io_only m -> (forall r w', io_step w w' -> Q r w') -> wp m w Q.
Proof. intros Hm HQ. apply HQ, Hm. Qed.

Lemma io_step_clean w w' : io_step w w' -> clean w -> clean w'.
Proof. intros (_ & _ & Hc & Hw & _) H. unfold clean in *. congruence. Qed.

(** The existence oracle never raises, and answers [True] only for a row
    that is there. *)
Lemma is_session_exists_spec sid w :
  io_step w (is_session_exists sid w).2
  /\ exists b, (is_session_exists sid w).1 = Ok b
       /\ (b = true -> is_Some (sessions (working w) !! sid))
       /\ (db_fault w (List.length (db_trace w)) (SelectSession sid) = false ->
           b = match sessions (working w) !! sid with
               | Some _ => true
               | None => false
               end).
Proof.
  split; [apply io_only_is_session_exists|].
  unfold is_session_exists, catch, bind, db_execute, get_world, ret, log_at,
    modify. simpl.
  destruct (db_fault w _ _); simpl.
  - exists false. repeat split; [discriminate|discriminate].
  - eexists. split; [reflexivity|]. split; [|reflexivity].
    destruct (sessions (working w) !! sid); [eauto|discriminate].
Qed.

Lemma is_segment_exists_spec sid n w :
  io_step w (is_segment_exists sid n w).2
  /\ exists b, (is_segment_exists sid n w).1 = Ok b
       /\ (b = true -> is_Some (segments (working w) !! (sid, n)))
       /\ (db_fault w (List.length (db_trace w)) (SelectSegment sid n) = false ->
           b = match segments (working w) !! (sid, n) with
               | Some _ => true
               | None => false
               end).
Proof.
  split; [apply io_only_is_segment_exists|].
  unfold is_segment_exists, catch, bind, db_execute, get_world, ret, log_at,
    modify. simpl.
  destruct (db_fault w _ _); simpl.
  - exists false. repeat split; [discriminate|discriminate].
  - eexists. split; [reflexivity|]. split; [|reflexivity].
    destruct (segments (working w) !! (sid, n)); [eauto|discriminate].
Qed.

(** [insert_segment] never raises; it answers [True] exactly when the row
    was absent and is now committed, and otherwise leaves the tables as
    they were. *)
Lemma insert_segment_spec r w :
  clean w ->
  let k := (g_session_id r, g_segment_number r) in
  let w' := (insert_segment r w).2 in
  db_step w w' /\ device_config w' = device_config w /\ clean w'
  /\ ((insert_segment r w).1 = Ok true
      /\ segments (committed w) !! k = None
      /\ committed w' = set_segments (<[k := r]> (segments (committed w)))
                                      (committed w)
      \/ (insert_segment r w).1 = Ok false /\ committed w' = committed w).
Proof.
  intros Hc. unfold clean in Hc.
  unfold insert_segment, catch, bind, db_execute, db_commit, db_rollback,
    get_world, ret, log_at, modify, clean, db_step. simpl.
  destruct (db_fault w _ _); simpl; [now repeat split; auto|].
  rewrite Hc.
  destruct (segments (committed w) !! _) eqn:E; simpl;
    [now repeat split; auto|].
  destruct (db_fault w _ Commit); simpl; [now repeat split; auto|].
  repeat split. left. now repeat split.
Qed.

(** The same for [insert_session]. *)
Lemma insert_session_spec r w :
  clean w ->
  let k := s_session_id r in
  let w' := (insert_session r w).2 in
  db_step w w' /\ device_config w' = device_config w /\ clean w'
  /\ ((insert_session r w).1 = Ok true
      /\ sessions (committed w) !! k = None
      /\ committed w' = set_sessions (<[k := r]> (sessions (committed w)))
                                      (committed w)
      \/ (insert_session r w).1 = Ok false /\ committed w' = committed w).
Proof.
  intros Hc. unfold clean in Hc.
  unfold insert_session, catch, bind, db_execute, db_commit, db_rollback,
    get_world, ret, log_at, modify, clean, db_step. simpl.
  destruct (db_fault w _ _); simpl; [now repeat split; auto|].
  rewrite Hc.
  destruct (sessions (committed w) !! _) eqn:E; simpl;
    [now repeat split; auto|].
  destruct (db_fault w _ Commit); simpl; [now repeat split; auto|].
  repeat split. left. now repeat split.
Qed.

(** Results of the retry wrapper: a value one of the attempts produced, or
    [RetryError]. *)
Lemma retry_loop_result {A : Type} (f : M A) (V : Bucket -> A -> Prop) :
  io_only f ->
  (forall w a, (f w).1 = Ok a -> V (bucket w) a) ->
  forall remaining attempt w,
    match (retry_loop attempt remaining f w).1 with
    | Ok a => V (bucket w) a
    | Raise e => e = RetryError
    end.
Proof.
  intros Hio HV. induction remaining as [|r IH]; intros attempt w; simpl.
  - reflexivity.
  - unfold catch. pose proof (HV w) as Hv. pose proof (Hio w) as Hs.
    destruct (f w) as [[a|e] w1]; simpl in *; [now apply Hv|].
    destruct r; [reflexivity|].
    unfold bind, sleep_ms, modify. simpl.
    specialize (IH (S attempt) (with_slept (wait_exponential_ms attempt :: slept w1) w1)).
    destruct Hs as (Hb & _). simpl in IH. now rewrite Hb in IH.
Qed.

Lemma list_objects_loop_result prefix pages :
  forall page objs w a,
    (list_objects_loop prefix page pages objs w).1 = Ok a ->
    a = (objs ++ concat pages)%list.
Proof.
  induction pages as [|p pages IH]; intros page objs w a; simpl.
  - intros [= <-]. now rewrite app_nil_r.
  - unfold bind, oss_request.
    destruct (oss_fault _ _ _); simpl; [discriminate|].
    intros H. apply IH in H. now rewrite <- app_assoc in H.
Qed.

Lemma list_objects_spec prefix w :
  io_step w (list_objects prefix w).2
  /\ match (list_objects prefix w).1 with
     | Ok objs => objs = concat (pages_of (bucket w) prefix)
     | Raise e => e = RetryError
     end.
Proof.
  split; [apply io_only_list_objects|].
  unfold list_objects, retry.
  apply (retry_loop_result _ (fun b a => a = concat (pages_of b prefix))).
  - apply io_only_bind; [apply io_only_get_world|].
    intros w0. apply io_only_list_objects_loop.
  - intros w0 a. unfold bind, get_world. simpl.
    intros H. now apply list_objects_loop_result in H.
Qed.

Lemma list_prefixes_spec prefix w :
  io_step w (list_prefixes prefix w).2
  /\ match (list_prefixes prefix w).1 with
     | Ok l => l = prefix_list (bucket w) prefix
     | Raise e => e = RetryError
     end.
Proof.
  split; [apply io_only_list_prefixes|].
  unfold list_prefixes, retry.
  apply (retry_loop_result _ (fun b a => a = prefix_list b prefix)).
  - io_solve.
  - intros w0 a. unfold bind, oss_request, get_world, ret.
    destruct (oss_fault _ _ _); simpl; [discriminate|]. now intros [= <-].
Qed.

End WrapperSpecs.

(* ===================================================================== *)
(** * The segment phase: what gets inserted                               *)
(* ===================================================================== *)

(** The camera the grouping loop files an object under, with its segment
    number; [None] for the names it counts as invalid. *)
Inductive camera := Down | Front.

Definition classify (obj_key : string) : option (camera * string) :=
  let '(camera_type, segment_number) := parse_mp4_filename (basename obj_key) in
  if Py.is_empty camera_type || Py.is_empty segment_number then None
  else if Py.contains "down" (Py.lower camera_type)
       then Some (Down, segment_number)
  else if Py.contains "front" (Py.lower camera_type)
       then Some (Front, segment_number)
  else None.

(** The keys the listing of a session's segment directory returns. *)
Definition listed_objects (b : Bucket) (session_prefix : string)
  : list string :=
  concat (pages_of b (session_prefix ++ "segments/")).

(** Both cameras of segment [n] are in the listing of the session. *)
Definition listed_pair (b : Bucket) (session_prefix n : string) : Prop :=
  exists down_key front_key,
    In down_key (listed_objects b session_prefix)
    /\ In front_key (listed_objects b session_prefix)
    /\ Py.endswith ".mp4" down_key = true
    /\ Py.endswith ".mp4" front_key = true
    /\ classify down_key = Some (Down, n)
    /\ classify front_key = Some (Front, n).

(** A session directory of the bucket with the given id. *)
Definition listed_session (b : Bucket) (session_prefix sid : string) : Prop :=
  exists device_prefix,
    In device_prefix (prefix_list b "")
    /\ In session_prefix (prefix_list b device_prefix)
    /\ session_id_of session_prefix = sid.

(** A segment key the scan may insert: its session has a row, and both its
    camera files are listed under a directory of that session. *)
Definition justified (b : Bucket) (S : gmap string session_record)
  (k : string * string) : Prop :=
  is_Some (S !! k.1)
  /\ exists session_prefix,
       listed_session b session_prefix k.1
       /\ listed_pair b session_prefix k.2.

(** The invariant of the segment phase, from the world [w0] it started in:
    only segments are added, and [ns] is exactly the set of keys added,
    each of them justified. *)
Record seg_inv (w0 w : World) (ns : gset (string * string)) : Prop :=
  mkSegInv {
    si_bucket : bucket w = bucket w0;
    si_fault : db_fault w = db_fault w0;
    si_config : device_config w = device_config w0;
    si_clean : clean w;
    si_sessions : sessions (committed w) = sessions (committed w0);
    si_devices : devices (committed w) = devices (committed w0);
    si_metadata : session_metadata (committed w) = session_metadata (committed w0);
    si_sub : segments (committed w0) ⊆ segments (committed w);
    si_dom : dom (segments (committed w)) = dom (segments (committed w0)) ∪ ns;
    si_fresh : ns ## dom (segments (committed w0));
    si_just : forall k, k ∈ ns ->
                justified (bucket w0) (sessions (committed w0)) k
  }.

Definition NEW_SEGMENTS : string := "新增视频段数".

(** The invariant together with the counter of new segments. *)
Definition seg_state_ok (w0 : World) (st : segments_result) (w : World)
  : Prop :=
  seg_inv w0 w st.2 /\ stat NEW_SEGMENTS st.1 = size st.2.

Section SegmentPhase.

Lemma stat_add_stat_eq k n s : stat k (add_stat k n s) = (stat k s + n)%nat.
Proof. unfold stat at 1, add_stat. now rewrite lookup_insert_eq. Qed.

Lemma stat_add_stat_ne k k' n s :
  k <> k' -> stat k (add_stat k' n s) = stat k s.
Proof.
  intros H. unfold stat, add_stat. rewrite lookup_insert_ne by congruence.
  reflexivity.
Qed.

Lemma stat_incr_ne k k' s : k <> k' -> stat k (incr k' s) = stat k s.
Proof. apply stat_add_stat_ne. Qed.

Lemma seg_inv_init w : clean w -> seg_inv w w ∅.
Proof.
  intros Hc. split; try reflexivity; try exact Hc.
  - now rewrite union_empty_r_L.
  - apply disjoint_empty_l.
  - intros k Hk. now apply not_elem_of_empty in Hk.
Qed.

Lemma seg_inv_io w0 w w' ns : seg_inv w0 w ns -> io_step w w' -> seg_inv w0 w' ns.
Proof.
  intros [Ab Af Ac Acl As Ad Am Asub Adom Afr Aj] (Hb & Hf & Hc & Hw & Hd).
  split; unfold clean in *; rewrite ?Hc, ?Hw; try congruence; assumption.
Qed.

Lemma seg_state_ok_io w0 st w w' :
  seg_state_ok w0 st w -> io_step w w' -> seg_state_ok w0 st w'.
Proof. intros [Hi Hn] Hio. split; [now apply (seg_inv_io w0 w)|exact Hn]. Qed.

(** A committed insert of a justified key extends the invariant. *)
Lemma seg_inv_insert w0 w w' ns r :
  seg_inv w0 w ns ->
  db_step w w' -> device_config w' = device_config w -> clean w' ->
  segments (committed w) !! (g_session_id r, g_segment_number r) = None ->
  committed w'
  = set_segments (<[(g_session_id r, g_segment_number r) := r]>
                    (segments (committed w))) (committed w) ->
  justified (bucket w0) (sessions (committed w0))
            (g_session_id r, g_segment_number r) ->
  seg_inv w0 w' ({[ (g_session_id r, g_segment_number r) ]} ∪ ns)
  /\ (g_session_id r, g_segment_number r) ∉ ns.
Proof.
  intros [Ab Af Ac Acl As Ad Am Asub Adom Afr Aj] (Hb & Hf) Hcfg Hcl Hnone
    Hcom Hj.
  set (k := (g_session_id r, g_segment_number r)) in *.
  assert (Hk : k ∉ dom (segments (committed w)))
    by now apply not_elem_of_dom.
  assert (Hkn : k ∉ ns) by (rewrite Adom in Hk; set_solver).
  split; [split|exact Hkn].
  - congruence.
  - congruence.
  - congruence.
  - exact Hcl.
  - now rewrite Hcom.
  - now rewrite Hcom.
  - now rewrite Hcom.
  - rewrite Hcom. simpl. etrans; [exact Asub|].
    now apply insert_subseteq.
  - rewrite Hcom. simpl. rewrite dom_insert_L, Adom. set_solver.
  - rewrite Adom in Hk. set_solver.
  - intros k' Hk'. apply elem_of_union in Hk' as [Hk'|Hk'].
    + apply elem_of_singleton in Hk'. now subst k'.
    + now apply Aj.
Qed.

Lemma wp_log_at l m w Q :
  Q (Ok tt) (with_log ((l, m) :: log w) w) -> wp (log_at l m) w Q.
Proof. exact (fun H => H). Qed.

Lemma wp_parse_session_id sid w Q :
  (forall w', io_step w w' -> Q (Ok (parse_session_id_value sid)) w') ->
  wp (parse_session_id sid) w Q.
Proof.
  intros H. unfold wp, parse_session_id, bind, log_at, modify, ret.
  destruct (parse_session_id_warns sid); simpl; apply H; now repeat split.
Qed.

Lemma wp_is_session_exists sid w Q :
  (forall b w', io_step w w' ->
     (b = true -> is_Some (sessions (working w) !! sid)) -> Q (Ok b) w') ->
  wp (is_session_exists sid) w Q.
Proof.
  intros H. destruct (is_session_exists_spec sid w) as (Hio & b & Hr & Hb & _).
  unfold wp. rewrite Hr. now apply H.
Qed.

Lemma wp_is_segment_exists sid n w Q :
  (forall b w', io_step w w' ->
     (b = true -> is_Some (segments (working w) !! (sid, n))) -> Q (Ok b) w') ->
  wp (is_segment_exists sid n) w Q.
Proof.
  intros H. destruct (is_segment_exists_spec sid n w) as (Hio & b & Hr & Hb & _).
  unfold wp. rewrite Hr. now apply H.
Qed.

Lemma retry_first_ok {A : Type} (f : M A) attempt r w a w1 :
  f w = (Ok a, w1) -> retry_loop attempt (S r) f w = (Ok a, w1).
Proof. intros H. simpl. unfold catch. now rewrite H. Qed.

(** [get_object_size] makes one [head_object] call and never raises: it
    answers the size, or 0 with a warning when the call raised. *)
Lemma get_object_size_eq key w :
  get_object_size key w
  = let w1 := with_oss_trace (HeadObject key :: oss_trace w) w in
    let w2 :=
      with_log ((WARNING, MsgObjectSizeUnavailable key) :: log w1) w1 in
    if oss_fault (bucket w) (List.length (oss_trace w)) (HeadObject key)
    then (Ok 0, w2)
    else match objects (bucket w) !! key with
         | Some o => (Ok (content_length o), w1)
         | None => (Ok 0, w2)
         end.
Proof.
  unfold get_object_size, retry.
  destruct (oss_fault (bucket w) (List.length (oss_trace w)) (HeadObject key))
    eqn:Ef; [|destruct (objects (bucket w) !! key) as [o|] eqn:Eo];
    apply retry_first_ok;
    unfold catch, bucket_head_object, bind, oss_request, get_world, raise,
      ret, log_at, modify; rewrite Ef; simpl; rewrite ?Eo; reflexivity.
Qed.

Lemma get_object_size_run key w :
  exists z, (get_object_size key w).1 = Ok z
            /\ io_step w (get_object_size key w).2.
Proof.
  split with (match (get_object_size key w).1 with Ok z => z | Raise _ => 0 end).
  split; [|apply io_only_get_object_size].
  rewrite get_object_size_eq. simpl.
  destruct (oss_fault _ _ _); [reflexivity|].
  now destruct (objects _ !! key).
Qed.

Lemma wp_get_object_size key w Q :
  (forall z w', io_step w w' -> Q (Ok z) w') -> wp (get_object_size key) w Q.
Proof.
  intros H. destruct (get_object_size_run key w) as (z & Hr & Hio).
  unfold wp. rewrite Hr. now apply H.
Qed.

Lemma bind_eq {A B : Type} (m : M A) (k : A -> M B) w a w' :
  m w = (Ok a, w') -> bind m k w = k a w'.
Proof. intros H. unfold bind. now rewrite H. Qed.

Lemma bind_raise_eq {A B : Type} (m : M A) (k : A -> M B) w e w' :
  m w = (Raise e, w') -> bind m k w = (Raise e, w').
Proof. intros H. unfold bind. now rewrite H. Qed.

(** [parse_session_id] returns its value and only touches the log. *)
Lemma parse_session_id_eq sid w :
  exists w', parse_session_id sid w = (Ok (parse_session_id_value sid), w')
    /\ oss_trace w' = oss_trace w /\ committed w' = committed w
    /\ working w' = working w /\ db_trace w' = db_trace w.
Proof.
  unfold parse_session_id, bind, log_at, modify, ret.
  destruct (parse_session_id_warns sid); simpl; eexists;
    (split; [reflexivity|now repeat split]).
Qed.

(** The session oracle on an id without a row: one query, answer [False]. *)
Lemma is_session_exists_absent sid w :
  sessions (working w) !! sid = None ->
  exists w' o, is_session_exists sid w = (Ok false, w')
    /\ oss_trace w' = oss_trace w /\ committed w' = committed w
    /\ working w' = working w
    /\ db_trace w' = DbStmt (SelectSession sid) o :: db_trace w.
Proof.
  intros Hnone.
  unfold is_session_exists, catch, bind, db_execute, get_world, ret, log_at,
    modify. simpl.
  destruct (db_fault w _ _); simpl; rewrite ?Hnone; do 2 eexists;
    (split; [reflexivity|now repeat split]).
Qed.

(** ** The grouping loop *)

(** Every entry of [segments_dict] comes from listed objects. *)
Definition dict_ok (objs : list string) (d : list (string * segment_files))
  : Prop :=
  forall n files, In (n, files) d ->
    (is_Some (down_file files) ->
       exists key, In key objs /\ classify key = Some (Down, n))
    /\ (is_Some (front_file files) ->
       exists key, In key objs /\ classify key = Some (Front, n)).

Lemma dict_ok_weaken objs objs' d :
  (forall k, In k objs -> In k objs') -> dict_ok objs d -> dict_ok objs' d.
Proof.
  intros Hsub Hd n files Hin. destruct (Hd n files Hin) as [H1 H2].
  split; intros Hs; [destruct (H1 Hs) as (k & ? & ?)|destruct (H2 Hs) as (k & ? & ?)];
    exists k; auto.
Qed.

Lemma in_dict_update key f d n files :
  In (n, files) (dict_update key f d) ->
  In (n, files) d
  \/ (n = key /\ exists files0,
        files = f files0 /\ (files0 = no_files \/ In (key, files0) d)).
Proof.
  induction d as [|[k v] d IH]; simpl.
  - intros [[= <- <-]|[]]. right. split; [reflexivity|]. exists no_files. auto.
  - destruct (String.eqb k key) eqn:E.
    + apply String.eqb_eq in E. subst k.
      intros [[= <- <-]|H]; [|auto].
      right. split; [reflexivity|]. exists v. auto.
    + intros [H|H]; [auto|].
      destruct (IH H) as [H'|(Hn & files0 & Hf & Hor)]; [auto|].
      right. split; [exact Hn|]. exists files0. split; [exact Hf|].
      destruct Hor; auto.
Qed.

Lemma group_object_ok objs key st w :
  dict_ok objs st.1 ->
  wp (group_object key st) w (fun r w' =>
    match r with
    | Ok st' => io_step w w' /\ dict_ok (objs ++ [key]) st'.1
    | Raise _ => False
    end).
Proof.
  intros Hd. destruct st as [d inv]. simpl in Hd.
  assert (Hweak : dict_ok (objs ++ [key]) d).
  { eapply dict_ok_weaken; [|exact Hd]. intros k Hk. apply in_or_app. auto. }
  assert (Hkey : In key (objs ++ [key])) by (apply in_or_app; simpl; auto).
  unfold group_object.
  pose proof (eq_refl (classify key)) as Hcl. unfold classify at 1 in Hcl.
  destruct (parse_mp4_filename (basename key)) as [cam num].
  destruct (Py.is_empty cam || Py.is_empty num).
  { apply wp_bind, wp_log_at, wp_ret. simpl. split; [now repeat split|exact Hweak]. }
  apply wp_bind, wp_get_world. apply wp_bind, wp_get_object_size.
  intros z w1 Hio.
  destruct (Py.contains "down" (Py.lower cam)).
  { apply wp_ret. split; [exact Hio|]. simpl.
    intros n files Hin. apply in_dict_update in Hin
      as [Hin|(-> & files0 & -> & Hf0)]; [now apply Hweak|].
    simpl. split.
    - intros _. exists key. now split.
    - destruct Hf0 as [->|Hin0]; [intros [? [=]]|]. now apply (Hweak num files0). }
  destruct (Py.contains "front" (Py.lower cam)).
  { apply wp_ret. split; [exact Hio|]. simpl.
    intros n files Hin. apply in_dict_update in Hin
      as [Hin|(-> & files0 & -> & Hf0)]; [now apply Hweak|].
    simpl. split.
    - destruct Hf0 as [->|Hin0]; [intros [? [=]]|]. now apply (Hweak num files0).
    - intros _. exists key. now split. }
  apply wp_bind, wp_log_at, wp_ret. simpl.
  split; [|exact Hweak].
  destruct Hio as (? & ? & ? & ? & ?). now repeat split.
Qed.

Lemma group_objects_ok objs w :
  wp (fold_m objs group_object ([], O)) w (fun r w' =>
    match r with
    | Ok st' => io_step w w' /\ dict_ok objs st'.1
    | Raise _ => False
    end).
Proof.
  pose proof (wp_fold_m group_object
                (fun done st w' => io_step w w' /\ dict_ok done st.1)
                (fun _ _ => False) objs [] ([], O) w) as H.
  simpl in H. apply H.
  - intros d x st w1 _ [Hio Hd].
    eapply wp_conseq; [apply (group_object_ok d x st w1 Hd)|].
    intros [st'|e] w2; [|tauto]. intros [Hio' Hd'].
    split; [now apply (io_step_trans w w1)|exact Hd'].
  - split; [apply io_step_refl|]. intros n files [].
Qed.

Lemma in_insert_sorted x y l : In y (insert_sorted x l) -> y = x \/ In y l.
Proof.
  induction l as [|z l IH]; simpl.
  - intros [<-|[]]. now left.
  - destruct (String.leb x.1 z.1); simpl.
    + intros [<-|[<-|H]]; auto.
    + intros [<-|H]; [auto|]. destruct (IH H); auto.
Qed.

Lemma in_sorted_items y d : In y (sorted_items d) -> In y d.
Proof.
  induction d as [|x d IH]; simpl; [auto|].
  intros H. apply in_insert_sorted in H as [->|H]; auto.
Qed.

(** ** The pairing loop *)

Lemma seg_inv_same w0 w w' ns :
  seg_inv w0 w ns ->
  db_step w w' -> device_config w' = device_config w -> clean w' ->
  committed w' = committed w ->
  seg_inv w0 w' ns.
Proof.
  intros Hi (Hb & Hf) Hcfg Hcl Hcom. apply (seg_inv_io w0 w); [exact Hi|].
  pose proof (si_clean _ _ _ Hi) as Hc. unfold clean in *.
  repeat split; congruence.
Qed.

Definition pair_state_ok (w0 : World) (stats : gmap string nat)
  (st : pair_state) (w : World) : Prop :=
  seg_inv w0 w (new_segments st)
  /\ (stat NEW_SEGMENTS stats + paired_new st)%nat = size (new_segments st).

Lemma stat_new_result stats a b c :
  stat NEW_SEGMENTS
    (add_stat "未配对段数" a
       (add_stat "已存在视频段数" b (add_stat NEW_SEGMENTS c stats)))
  = (stat NEW_SEGMENTS stats + c)%nat.
Proof.
  rewrite !stat_add_stat_ne by discriminate. apply stat_add_stat_eq.
Qed.

Lemma pair_segment_ok w0 sid debug stats item st w :
  is_Some (sessions (committed w0) !! sid) ->
  (is_Some (down_file item.2) -> is_Some (front_file item.2) ->
   exists sp, listed_session (bucket w0) sp sid
              /\ listed_pair (bucket w0) sp item.1) ->
  pair_state_ok w0 stats st w ->
  wp (pair_segment sid debug stats item st) w (fun r w' =>
    match r with
    | Ok (Next st') => pair_state_ok w0 stats st' w'
    | Ok (Return res) => seg_state_ok w0 res w'
    | Raise _ => False
    end).
Proof.
  intros Hsid Hpair [Hinv Hcnt]. destruct item as [n files]. simpl in Hpair.
  unfold pair_segment.
  destruct (down_file files) as [down|];
    [destruct (front_file files) as [front|]|];
    try (apply wp_ret; split; [exact Hinv|exact Hcnt]).
  apply wp_bind, wp_is_segment_exists. intros b w1 Hio1 _.
  assert (Hinv1 : seg_inv w0 w1 (new_segments st))
    by now apply (seg_inv_io w0 w).
  destruct b.
  { apply wp_ret. split; [exact Hinv1|exact Hcnt]. }
  apply wp_bind. unfold wp at 1.
  set (record := mkSegmentRecord sid n _ _ _ _ _ _).
  destruct (insert_segment_spec record w1 (si_clean _ _ _ Hinv1))
    as (Hdb & Hcfg & Hcl & [(Hr & Hnone & Hcom)|(Hr & Hcom)]);
    rewrite Hr; set (w2 := (insert_segment record w1).2) in *.
  - destruct (seg_inv_insert w0 w1 w2 (new_segments st) record Hinv1 Hdb Hcfg
                Hcl Hnone Hcom) as [Hinv2 Hfresh].
    { split; [exact Hsid|]. apply Hpair; eauto. }
    simpl in Hinv2, Hfresh.
    assert (Hsize : size ({[(sid, n)]} ∪ new_segments st)
                    = S (size (new_segments st))).
    { rewrite size_union by set_solver. now rewrite size_singleton. }
    simpl paired_new.
    destruct (debug && Nat.leb 5 (stat "新增视频段数" stats + S (paired_new st))).
    + apply wp_bind, wp_log_at, wp_ret. split; simpl.
      * apply (seg_inv_io w0 w2); [exact Hinv2|now repeat split].
      * rewrite stat_new_result, Hsize. lia.
    + apply wp_ret. split; simpl; [exact Hinv2|]. rewrite Hsize. lia.
  - assert (Hinv2 : seg_inv w0 w2 (new_segments st))
      by now apply (seg_inv_same w0 w1).
    destruct (debug && Nat.leb 5 (stat "新增视频段数" stats + paired_new st)).
    + apply wp_bind, wp_log_at, wp_ret. split; simpl.
      * apply (seg_inv_io w0 w2); [exact Hinv2|now repeat split].
      * rewrite stat_new_result. exact Hcnt.
    + apply wp_ret. split; [exact Hinv2|exact Hcnt].
Qed.

(** ** The session loop, the device loop, the phase *)

Lemma seg_state_ok_stats w0 stats stats' ns w :
  stat NEW_SEGMENTS stats' = stat NEW_SEGMENTS stats ->
  seg_state_ok w0 (stats, ns) w -> seg_state_ok w0 (stats', ns) w.
Proof. intros H [Hi Hn]. split; [exact Hi|]. simpl in *. congruence. Qed.

Lemma scan_segments_session_ok w0 s e debug sp st w :
  (exists dp, In dp (prefix_list (bucket w0) "")
              /\ In sp (prefix_list (bucket w0) dp)) ->
  seg_state_ok w0 st w ->
  wp (scan_segments_session s e debug sp st) w (fun r w' =>
    match r with
    | Ok (Next st') => seg_state_ok w0 st' w'
    | Ok (Return st') => seg_state_ok w0 st' w'
    | Raise _ => False
    end).
Proof.
  intros (dp & Hdp & Hsp) Hok. destruct st as [stats ns].
  unfold scan_segments_session.
  apply wp_bind, wp_parse_session_id. intros w1 Hio1.
  destruct (parse_session_id_value (session_id_of sp)) as [[ds ts] sd].
  assert (Hok1 : seg_state_ok w0 (stats, ns) w1)
    by now apply (seg_state_ok_io w0 _ w).
  destruct (negb (is_date_in_range sd s e)).
  { apply wp_ret. eapply seg_state_ok_stats; [|exact Hok1].
    unfold incr. now rewrite !stat_add_stat_ne by discriminate. }
  apply wp_bind, wp_is_session_exists. intros found w2 Hio2 Hfound.
  assert (Hok2 : seg_state_ok w0 (stats, ns) w2)
    by now apply (seg_state_ok_io w0 _ w1).
  destruct found; simpl negb; cbv iota.
  2:{ apply wp_bind, wp_log_at, wp_ret.
      eapply seg_state_ok_stats;
        [|apply (seg_state_ok_io w0 _ w2); [exact Hok2|now repeat split]].
      unfold incr. now rewrite !stat_add_stat_ne by discriminate. }
  assert (Hsid : is_Some (sessions (committed w0) !! session_id_of sp)).
  { destruct Hok1 as [Hi _]. specialize (Hfound eq_refl).
    rewrite (si_clean _ _ _ Hi), (si_sessions _ _ _ Hi) in Hfound.
    exact Hfound. }
  set (stats1 := incr "处理会话数" (incr "扫描会话数" stats)).
  assert (Hst1 : stat NEW_SEGMENTS stats1 = stat NEW_SEGMENTS stats)
    by (unfold stats1, incr; now rewrite !stat_add_stat_ne by discriminate).
  apply wp_bind, wp_catch, wp_bind. unfold wp at 1.
  destruct (list_objects_spec (sp ++ "segments/") w2) as [Hio3 Hres].
  set (w3 := (list_objects (sp ++ "segments/") w2).2) in *.
  assert (Hok3 : seg_state_ok w0 (stats1, ns) w3).
  { eapply seg_state_ok_stats; [exact Hst1|].
    now apply (seg_state_ok_io w0 _ w2). }
  destruct (list_objects (sp ++ "segments/") w2).1 as [objs|err].
  2:{ apply wp_bind, wp_log_at, wp_ret, wp_ret.
      apply (seg_state_ok_io w0 _ w3); [exact Hok3|now repeat split]. }
  apply wp_ret.
  assert (Hobjs : objs = listed_objects (bucket w0) sp).
  { rewrite Hres. unfold listed_objects.
    destruct Hok2 as [Hi _]. now rewrite (si_bucket _ _ _ Hi). }
  destruct (List.filter (Py.endswith ".mp4") objs) as [|o mp4] eqn:Emp4;
    [now apply wp_ret|].
  rewrite <- Emp4. apply wp_bind.
  eapply wp_conseq; [apply group_objects_ok|].
  intros [[d inv]|err] w4; [|tauto]. intros [Hio4 Hdict]. simpl in Hdict.
  set (stats2 := if Nat.ltb 0 inv then add_stat "文件名无效数" inv stats1
                 else stats1).
  assert (Hst2 : stat NEW_SEGMENTS stats2 = stat NEW_SEGMENTS stats).
  { unfold stats2. destruct (Nat.ltb 0 inv); [|exact Hst1].
    now rewrite stat_add_stat_ne by discriminate. }
  assert (Hok4 : seg_state_ok w0 (stats2, ns) w4).
  { eapply seg_state_ok_stats; [now rewrite Hst2|].
    apply (seg_state_ok_io w0 _ w3); [|exact Hio4].
    eapply seg_state_ok_stats; [|exact Hok3]. now rewrite Hst1. }
  apply wp_bind.
  pose proof (wp_foreach (pair_segment (session_id_of sp) debug stats2)
                (fun _ pst w' => pair_state_ok w0 stats2 pst w')
                (fun res w' => seg_state_ok w0 res w')
                (fun _ _ => False)
                (sorted_items d) [] (mkPairState O O O ns) w4) as Hloop.
  simpl in Hloop. eapply wp_conseq; [apply Hloop|].
  - intros done item pst w5 (rest & Hrest) Hpst.
    apply pair_segment_ok; [exact Hsid| |exact Hpst].
    intros Hdown Hfront.
    assert (Hin : In item d).
    { apply in_sorted_items. rewrite Hrest. apply in_or_app. simpl. auto. }
    destruct item as [n files]. simpl in *.
    destruct (Hdict n files Hin) as [Hd Hf].
    destruct (Hd Hdown) as (dk & Hdk & Hdc).
    destruct (Hf Hfront) as (fk & Hfk & Hfc).
    apply filter_In in Hdk as [Hdk Hde]. apply filter_In in Hfk as [Hfk Hfe].
    exists sp. split.
    + exists dp. now repeat split.
    + exists dk, fk. rewrite <- Hobjs. now repeat split.
  - destruct Hok4 as [Hi Hn]. split; [exact Hi|]. simpl in *. lia.
  - intros [[pst|res]|err] w5 H; [|now apply wp_ret|exact H].
    apply wp_ret. destruct H as [Hi Hn]. split; [exact Hi|]. simpl.
    rewrite stat_new_result. exact Hn.
Qed.

Lemma scan_segments_device_ok w0 s e f debug dp st w :
  In dp (prefix_list (bucket w0) "") ->
  seg_state_ok w0 st w ->
  wp (scan_segments_device s e f debug dp st) w (fun r w' =>
    match r with
    | Ok (Next st') => seg_state_ok w0 st' w'
    | Ok (Return st') => seg_state_ok w0 st' w'
    | Raise _ => exists ns, seg_inv w0 w' ns
    end).
Proof.
  intros Hdp Hok. destruct st as [stats ns]. unfold scan_segments_device.
  destruct (filtered_out f (Py.rstrip_char "/" dp)); [now apply wp_ret|].
  apply wp_bind, wp_get_world.
  destruct (device_config w !! Py.rstrip_char "/" dp) as [entry|];
    [|now apply wp_ret].
  destruct (skip_scan entry); [now apply wp_ret|].
  apply wp_bind. unfold wp at 1.
  destruct (list_prefixes_spec dp w) as [Hio1 Hres].
  set (w1 := (list_prefixes dp w).2) in *.
  assert (Hok1 : seg_state_ok w0 (incr "扫描设备数" stats, ns) w1).
  { eapply seg_state_ok_stats;
      [|apply (seg_state_ok_io w0 _ w); [exact Hok|exact Hio1]].
    unfold incr. now rewrite stat_add_stat_ne by discriminate. }
  destruct (list_prefixes dp w).1 as [l|err].
  2:{ exists ns. apply Hok1. }
  assert (Hl : l = prefix_list (bucket w0) dp).
  { rewrite Hres. destruct Hok as [Hi _]. now rewrite (si_bucket _ _ _ Hi). }
  pose proof (wp_foreach (scan_segments_session s e debug)
                (fun _ st w' => seg_state_ok w0 st w')
                (fun res w' => seg_state_ok w0 res w')
                (fun _ _ => False)
                (List.filter is_session_prefix l) []
                (incr "扫描设备数" stats, ns) w1) as Hloop.
  simpl in Hloop. eapply wp_conseq; [apply Hloop|].
  - intros done sp st w2 (rest & Hrest) Hst.
    apply scan_segments_session_ok; [|exact Hst].
    exists dp. split; [exact Hdp|]. rewrite <- Hl.
    assert (Hin : In sp (List.filter is_session_prefix l))
      by (rewrite Hrest; apply in_or_app; simpl; auto).
    now apply filter_In in Hin as [Hin _].
  - exact Hok1.
  - intros [[st|res]|err] w2 H; [exact H|exact H|destruct H].
Qed.

(** The segment phase keeps the invariant, to its end or to the exception
    that aborts it. *)
Lemma scan_segments_ok s e f debug w0 :
  clean w0 ->
  wp (scan_segments s e f debug) w0 (fun r w' =>
    match r with
    | Ok res => seg_state_ok w0 res w'
    | Raise _ => exists ns, seg_inv w0 w' ns
    end).
Proof.
  intros Hc. unfold scan_segments.
  assert (Hok0 : seg_state_ok w0 (segments_stats_init, ∅) w0).
  { split; [now apply seg_inv_init|]. reflexivity. }
  apply wp_bind. unfold wp at 1.
  destruct (list_prefixes_spec "" w0) as [Hio1 Hres].
  set (w1 := (list_prefixes "" w0).2) in *.
  assert (Hok1 : seg_state_ok w0 (segments_stats_init, ∅) w1)
    by now apply (seg_state_ok_io w0 _ w0).
  destruct (list_prefixes "" w0).1 as [l|err].
  2:{ exists ∅. apply Hok1. }
  pose proof (wp_foreach (scan_segments_device s e f debug)
                (fun _ st w' => seg_state_ok w0 st w')
                (fun res w' => seg_state_ok w0 res w')
                (fun _ w' => exists ns, seg_inv w0 w' ns)
                l [] (segments_stats_init, ∅) w1) as Hloop.
  simpl in Hloop. apply wp_bind. eapply wp_conseq; [apply Hloop|].
  - intros done dp st w2 (rest & Hrest) Hst.
    apply scan_segments_device_ok; [|exact Hst].
    rewrite <- Hres, Hrest. apply in_or_app. simpl. auto.
  - exact Hok1.
  - intros [[st|res]|err] w2 H; [now apply wp_ret|now apply wp_ret|exact H].
Qed.

End SegmentPhase.

(* ===================================================================== *)
(** * A small deployment, for the worked instances                        *)
(* ===================================================================== *)

(** One device with six session directories recorded on 2025-01-15, each
    holding a metadata document; the first session has a complete segment
    0001 and a segment 0002 with its down file only. *)
Definition demo_session (i : string) : string :=
  "7393/session_20250115_10101" ++ i ++ "_1/".

Definition demo_metadata : json :=
  JObject [("task_info", JObject [("scene", JString "lab")])].

Definition demo_segments : list string :=
  [demo_session "0" ++ "segments/a-down_sbs_0001.mp4";
   demo_session "0" ++ "segments/a-front_sbs_0001.mp4";
   demo_session "0" ++ "segments/a-down_sbs_0002.mp4"].

Definition demo_bucket (fault : nat -> oss_call -> bool) : Bucket :=
  mkBucket "fpv"
    (fun p =>
       if String.eqb p "" then ["7393/"]
       else if String.eqb p "7393/"
       then List.map demo_session ["0"; "1"; "2"; "3"; "4"; "5"]
       else [])
    (fun p =>
       if String.eqb p (demo_session "0" ++ "segments/")
       then [demo_segments] else [])
    (list_to_map
       (List.map (fun i => (demo_session i ++ "metadata.json",
                            mkObject 10 (Some demo_metadata)))
                 ["0"; "1"; "2"; "3"; "4"; "5"]))
    fault.

Definition no_tables : Tables := mkTables ∅ ∅ ∅ ∅.

Definition never {X : Type} : nat -> X -> bool := fun _ _ => false.

(** The deployment before any scan, with the given fault oracles. *)
Definition demo_world (oss_faults : nat -> oss_call -> bool)
  (db_faults : nat -> db_stmt -> bool) : World :=
  mkWorld (demo_bucket oss_faults) [] [] db_faults no_tables no_tables [] ∅ [].

Definition demo_day : option date := Some (mkDate 2025 1 15).

(** The deployment after a complete metadata scan without faults. *)
Definition demo_scanned : World :=
  (main_metadata demo_day demo_day (Some "7393") false
     (demo_world never never)).2.

(* ===================================================================== *)
(** * The segment phase: statements                                       *)
(* ===================================================================== *)

Section SegmentPhaseClaims.

Variables (start_date end_date : option date).
Variables (device_id_filter : option string) (debug_mode : bool).

Local Abbreviation run :=
  (scan_segments start_date end_date device_id_filter debug_mode).

(** C3.  When the segment phase returns, the set of new segments it returns
    is exactly the set of keys that are in the segments table now and were
    not before the run (the rows the run committed); it is disjoint from the
    rows that were there, its size is the number of rows added, and that is
    the count of new segments in the returned statistics. *)
Theorem change_tracker_exact (w0 : World) (stats : gmap string nat)
  (ns : gset (string * string)) :
  clean w0 ->
  (run w0).1 = Ok (stats, ns) ->
  ns = dom (segments (committed (run w0).2)) ∖ dom (segments (committed w0))
  /\ segments (committed w0) ⊆ segments (committed (run w0).2)
  /\ (size (segments (committed (run w0).2))
      = size (segments (committed w0)) + size ns)%nat
  /\ stat "新增视频段数" stats = size ns.
Proof.
  intros Hc Hr. pose proof (scan_segments_ok start_date end_date
                              device_id_filter debug_mode w0 Hc) as H.
  unfold wp in H. rewrite Hr in H.
  destruct H as [[Ab Af Ac Acl As Ad Am Asub Adom Afr Aj] Hn]. simpl in *.
  repeat split.
  - rewrite Adom. set_solver.
  - exact Asub.
  - rewrite <- !size_dom, Adom. rewrite size_union by set_solver. lia.
  - exact Hn.
Qed.

(** C4.  Every segment row the phase adds has both a down and a front file
    with its segment number in the listing of a directory of its session;
    and for a session none of whose directories lists a front file (only
    down files, say), the phase adds no row. *)
Theorem pairing_invariant (w0 : World) :
  clean w0 ->
  (forall sid n,
     segments (committed w0) !! (sid, n) = None ->
     is_Some (segments (committed (run w0).2) !! (sid, n)) ->
     exists sp, listed_session (bucket w0) sp sid
                /\ listed_pair (bucket w0) sp n)
  /\ (forall sid,
        (forall sp key n,
           listed_session (bucket w0) sp sid ->
           In key (listed_objects (bucket w0) sp) ->
           classify key <> Some (Front, n)) ->
        forall n, segments (committed (run w0).2) !! (sid, n)
                  = segments (committed w0) !! (sid, n)).
Proof.
  intros Hc. pose proof (scan_segments_ok start_date end_date
                           device_id_filter debug_mode w0 Hc) as H.
  unfold wp in H.
  assert (Hinv : exists ns, seg_inv w0 (run w0).2 ns).
  { destruct (run w0).1 as [res|err]; [|exact H]. exists res.2. apply H. }
  clear H. destruct Hinv as (ns & [Ab Af Ac Acl As Ad Am Asub Adom Afr Aj]).
  assert (Hnew : forall sid n,
            segments (committed w0) !! (sid, n) = None ->
            is_Some (segments (committed (run w0).2) !! (sid, n)) ->
            exists sp, listed_session (bucket w0) sp sid
                       /\ listed_pair (bucket w0) sp n).
  { intros sid n Hnone Hsome.
    assert (Hin : (sid, n) ∈ ns).
    { apply elem_of_dom in Hsome. rewrite Adom in Hsome.
      apply elem_of_union in Hsome as [Hold|Hns]; [|exact Hns].
      apply elem_of_dom in Hold. rewrite Hnone in Hold.
      now destruct Hold. }
    destruct (Aj _ Hin) as (_ & sp & Hs & Hp). now exists sp. }
  split; [exact Hnew|].
  intros sid Hfront n.
  destruct (segments (committed w0) !! (sid, n)) as [r|] eqn:E0.
  - now apply (lookup_weaken _ _ _ _ E0 Asub).
  - destruct (segments (committed (run w0).2) !! (sid, n)) as [r|] eqn:E1;
      [|reflexivity].
    destruct (Hnew sid n E0 (mk_is_Some _ _ E1))
      as (sp & Hs & dk & fk & _ & Hfk & _ & _ & _ & Hfc).
    now destruct (Hfront sp fk n Hs Hfk).
Qed.

(** C5.  The segment phase leaves the sessions table as it is, and every
    segment row it adds belongs to a session that has a row.  A session
    directory whose id has no row is passed over: the step ends with
    [continue], makes no call on the bucket, sends nothing to the store but
    the existence query, and changes no table; when the id is in the date
    range the skip is logged as a warning and counted. *)
Theorem session_before_segment (w0 : World) :
  clean w0 ->
  sessions (committed (run w0).2) = sessions (committed w0)
  /\ (forall sid n,
        segments (committed w0) !! (sid, n) = None ->
        is_Some (segments (committed (run w0).2) !! (sid, n)) ->
        is_Some (sessions (committed (run w0).2) !! sid))
  /\ (forall sp st w,
        sessions (working w) !! session_id_of sp = None ->
        let step := scan_segments_session start_date end_date debug_mode
                      sp st w in
        let sid := session_id_of sp in
        (exists stats', step.1 = Ok (Next (stats', st.2))
           /\ (is_date_in_range (parse_session_id_value sid).2
                 start_date end_date = true ->
               stat "会话不存在数" stats' = S (stat "会话不存在数" st.1)
               /\ head (log step.2) = Some (WARNING, MsgSessionMissing sid)))
        /\ oss_trace step.2 = oss_trace w
        /\ committed step.2 = committed w
        /\ working step.2 = working w
        /\ (db_trace step.2 = db_trace w
            \/ exists o, db_trace step.2
                         = DbStmt (SelectSession sid) o :: db_trace w)).
Proof.
  intros Hc. split; [|split].
  - pose proof (scan_segments_ok start_date end_date device_id_filter
                  debug_mode w0 Hc) as H.
    unfold wp in H.
    destruct (run w0).1 as [res|err]; [apply H|].
    destruct H as (ns & Hi). apply Hi.
  - intros sid n Hnone Hsome.
    pose proof (scan_segments_ok start_date end_date device_id_filter
                  debug_mode w0 Hc) as H.
    unfold wp in H.
    assert (Hinv : exists ns, seg_inv w0 (run w0).2 ns).
    { destruct (run w0).1 as [res|err]; [|exact H]. exists res.2. apply H. }
    clear H. destruct Hinv as (ns & [Ab Af Ac Acl As Ad Am Asub Adom Afr Aj]).
    assert (Hin : (sid, n) ∈ ns).
    { apply elem_of_dom in Hsome. rewrite Adom in Hsome.
      apply elem_of_union in Hsome as [Hold|Hns]; [|exact Hns].
      apply elem_of_dom in Hold. rewrite Hnone in Hold. now destruct Hold. }
    rewrite As. now destruct (Aj _ Hin) as (Hs & _).
  - intros sp [stats ns] w Hnone. cbv zeta.
    unfold scan_segments_session.
    destruct (parse_session_id_eq (session_id_of sp) w)
      as (w1 & Hp & Ho1 & Hc1 & Hw1 & Hd1).
    rewrite (bind_eq _ _ _ _ _ Hp).
    destruct (parse_session_id_value (session_id_of sp)) as [[ds ts] sd].
    simpl snd.
    destruct (is_date_in_range sd start_date end_date);
      [change (negb true) with false|change (negb false) with true];
      cbv iota.
    2:{ simpl. repeat split; try assumption; [|now left].
        eexists. split; [reflexivity|discriminate]. }
    rewrite <- Hw1 in Hnone.
    destruct (is_session_exists_absent _ _ Hnone)
      as (w2 & o & He & Ho2 & Hc2 & Hw2 & Hd2).
    rewrite (bind_eq _ _ _ _ _ He). simpl.
    repeat split; try congruence.
    + eexists. split; [reflexivity|]. intros _. split; [|reflexivity].
      unfold incr. rewrite stat_add_stat_eq, stat_add_stat_ne by discriminate.
      lia.
    + right. exists o. congruence.
Qed.

End SegmentPhaseClaims.

(** The value of a result, [d] when it is an exception. *)
Definition result_value {A : Type} (d : A) (r : result A) : A :=
  match r with
  | Ok a => a
  | Raise _ => d
  end.

(** The segment phase on the scanned deployment. *)
Definition demo_segments_run : result segments_result * World :=
  scan_segments demo_day demo_day (Some "7393") false demo_scanned.

Definition demo_sid : string := "session_20250115_101010_1".

(** [change_tracker_exact] on the scanned deployment: the one complete
    segment is inserted and is the one key returned. *)
Lemma change_tracker_exact_witness :
  clean demo_scanned
  /\ demo_segments_run.1
     = Ok (result_value (∅, ∅) demo_segments_run.1)
  /\ (result_value (∅, ∅) demo_segments_run.1).2 = {[ (demo_sid, "0001") ]}
  /\ size (segments (committed demo_segments_run.2)) = 1%nat
  /\ stat "新增视频段数" (result_value (∅, ∅) demo_segments_run.1).1 = 1%nat.
Proof.
  assert (Hc : clean demo_scanned) by (vm_compute; reflexivity).
  assert (Hr : demo_segments_run.1
               = Ok ((result_value (∅, ∅) demo_segments_run.1).1,
                     (result_value (∅, ∅) demo_segments_run.1).2))
    by (vm_compute; reflexivity).
  destruct (change_tracker_exact demo_day demo_day (Some "7393") false
              demo_scanned _ _ Hc Hr) as (H1 & H2 & H3 & H4).
  assert (Hns : (result_value (∅, ∅) demo_segments_run.1).2
                = {[ (demo_sid, "0001") ]}) by (vm_compute; reflexivity).
  split; [exact Hc|]. split; [vm_compute; reflexivity|].
  split; [exact Hns|]. split.
  - change (scan_segments demo_day demo_day (Some "7393") false demo_scanned)
      with demo_segments_run in H3.
    rewrite H3, Hns. vm_compute. reflexivity.
  - rewrite H4, Hns. vm_compute. reflexivity.
Defined.

(** [pairing_invariant] on the scanned deployment: the inserted segment
    0001 has both files listed; segment 0002, with a down file only, is
    not inserted. *)
Lemma pairing_invariant_witness :
  clean demo_scanned
  /\ (exists sp, listed_session (bucket demo_scanned) sp demo_sid
                 /\ listed_pair (bucket demo_scanned) sp "0001")
  /\ segments (committed demo_segments_run.2) !! (demo_sid, "0002") = None.
Proof.
  assert (Hc : clean demo_scanned) by (vm_compute; reflexivity).
  destruct (pairing_invariant demo_day demo_day (Some "7393") false
              demo_scanned Hc) as [Hnew _].
  split; [exact Hc|]. split; [|vm_compute; reflexivity].
  apply Hnew; [vm_compute; reflexivity|].
  change (scan_segments demo_day demo_day (Some "7393") false demo_scanned)
    with demo_segments_run.
  destruct (segments (committed demo_segments_run.2) !! (demo_sid, "0001"))
    eqn:E; [eauto|]. vm_compute in E. discriminate.
Defined.

(** [session_before_segment] on the deployment before any metadata scan:
    the first session directory has no row, and is skipped with its
    warning. *)
Lemma session_before_segment_witness :
  clean (demo_world never never)
  /\ head (log (scan_segments_session demo_day demo_day false
                  (demo_session "0") (segments_stats_init, ∅)
                  (demo_world never never)).2)
     = Some (WARNING, MsgSessionMissing demo_sid)
  /\ oss_trace (scan_segments_session demo_day demo_day false
                  (demo_session "0") (segments_stats_init, ∅)
                  (demo_world never never)).2 = [].
Proof.
  assert (Hc : clean (demo_world never never)) by reflexivity.
  destruct (session_before_segment demo_day demo_day (Some "7393") false
              (demo_world never never) Hc) as (_ & _ & Hstep).
  destruct (Hstep (demo_session "0") (segments_stats_init, ∅)
              (demo_world never never) eq_refl)
    as ((stats' & _ & Hwarn) & Hoss & _).
  split; [exact Hc|]. split; [|exact Hoss].
  apply Hwarn. vm_compute. reflexivity.
Defined.

(* ===================================================================== *)
(** * Running the wrappers: equations                                     *)
(* ===================================================================== *)

Definition rbind {A B : Type} (r : result A) (k : A -> result B) : result B :=
  match r with
  | Ok a => k a
  | Raise e => Raise e
  end.

(** What [prepare_session_record] returns or raises (it is a function of
    its arguments; the world only receives the warning of
    [parse_session_id]). *)
Definition session_record_of (device_id session_id : string)
  (metadata : json) : result session_record :=
  rbind (py_get metadata "start_time_utc_iso8601" (JString "")) (fun start_time_iso =>
  rbind (py_get metadata "end_time_utc_iso8601" (JString "")) (fun end_time_iso =>
  let '(collect_date_str, collect_time_str, _) :=
    parse_session_id_value session_id in
  rbind (py_get metadata "task_info" (JObject [])) (fun task_info =>
  rbind (py_get metadata "camera_settings" (JObject [])) (fun camera_settings =>
  rbind (py_get metadata "device_info" (JObject [])) (fun device_info =>
  rbind (py_get task_info "operator_height" JNull) (fun operator_height =>
  let operator_info :=
    match operator_height with
    | JNull => JNull
    | h => JObject [("operator_height", h)]
    end in
  let collect_site :=
    get_nested_value metadata "task_info.collect_site" (JString "N/A") in
  rbind (py_get camera_settings "stereo_cameras" (JArray [])) (fun cams =>
  rbind (py_len cams) (fun num_cameras =>
  rbind (py_get task_info "task_description" JNull) (fun task_description =>
  rbind (py_get task_info "scene" JNull) (fun scene =>
  rbind (py_get device_info "model" JNull) (fun model =>
  rbind (py_get device_info "platform" JNull) (fun platform =>
  rbind (py_get camera_settings "resolution" JNull) (fun resolution =>
  rbind (py_get camera_settings "fps" JNull) (fun fps =>
  Ok (mkSessionRecord session_id device_id collect_date_str collect_time_str
        start_time_iso end_time_iso task_description scene collect_site
        operator_info model platform resolution fps num_cameras
        metadata))))))))))))))).

(** Two worlds that differ in the log only. *)
Definition log_step (w w' : World) : Prop :=
  bucket w' = bucket w /\ oss_trace w' = oss_trace w /\ slept w' = slept w
  /\ db_fault w' = db_fault w /\ committed w' = committed w
  /\ working w' = working w /\ db_trace w' = db_trace w
  /\ device_config w' = device_config w.

Section Running.

Lemma log_step_refl w : log_step w w.
Proof. now repeat split. Qed.

Lemma log_step_with_log l w : log_step w (with_log l w).
Proof. now repeat split. Qed.

Lemma log_step_trans w1 w2 w3 :
  log_step w1 w2 -> log_step w2 w3 -> log_step w1 w3.
Proof.
  intros (A1 & A2 & A3 & A4 & A5 & A6 & A7 & A8)
         (B1 & B2 & B3 & B4 & B5 & B6 & B7 & B8).
  repeat split; congruence.
Qed.

Lemma catch_ok_eq {A : Type} (m : M A) (h : exn -> M A) w a w' :
  m w = (Ok a, w') -> catch m h w = (Ok a, w').
Proof. intros H. unfold catch. now rewrite H. Qed.

Lemma catch_raise_eq {A : Type} (m : M A) (h : exn -> M A) w e w' :
  m w = (Raise e, w') -> catch m h w = h e w'.
Proof. intros H. unfold catch. now rewrite H. Qed.

Lemma parse_session_id_log sid w :
  exists w', parse_session_id sid w = (Ok (parse_session_id_value sid), w')
             /\ log_step w w'.
Proof.
  unfold parse_session_id, bind, log_at, modify, ret.
  destruct (parse_session_id_warns sid); simpl; eexists;
    (split; [reflexivity|now repeat split]).
Qed.

Lemma prepare_session_record_eq d sid j w :
  exists w', prepare_session_record d sid j w = (session_record_of d sid j, w')
             /\ log_step w w'.
Proof.
  unfold prepare_session_record, session_record_of.
  destruct (py_get j "start_time_utc_iso8601" (JString "")) as [v1|e1];
    [|exists w; split; [reflexivity|apply log_step_refl]].
  destruct (py_get j "end_time_utc_iso8601" (JString "")) as [v2|e2];
    [|exists w; split; [reflexivity|apply log_step_refl]].
  destruct (parse_session_id_log sid w) as (w1 & Hp & Hl).
  exists w1. split; [|exact Hl].
  unfold bind at 1 2, lift_result at 1 2. simpl.
  rewrite (bind_eq _ _ _ _ _ Hp).
  destruct (parse_session_id_value sid) as [[ds ts] sd].
  unfold bind, lift_result, rbind, ret.
  repeat match goal with
         | |- context [py_get ?a ?b ?c] =>
             destruct (py_get a b c); try reflexivity
         | |- context [py_len ?a] => destruct (py_len a); try reflexivity
         end.
Qed.

End Running.

(* ===================================================================== *)
(** * Lookups that fail                                                   *)
(* ===================================================================== *)

(** The [head_object] call for [key] made in [w] raises: the oracle makes
    it fail, or the object is not there. *)
Definition head_raises (key : string) (w : World) : Prop :=
  oss_fault (bucket w) (List.length (oss_trace w)) (HeadObject key) = true
  \/ objects (bucket w) !! key = None.

(** The row [scan_segments] builds for a complete pair. *)
Definition pair_record (session_id segment_number : string)
  (down front : camera_file) : segment_record :=
  mkSegmentRecord session_id segment_number
    (file_name down) (oss_path down) (file_size_bytes down)
    (file_name front) (oss_path front) (file_size_bytes front).

Section FailingLookups.

Lemma get_object_size_raises key w :
  head_raises key w ->
  get_object_size key w
  = (Ok 0,
     with_log ((WARNING, MsgObjectSizeUnavailable key) :: log w)
       (with_oss_trace (HeadObject key :: oss_trace w) w)).
Proof.
  intros H. rewrite get_object_size_eq. cbv zeta. unfold head_raises in H.
  destruct (oss_fault (bucket w) (List.length (oss_trace w)) (HeadObject key));
    [reflexivity|].
  destruct H as [H|H]; [discriminate|]. now rewrite H.
Qed.

Lemma group_object_unsized key cam n d inv w :
  parse_mp4_filename (basename key) = (cam, n) ->
  Py.is_empty cam || Py.is_empty n = false ->
  head_raises key w ->
  let c := mkCameraFile (basename key)
             ("oss://" ++ bucket_name (bucket w) ++ "/" ++ key) 0 in
  (Py.contains "down" (Py.lower cam) = true ->
   (group_object key (d, inv) w).1 = Ok (dict_update n (set_down c) d, inv))
  /\ (Py.contains "down" (Py.lower cam) = false ->
      Py.contains "front" (Py.lower cam) = true ->
      (group_object key (d, inv) w).1 = Ok (dict_update n (set_front c) d, inv)).
Proof.
  intros Hp He Hh. cbv zeta.
  split; [intros Hd|intros Hd Hf]; unfold group_object; rewrite Hp, He;
    unfold bind at 1, get_world at 1; cbv iota beta;
    rewrite (bind_eq _ _ _ _ _ (get_object_size_raises key w Hh));
    rewrite Hd, ?Hf; reflexivity.
Qed.

(** A complete pair that is not in the table is inserted, with the sizes
    it was grouped with, when the store raises nothing. *)
Lemma pair_segment_inserts sid debug stats n down front st w :
  clean w ->
  (forall t s, db_fault w t s = false) ->
  segments (committed w) !! (sid, n) = None ->
  let r := pair_segment sid debug stats
             (n, mkSegmentFiles (Some down) (Some front)) st w in
  let st' := mkPairState (S (paired_new st)) (paired_exists st) (unpaired st)
               ({[ (sid, n) ]} ∪ new_segments st) in
  segments (committed r.2) !! (sid, n) = Some (pair_record sid n down front)
  /\ (r.1 = Ok (Next st')
      \/ debug = true
         /\ r.1 = Ok (Return
                   (add_stat "未配对段数" (unpaired st')
                      (add_stat "已存在视频段数" (paired_exists st')
                         (add_stat "新增视频段数" (paired_new st') stats)),
                    new_segments st'))).
Proof.
  intros Hc Hnf Hnone. unfold clean in Hc. cbv zeta.
  unfold pair_segment, is_segment_exists, insert_segment, catch, bind,
    db_execute, db_commit, db_rollback, get_world, ret, log_at, modify.
  simpl. rewrite !Hnf. simpl. rewrite Hc, Hnone. simpl.
  rewrite !Hnf. simpl. rewrite Hnone. simpl. rewrite Hnf. simpl.
  match goal with
  | |- context [if ?b then _ else _] => destruct b eqn:Eb
  end; simpl; (split; [apply lookup_insert_eq|]).
  - right. apply andb_prop in Eb as [-> _]. now split.
  - now left.
Qed.

(** C10.  [get_object_size] makes exactly one [head_object] call and never
    raises; when the call raises it logs a warning and answers 0.  The
    grouping loop then files the object with size 0 (it is not counted as
    an invalid name), and the pairing loop inserts the pair with the sizes
    it was filed with, counting it as new. *)
Theorem size_lookup_never_fails :
  (forall key w,
     (exists z, (get_object_size key w).1 = Ok z)
     /\ oss_trace (get_object_size key w).2 = HeadObject key :: oss_trace w
     /\ slept (get_object_size key w).2 = slept w)
  /\ (forall key w,
        head_raises key w ->
        (get_object_size key w).1 = Ok 0
        /\ head (log (get_object_size key w).2)
           = Some (WARNING, MsgObjectSizeUnavailable key))
  /\ (forall key cam n d inv w,
        parse_mp4_filename (basename key) = (cam, n) ->
        Py.is_empty cam || Py.is_empty n = false ->
        head_raises key w ->
        let c := mkCameraFile (basename key)
                   ("oss://" ++ bucket_name (bucket w) ++ "/" ++ key) 0 in
        (Py.contains "down" (Py.lower cam) = true ->
         (group_object key (d, inv) w).1
         = Ok (dict_update n (set_down c) d, inv))
        /\ (Py.contains "down" (Py.lower cam) = false ->
            Py.contains "front" (Py.lower cam) = true ->
            (group_object key (d, inv) w).1
            = Ok (dict_update n (set_front c) d, inv)))
  /\ (forall sid debug stats n down front st w,
        clean w ->
        (forall t s, db_fault w t s = false) ->
        segments (committed w) !! (sid, n) = None ->
        let r := pair_segment sid debug stats
                   (n, mkSegmentFiles (Some down) (Some front)) st w in
        let st' := mkPairState (S (paired_new st)) (paired_exists st)
                     (unpaired st) ({[ (sid, n) ]} ∪ new_segments st) in
        segments (committed r.2) !! (sid, n)
        = Some (pair_record sid n down front)
        /\ (r.1 = Ok (Next st')
            \/ debug = true
               /\ r.1 = Ok (Return
                         (add_stat "未配对段数" (unpaired st')
                            (add_stat "已存在视频段数" (paired_exists st')
                               (add_stat "新增视频段数" (paired_new st') stats)),
                          new_segments st')))).
Proof.
  split; [|split; [|split]].
  - intros key w. rewrite get_object_size_eq. cbv zeta.
    destruct (oss_fault _ _ _); [|destruct (objects _ !! key)];
      simpl; eauto.
  - intros key w H. now rewrite get_object_size_raises.
  - exact group_object_unsized.
  - exact pair_segment_inserts.
Qed.

(** [size_lookup_never_fails] on the scanned deployment, whose bucket has
    no size for the segment files: the lookup answers 0, and the segment is
    inserted with both sizes 0. *)
Lemma size_lookup_never_fails_witness :
  head_raises (demo_session "0" ++ "segments/a-down_sbs_0001.mp4") demo_scanned
  /\ (get_object_size (demo_session "0" ++ "segments/a-down_sbs_0001.mp4")
        demo_scanned).1 = Ok 0
  /\ (g_down_file_size_bytes <$>
        segments (committed demo_segments_run.2) !! (demo_sid, "0001"))
     = Some 0
  /\ (g_front_file_size_bytes <$>
        segments (committed demo_segments_run.2) !! (demo_sid, "0001"))
     = Some 0.
Proof.
  assert (Hh : head_raises
                 (demo_session "0" ++ "segments/a-down_sbs_0001.mp4")
                 demo_scanned) by (right; vm_compute; reflexivity).
  destruct size_lookup_never_fails as (_ & Hzero & _).
  split; [exact Hh|]. split; [exact (proj1 (Hzero _ _ Hh))|].
  split; vm_compute; reflexivity.
Defined.

End FailingLookups.

(* ===================================================================== *)
(** * A lookup that raises, an insert that collides                       *)
(* ===================================================================== *)

(** What [scan_metadata_session] does once [insert_session] has answered. *)
Definition after_insert_session (debug_mode : bool) (stats : gmap string nat)
  (inserted : bool) : M (flow (gmap string nat) (gmap string nat)) :=
  stats' <- (if inserted then ret (incr "新增会话数" stats)
             else log_at WARNING MsgInsertFailed ;;
                  ret (incr "插入失败数" stats)) ;;
  if debug_mode && Nat.leb 5 (stat "新增会话数" stats')
  then log_at WARNING MsgDebugLimitMetadata ;; ret (Return stats')
  else ret (Next stats').

(** The metadata document of a session can be fetched and read in [w]:
    neither of the two calls raises, the object is there, it is a JSON
    document, and a record can be built from it. *)
Definition metadata_readable (device_id session_prefix : string) (w : World)
  (r : session_record) : Prop :=
  let key := session_prefix ++ METADATA_FILENAME in
  let t := List.length (oss_trace w) in
  oss_fault (bucket w) t (ObjectExists key) = false
  /\ oss_fault (bucket w) (S t) (GetObjectToFile key) = false
  /\ exists o j,
       objects (bucket w) !! key = Some o
       /\ body o = Some j
       /\ session_record_of device_id (session_id_of session_prefix) j = Ok r.

Section LookupFailures.

Lemma catch_bind_eq {A B : Type} (m : M A) (k : A -> M B) h w a w' :
  m w = (Ok a, w') -> catch (bind m k) h w = catch (k a) h w'.
Proof. intros H. unfold catch, bind. now rewrite H. Qed.

Lemma is_session_exists_fault sid w :
  db_fault w (List.length (db_trace w)) (SelectSession sid) = true ->
  is_session_exists sid w
  = (Ok false,
     with_log ((ERROR, MsgSessionCheckFailed) :: log w)
       (trace_db (DbStmt (SelectSession sid) (Some DbError)) w)).
Proof.
  intros H. unfold is_session_exists, catch, bind, db_execute.
  now rewrite H.
Qed.

Lemma is_segment_exists_fault sid n w :
  db_fault w (List.length (db_trace w)) (SelectSegment sid n) = true ->
  is_segment_exists sid n w
  = (Ok false,
     with_log ((ERROR, MsgSegmentCheckFailed) :: log w)
       (trace_db (DbStmt (SelectSegment sid n) (Some DbError)) w)).
Proof.
  intros H. unfold is_segment_exists, catch, bind, db_execute.
  now rewrite H.
Qed.

Lemma metadata_is_session_exists_fault sid w :
  db_fault w (List.length (db_trace w)) (SelectSessionMetadata sid) = true ->
  MetadataScan.is_session_exists sid w
  = (Ok false,
     with_log ((ERROR, MsgDbCheckFailed) :: log w)
       (trace_db (DbStmt (SelectSessionMetadata sid) (Some DbError)) w)).
Proof.
  intros H. unfold MetadataScan.is_session_exists, catch, bind, db_execute.
  now rewrite H.
Qed.

Lemma bucket_object_exists_eq key w :
  oss_fault (bucket w) (List.length (oss_trace w)) (ObjectExists key) = false ->
  bucket_object_exists key w
  = (Ok (match objects (bucket w) !! key with Some _ => true | None => false end),
     with_oss_trace (ObjectExists key :: oss_trace w) w).
Proof.
  intros H. unfold bucket_object_exists, bind, oss_request. now rewrite H.
Qed.

Lemma bucket_get_object_to_file_eq key w o :
  oss_fault (bucket w) (List.length (oss_trace w)) (GetObjectToFile key) = false ->
  objects (bucket w) !! key = Some o ->
  bucket_get_object_to_file key w
  = (Ok o, with_oss_trace (GetObjectToFile key :: oss_trace w) w).
Proof.
  intros H Ho. unfold bucket_get_object_to_file, bind, oss_request, get_world.
  rewrite H. simpl. now rewrite Ho.
Qed.

(** From a lookup that answered [False] to the insert: when the metadata
    document is readable the step goes on to [insert_session], in a world
    where only traces and the log have changed. *)
Lemma scan_metadata_session_to_insert d s e debug sp stats w w2 r :
  is_date_in_range (parse_session_id_value (session_id_of sp)).2 s e = true ->
  (forall w1, log_step w w1 ->
     exists wl, is_session_exists (session_id_of sp) w1 = (Ok false, wl)
                /\ log_step w2 wl) ->
  oss_trace w2 = oss_trace w -> bucket w2 = bucket w ->
  metadata_readable d sp w r ->
  exists w3,
    scan_metadata_session d s e debug sp stats w
    = catch (inserted <- insert_session r ;;
             after_insert_session debug (incr "扫描会话数" stats) inserted)
            (fun err =>
               match err with
               | JSONDecodeError =>
                   log_at ERROR MsgJsonDecodeFailed ;;
                   ret (Next (incr "解析失败数" (incr "扫描会话数" stats)))
               | _ =>
                   log_at ERROR MsgProcessingFailed ;;
                   ret (Next (incr "解析失败数" (incr "扫描会话数" stats)))
               end) w3
    /\ db_fault w3 = db_fault w2 /\ db_trace w3 = db_trace w2
    /\ committed w3 = committed w2 /\ working w3 = working w2
    /\ bucket w3 = bucket w
    /\ oss_trace w3
       = GetObjectToFile (sp ++ METADATA_FILENAME)
           :: ObjectExists (sp ++ METADATA_FILENAME) :: oss_trace w.
Proof.
  intros Hrange Hlookup Hot Hbk (Hf1 & Hf2 & o & j & Ho & Hj & Hr).
  unfold scan_metadata_session.
  destruct (parse_session_id_log (session_id_of sp) w) as (w1 & Hp & Hl1).
  rewrite (bind_eq _ _ _ _ _ Hp).
  destruct (parse_session_id_value (session_id_of sp)) as [[ds ts] sd].
  simpl in Hrange. rewrite Hrange. change (negb true) with false. cbv iota.
  destruct (Hlookup w1 Hl1) as (wl & He & Hl2).
  rewrite (bind_eq _ _ _ _ _ He). cbv iota.
  destruct Hl2 as (B1 & B2 & B3 & B4 & B5 & B6 & B7 & B8).
  assert (Hx : bucket_object_exists (sp ++ METADATA_FILENAME) wl
               = (Ok true, with_oss_trace
                             (ObjectExists (sp ++ METADATA_FILENAME)
                                :: oss_trace wl) wl)).
  { rewrite bucket_object_exists_eq by (rewrite B1, B2, Hbk, Hot; exact Hf1).
    now rewrite B1, Hbk, Ho. }
  rewrite (catch_bind_eq _ _ _ _ _ _ Hx). change (negb true) with false.
  cbv iota.
  set (wx := with_oss_trace _ wl).
  assert (Hg : bucket_get_object_to_file (sp ++ METADATA_FILENAME) wx
               = (Ok o, with_oss_trace
                          (GetObjectToFile (sp ++ METADATA_FILENAME)
                             :: oss_trace wx) wx)).
  { apply bucket_get_object_to_file_eq.
    - unfold wx. simpl. rewrite B1, B2, Hbk, Hot. exact Hf2.
    - unfold wx. simpl. now rewrite B1, Hbk. }
  rewrite (catch_bind_eq _ _ _ _ _ _ Hg).
  set (wg := with_oss_trace _ wx).
  assert (Hjl : json_load o wg = (Ok j, wg))
    by (unfold json_load; now rewrite Hj).
  rewrite (catch_bind_eq _ _ _ _ _ _ Hjl).
  destruct (prepare_session_record_eq d (session_id_of sp) j wg)
    as (w3 & Hprep & Hl3).
  rewrite Hr in Hprep. rewrite (catch_bind_eq _ _ _ _ _ _ Hprep).
  exists w3. split; [reflexivity|].
  destruct Hl3 as (C1 & C2 & C3 & C4 & C5 & C6 & C7 & C8).
  unfold wg, wx in *. simpl in *.
  repeat split; congruence.
Qed.

(** [insert_session] never raises, and its first act is the [INSERT]. *)
Lemma insert_session_run r w :
  exists b out rest,
    (insert_session r w).1 = Ok b
    /\ db_trace (insert_session r w).2
       = (rest ++ DbStmt (InsertSession r) out :: db_trace w)%list
    /\ oss_trace (insert_session r w).2 = oss_trace w.
Proof.
  unfold insert_session, catch, bind, db_execute, db_commit, db_rollback,
    get_world, ret, log_at, modify. simpl.
  destruct (db_fault w _ _); simpl.
  { exists false, (Some DbError), [DbRollback]. now repeat split. }
  destruct (sessions (working w) !! _); simpl.
  { exists false, (Some UniqueViolation), [DbRollback]. now repeat split. }
  destruct (db_fault w _ Commit); simpl.
  - exists false, None, [DbRollback; DbStmt Commit (Some DbError)].
    now repeat split.
  - exists true, None, [DbStmt Commit None]. now repeat split.
Qed.

Lemma insert_segment_run r w :
  exists b out rest,
    (insert_segment r w).1 = Ok b
    /\ db_trace (insert_segment r w).2
       = (rest ++ DbStmt (InsertSegment r) out :: db_trace w)%list
    /\ oss_trace (insert_segment r w).2 = oss_trace w.
Proof.
  unfold insert_segment, catch, bind, db_execute, db_commit, db_rollback,
    get_world, ret, log_at, modify. simpl.
  destruct (db_fault w _ _); simpl.
  { exists false, (Some DbError), [DbRollback]. now repeat split. }
  destruct (segments (working w) !! _); simpl.
  { exists false, (Some UniqueViolation), [DbRollback]. now repeat split. }
  destruct (db_fault w _ Commit); simpl.
  - exists false, None, [DbRollback; DbStmt Commit (Some DbError)].
    now repeat split.
  - exists true, None, [DbStmt Commit None]. now repeat split.
Qed.

(** An insert that collides with a row: the statement raises the unique
    violation, the transaction is rolled back, nothing is logged, and the
    answer is [False]. *)
Lemma insert_session_duplicate r w :
  db_fault w (List.length (db_trace w)) (InsertSession r) = false ->
  is_Some (sessions (working w) !! s_session_id r) ->
  insert_session r w
  = (Ok false,
     with_working (committed w)
       (trace_db DbRollback
          (trace_db (DbStmt (InsertSession r) (Some UniqueViolation)) w))).
Proof.
  intros Hf [x Hx].
  unfold insert_session, catch, bind, db_execute. rewrite Hf. simpl.
  now rewrite Hx.
Qed.

Lemma insert_segment_duplicate r w :
  db_fault w (List.length (db_trace w)) (InsertSegment r) = false ->
  is_Some (segments (working w) !! (g_session_id r, g_segment_number r)) ->
  insert_segment r w
  = (Ok false,
     with_working (committed w)
       (trace_db DbRollback
          (trace_db (DbStmt (InsertSegment r) (Some UniqueViolation)) w))).
Proof.
  intros Hf [x Hx].
  unfold insert_segment, catch, bind, db_execute. rewrite Hf. simpl.
  now rewrite Hx.
Qed.

(** The end of the step: it never raises; it leaves the loop only in debug
    mode, with five new sessions counted. *)
Lemma after_insert_session_run debug st (b : bool) w :
  let st' := if b then incr "新增会话数" st else incr "插入失败数" st in
  exists f w',
    after_insert_session debug st b w = (Ok f, w')
    /\ log_step w w'
    /\ (f = Next st'
        \/ f = Return st' /\ debug = true
           /\ (5 <= stat "新增会话数" st')%nat).
Proof.
  cbv zeta. unfold after_insert_session.
  destruct b.
  - unfold bind at 1, ret at 1. cbv iota beta.
    destruct (debug && Nat.leb 5 (stat "新增会话数" (incr "新增会话数" st)))
      eqn:E.
    + do 2 eexists. split; [reflexivity|]. split; [apply log_step_with_log|].
      right. apply andb_prop in E as [-> E]. apply Nat.leb_le in E.
      now repeat split.
    + do 2 eexists. split; [reflexivity|]. split; [apply log_step_refl|].
      now left.
  - unfold bind at 1 2, log_at at 1, modify at 1, ret at 1. cbv iota beta.
    destruct (debug && Nat.leb 5 (stat "新增会话数" (incr "插入失败数" st)))
      eqn:E.
    + do 2 eexists. split; [reflexivity|].
      split; [now repeat split|].
      right. apply andb_prop in E as [-> E]. apply Nat.leb_le in E.
      now repeat split.
    + do 2 eexists. split; [reflexivity|]. split; [apply log_step_with_log|].
      now left.
Qed.

(** The step through its insert, when the lookup has answered [False] and
    the metadata document is readable. *)
Lemma scan_metadata_session_inserting d s e debug sp stats w w2 r :
  is_date_in_range (parse_session_id_value (session_id_of sp)).2 s e = true ->
  (forall w1, log_step w w1 ->
     exists wl, is_session_exists (session_id_of sp) w1 = (Ok false, wl)
                /\ log_step w2 wl) ->
  oss_trace w2 = oss_trace w -> bucket w2 = bucket w ->
  metadata_readable d sp w r ->
  exists w3 b f,
    db_fault w3 = db_fault w2 /\ db_trace w3 = db_trace w2
    /\ committed w3 = committed w2 /\ working w3 = working w2
    /\ (insert_session r w3).1 = Ok b
    /\ (scan_metadata_session d s e debug sp stats w).1 = Ok f
    /\ log_step (insert_session r w3).2
                (scan_metadata_session d s e debug sp stats w).2
    /\ let st' := if b then incr "新增会话数" (incr "扫描会话数" stats)
                  else incr "插入失败数" (incr "扫描会话数" stats) in
       f = Next st'
       \/ f = Return st' /\ debug = true
          /\ (5 <= stat "新增会话数" st')%nat.
Proof.
  intros Hrange Hlookup Hot Hbk Hread.
  destruct (scan_metadata_session_to_insert d s e debug sp stats w w2 r
              Hrange Hlookup Hot Hbk Hread)
    as (w3 & Heq & D1 & D2 & D3 & D4 & _).
  destruct (insert_session_run r w3) as (b & out & rest & Hb & _).
  exists w3, b.
  destruct (insert_session r w3) as [res w4] eqn:Ei. simpl in Hb. subst res.
  destruct (after_insert_session_run debug (incr "扫描会话数" stats) b w4)
    as (f & w5 & Ha & Hl & Hf).
  exists f. rewrite Heq.
  erewrite catch_ok_eq; [|rewrite (bind_eq _ _ _ _ _ Ei); exact Ha].
  simpl. do 4 (split; [assumption|]).
  split; [reflexivity|]. split; [reflexivity|]. split; assumption.
Qed.

End LookupFailures.

Section OracleAndCollisions.

Lemma session_record_of_id d sid j r :
  session_record_of d sid j = Ok r -> s_session_id r = sid.
Proof.
  unfold session_record_of, rbind.
  destruct (parse_session_id_value sid) as [[ds ts] sd].
  repeat match goal with
         | |- context [py_get ?a ?b ?c] =>
             destruct (py_get a b c); try discriminate
         | |- context [py_len ?a] => destruct (py_len a); try discriminate
         end.
  now intros [= <-].
Qed.

(** The lookup of a session raises in [w], seen from any world that
    differs from [w] in its log. *)
Lemma lookup_fault_from_log sid w :
  db_fault w (List.length (db_trace w)) (SelectSession sid) = true ->
  forall w1, log_step w w1 ->
    exists wl, is_session_exists sid w1 = (Ok false, wl)
      /\ log_step (trace_db (DbStmt (SelectSession sid) (Some DbError)) w) wl.
Proof.
  intros Hf w1 (B1 & B2 & B3 & B4 & B5 & B6 & B7 & B8).
  eexists. split.
  - apply is_session_exists_fault. now rewrite B4, B7.
  - simpl. repeat split; simpl; congruence.
Qed.

(** C9.  The three existence oracles answer [False] when their query
    raises.  In the metadata phase the session is then not counted as
    existing: with its metadata document readable, the step goes on to the
    [INSERT] of the session's record and ends normally.  In the segment
    phase a complete pair whose lookup raised is not counted as existing
    either: the step goes on to the [INSERT] of the pair's record. *)
Theorem existence_oracle_fails_open :
  (forall sid w,
     db_fault w (List.length (db_trace w)) (SelectSession sid) = true ->
     (is_session_exists sid w).1 = Ok false)
  /\ (forall sid n w,
        db_fault w (List.length (db_trace w)) (SelectSegment sid n) = true ->
        (is_segment_exists sid n w).1 = Ok false)
  /\ (forall sid w,
        db_fault w (List.length (db_trace w)) (SelectSessionMetadata sid) = true ->
        (MetadataScan.is_session_exists sid w).1 = Ok false)
  /\ (forall d s e debug sp stats w r,
        is_date_in_range (parse_session_id_value (session_id_of sp)).2 s e
        = true ->
        db_fault w (List.length (db_trace w)) (SelectSession (session_id_of sp))
        = true ->
        metadata_readable d sp w r ->
        let step := scan_metadata_session d s e debug sp stats w in
        (exists f, step.1 = Ok f
                   /\ stat "已存在会话数" (flow_value f)
                      = stat "已存在会话数" stats)
        /\ exists out, In (DbStmt (InsertSession r) out) (db_trace step.2))
  /\ (forall sid debug stats n down front st w,
        db_fault w (List.length (db_trace w)) (SelectSegment sid n) = true ->
        let step := pair_segment sid debug stats
                      (n, mkSegmentFiles (Some down) (Some front)) st w in
        (exists f, step.1 = Ok f
                   /\ forall st', f = Next st' ->
                        paired_exists st' = paired_exists st)
        /\ exists out,
             In (DbStmt (InsertSegment (pair_record sid n down front)) out)
                (db_trace step.2)).
Proof.
  split; [intros sid w H; now rewrite is_session_exists_fault|].
  split; [intros sid n w H; now rewrite is_segment_exists_fault|].
  split; [intros sid w H; now rewrite metadata_is_session_exists_fault|].
  split.
  - intros d s e debug sp stats w r Hrange Hfault Hread. cbv zeta.
    destruct (scan_metadata_session_inserting d s e debug sp stats w _ r
                Hrange (lookup_fault_from_log _ w Hfault) eq_refl eq_refl
                Hread)
      as (w3 & b & f & _ & _ & _ & _ & Hb & Hstep & Hl & Hf).
    split.
    + exists f. split; [exact Hstep|].
      assert (Hv : flow_value f
                   = if b then incr "新增会话数" (incr "扫描会话数" stats)
                     else incr "插入失败数" (incr "扫描会话数" stats))
        by (destruct Hf as [->|(-> & _)]; reflexivity).
      rewrite Hv. unfold incr.
      destruct b; now rewrite !stat_add_stat_ne by discriminate.
    + destruct (insert_session_run r w3) as (b' & out & rest & _ & Htr & _).
      exists out. destruct Hl as (_ & _ & _ & _ & _ & _ & -> & _).
      rewrite Htr. apply in_or_app. right. now left.
  - intros sid debug stats n down front st w Hfault. cbv zeta.
    unfold pair_segment. cbn [down_file front_file].
    rewrite (bind_eq _ _ _ _ _ (is_segment_exists_fault sid n w Hfault)).
    cbv iota.
    set (w1 := with_log _ _).
    destruct (insert_segment_run (pair_record sid n down front) w1)
      as (b & out & rest & Hb & Htr & _).
    unfold pair_record in *.
    destruct (insert_segment _ w1) as [res w2] eqn:Ei.
    simpl in Hb, Htr. subst res.
    rewrite (bind_eq _ _ _ _ _ Ei).
    match goal with
    | |- context [if ?c then _ else _] => destruct c
    end; simpl.
    + split.
      * eexists. split; [reflexivity|]. intros st' [=].
      * exists out. rewrite Htr. apply in_or_app. right. now left.
    + split.
      * eexists. split; [reflexivity|]. intros st' [= <-]. now destruct b.
      * exists out. rewrite Htr. apply in_or_app. right. now left.
Qed.

End OracleAndCollisions.

Section Collisions.

Lemma foreach_next_eq {X S R : Type} (body : X -> S -> M (flow S R))
  x l s w s' :
  (body x s w).1 = Ok (Next s') ->
  foreach (x :: l) body s w = foreach l body s' (body x s w).2.
Proof.
  intros H. simpl. unfold bind.
  destruct (body x s w) as [r w']. simpl in H. now subst r.
Qed.

(** C6.  An [INSERT] of a session or of a segment that collides with a row
    raises the unique violation; the transaction is rolled back, the tables
    are as before, nothing is logged by the insert, and it answers [False]
    instead of raising.  The metadata step in which this happens (its
    lookup raised, so it did not see the row) ends with [continue], counting
    an insert failure, and the loop goes on with the remaining sessions; the
    pairing step in which this happens ends with [continue] with its
    counters unchanged, and the loop goes on with the remaining pairs.  (In
    debug mode, below the limit of five new rows.) *)
Theorem unique_violation_is_benign :
  (forall r w,
     clean w ->
     db_fault w (List.length (db_trace w)) (InsertSession r) = false ->
     is_Some (sessions (working w) !! s_session_id r) ->
     (insert_session r w).1 = Ok false
     /\ committed (insert_session r w).2 = committed w
     /\ working (insert_session r w).2 = working w
     /\ log (insert_session r w).2 = log w
     /\ db_trace (insert_session r w).2
        = DbRollback :: DbStmt (InsertSession r) (Some UniqueViolation)
            :: db_trace w)
  /\ (forall r w,
        clean w ->
        db_fault w (List.length (db_trace w)) (InsertSegment r) = false ->
        is_Some (segments (working w) !! (g_session_id r, g_segment_number r)) ->
        (insert_segment r w).1 = Ok false
        /\ committed (insert_segment r w).2 = committed w
        /\ working (insert_segment r w).2 = working w
        /\ log (insert_segment r w).2 = log w
        /\ db_trace (insert_segment r w).2
           = DbRollback :: DbStmt (InsertSegment r) (Some UniqueViolation)
               :: db_trace w)
  /\ (forall d s e debug sp stats w r rest,
        clean w ->
        is_date_in_range (parse_session_id_value (session_id_of sp)).2 s e
        = true ->
        db_fault w (List.length (db_trace w)) (SelectSession (session_id_of sp))
        = true ->
        db_fault w (S (List.length (db_trace w))) (InsertSession r) = false ->
        metadata_readable d sp w r ->
        is_Some (sessions (working w) !! session_id_of sp) ->
        debug = false \/ (stat "新增会话数" stats < 5)%nat ->
        let step := scan_metadata_session d s e debug sp stats w in
        let stats' := incr "插入失败数" (incr "扫描会话数" stats) in
        step.1 = Ok (Next stats')
        /\ committed step.2 = committed w
        /\ working step.2 = working w
        /\ In (DbStmt (InsertSession r) (Some UniqueViolation))
              (db_trace step.2)
        /\ foreach (sp :: rest) (scan_metadata_session d s e debug) stats w
           = foreach rest (scan_metadata_session d s e debug) stats' step.2)
  /\ (forall sid debug stats n down front st w rest,
        clean w ->
        db_fault w (List.length (db_trace w)) (SelectSegment sid n) = true ->
        db_fault w (S (List.length (db_trace w)))
                 (InsertSegment (pair_record sid n down front)) = false ->
        is_Some (segments (working w) !! (sid, n)) ->
        debug = false
        \/ (stat "新增视频段数" stats + paired_new st < 5)%nat ->
        let item := (n, mkSegmentFiles (Some down) (Some front)) in
        let step := pair_segment sid debug stats item st w in
        step.1 = Ok (Next st)
        /\ committed step.2 = committed w
        /\ working step.2 = working w
        /\ In (DbStmt (InsertSegment (pair_record sid n down front))
                      (Some UniqueViolation)) (db_trace step.2)
        /\ foreach (item :: rest) (pair_segment sid debug stats) st w
           = foreach rest (pair_segment sid debug stats) st step.2).
Proof.
  split; [|split; [|split]].
  - intros r w Hc Hf Hs. rewrite (insert_session_duplicate r w Hf Hs).
    simpl. unfold clean in Hc. now repeat split.
  - intros r w Hc Hf Hs. rewrite (insert_segment_duplicate r w Hf Hs).
    simpl. unfold clean in Hc. now repeat split.
  - intros d s e debug sp stats w r rest Hc Hrange Hfault Hins Hread Hsome
      Hdebug. cbv zeta.
    assert (Hid : s_session_id r = session_id_of sp).
    { destruct Hread as (_ & _ & o & j & _ & _ & Hr).
      now apply session_record_of_id in Hr. }
    destruct (scan_metadata_session_inserting d s e debug sp stats w _ r
                Hrange (lookup_fault_from_log _ w Hfault) eq_refl eq_refl
                Hread)
      as (w3 & b & f & D1 & D2 & D3 & D4 & Hb & Hstep & Hl & Hf).
    simpl in D1, D2, D3, D4.
    assert (Hdup : insert_session r w3
                   = (Ok false,
                      with_working (committed w3)
                        (trace_db DbRollback
                           (trace_db (DbStmt (InsertSession r)
                                        (Some UniqueViolation)) w3)))).
    { apply insert_session_duplicate.
      - rewrite D1, D2. simpl. exact Hins.
      - now rewrite D4, Hid. }
    rewrite Hdup in Hb, Hl. simpl in Hb, Hl. injection Hb as <-.
    assert (Hnext : f = Next (incr "插入失败数" (incr "扫描会话数" stats))).
    { destruct Hf as [Hf|(_ & Hd & Hn)]; [exact Hf|exfalso].
      unfold incr in Hn. rewrite !stat_add_stat_ne in Hn by discriminate.
      destruct Hdebug as [Hd'|Hlt]; [congruence|lia]. }
    subst f.
    destruct Hl as (L1 & L2 & L3 & L4 & L5 & L6 & L7 & L8). simpl in *.
    unfold clean in Hc.
    split; [exact Hstep|]. split; [congruence|]. split; [congruence|].
    split; [rewrite L7; right; now left|].
    now apply foreach_next_eq.
  - intros sid debug stats n down front st w rest Hc Hfault Hins Hsome
      Hdebug. cbv zeta.
    assert (Hstep :
      pair_segment sid debug stats
        (n, mkSegmentFiles (Some down) (Some front)) st w
      = (Ok (Next st),
         with_working (committed w)
           (trace_db DbRollback
              (trace_db (DbStmt (InsertSegment (pair_record sid n down front))
                           (Some UniqueViolation))
                 (with_log ((ERROR, MsgSegmentCheckFailed) :: log w)
                    (trace_db (DbStmt (SelectSegment sid n) (Some DbError))
                       w)))))).
    { unfold pair_segment. cbn [down_file front_file].
      rewrite (bind_eq _ _ _ _ _ (is_segment_exists_fault sid n w Hfault)).
      cbv iota.
      erewrite bind_eq;
        [|apply (insert_segment_duplicate (pair_record sid n down front));
          [exact Hins|exact Hsome]].
      cbv iota.
      destruct (debug && Nat.leb 5 (stat "新增视频段数" stats + paired_new st))
        eqn:E; [exfalso|reflexivity].
      apply andb_prop in E as [Hd Hn]. apply Nat.leb_le in Hn.
      destruct Hdebug as [Hd'|Hlt]; [congruence|lia]. }
    unfold clean in Hc.
    split; [now rewrite Hstep|]. split; [now rewrite Hstep|].
    split; [rewrite Hstep; simpl; congruence|].
    split; [rewrite Hstep; simpl; right; now left|].
    apply foreach_next_eq. now rewrite Hstep.
Qed.

End Collisions.

(** The scanned deployment on a connection whose next statement raises. *)
Definition demo_lookup_fails : World :=
  mkWorld (bucket demo_scanned) (oss_trace demo_scanned) (slept demo_scanned)
    (fun n _ => Nat.eqb n (List.length (db_trace demo_scanned)))
    (committed demo_scanned) (working demo_scanned) (db_trace demo_scanned)
    (device_config demo_scanned) (log demo_scanned).

Lemma demo_metadata_readable :
  exists r, metadata_readable "7393" (demo_session "0") demo_lookup_fails r.
Proof.
  destruct (session_record_of "7393" (session_id_of (demo_session "0"))
              demo_metadata) as [r|err] eqn:Er;
    [|vm_compute in Er; discriminate].
  exists r. split; [reflexivity|]. split; [reflexivity|].
  exists (mkObject 10 (Some demo_metadata)), demo_metadata.
  split; [vm_compute; reflexivity|]. split; [reflexivity|exact Er].
Defined.

(** [existence_oracle_fails_open] on that deployment: the lookup of the
    first session raises, and the step goes on to insert it. *)
Lemma existence_oracle_fails_open_witness :
  (is_session_exists demo_sid demo_lookup_fails).1 = Ok false
  /\ exists r out,
       In (DbStmt (InsertSession r) out)
          (db_trace (scan_metadata_session "7393" demo_day demo_day false
                       (demo_session "0") metadata_stats_init
                       demo_lookup_fails).2).
Proof.
  destruct existence_oracle_fails_open as (Hs & _ & _ & Hstep & _).
  split; [apply Hs; vm_compute; reflexivity|].
  destruct demo_metadata_readable as [r Hr]. exists r.
  refine (proj2 (Hstep "7393" demo_day demo_day false (demo_session "0")
                   metadata_stats_init demo_lookup_fails r _ _ Hr));
    vm_compute; reflexivity.
Defined.

(** [unique_violation_is_benign] on that deployment: the insert collides
    with the row of the first scan, the tables stay as they are, and the
    step ends with [continue]. *)
Lemma unique_violation_is_benign_witness :
  clean demo_lookup_fails
  /\ exists stats',
       (scan_metadata_session "7393" demo_day demo_day false
          (demo_session "0") metadata_stats_init demo_lookup_fails).1
       = Ok (Next stats')
       /\ stat "插入失败数" stats' = 1%nat
       /\ committed (scan_metadata_session "7393" demo_day demo_day false
                       (demo_session "0") metadata_stats_init
                       demo_lookup_fails).2
          = committed demo_lookup_fails.
Proof.
  assert (Hc : clean demo_lookup_fails) by (vm_compute; reflexivity).
  destruct unique_violation_is_benign as (_ & _ & Hstep & _).
  destruct demo_metadata_readable as [r Hr].
  split; [exact Hc|].
  assert (Hsome : is_Some (sessions (working demo_lookup_fails)
                           !! session_id_of (demo_session "0"))).
  { destruct (sessions (working demo_lookup_fails)
              !! session_id_of (demo_session "0")) eqn:E; [eauto|].
    vm_compute in E. discriminate. }
  destruct (Hstep "7393" demo_day demo_day false (demo_session "0")
              metadata_stats_init demo_lookup_fails r [] Hc
              ltac:(vm_compute; reflexivity) ltac:(vm_compute; reflexivity)
              ltac:(vm_compute; reflexivity) Hr Hsome (or_introl eq_refl))
    as (H1 & H2 & _).
  eexists. split; [exact H1|]. split; [vm_compute; reflexivity|exact H2].
Defined.

(* ===================================================================== *)
(** * The retry wrapper                                                   *)
(* ===================================================================== *)

(** Call [c] raises at each of the next [k] calls on the bucket of [w]. *)
Definition first_faults (w : World) (c : oss_call) (k : nat) : Prop :=
  forall i, (i < k)%nat ->
    oss_fault (bucket w) (List.length (oss_trace w) + i) c = true.

(** The waits after attempts [a], [a+1], ..., [a+k-1], most recent first. *)
Definition waits_from (a k : nat) : list Z :=
  List.rev (List.map wait_exponential_ms (List.seq a k)).

(** [attempts_fail f k a w w']: [k] attempts of [f] in a row raise, starting
    in [w] with attempt number [a]; [w'] is the world after the wait that
    follows the last of them. *)
Inductive attempts_fail {A : Type} (f : M A)
  : nat -> nat -> World -> World -> Prop :=
| attempts_fail_O a w : attempts_fail f O a w w
| attempts_fail_S k a w e w1 w' :
    f w = (Raise e, w1) ->
    attempts_fail f k (S a)
      (with_slept (wait_exponential_ms a :: slept w1) w1) w' ->
    attempts_fail f (S k) a w w'.

Section Retry.

Context {A : Type} (f : M A).

(** After [k] failed attempts, with attempts left, the wrapper returns what
    the next attempt returns. *)
Lemma retry_loop_then_ok k :
  forall a r w w' v w'',
    attempts_fail f k a w w' -> (k < r)%nat ->
    f w' = (Ok v, w'') ->
    retry_loop a r f w = (Ok v, w'').
Proof.
  induction k as [|k IH]; intros a r w w' v w'' Hfail Hlt Hok.
  - inversion Hfail; subst. destruct r; [lia|].
    now apply retry_first_ok.
  - inversion Hfail as [|k0 a0 w0 e w1 w2 Hf Hrest]; subst.
    destruct r as [|[|r]]; [lia|lia|].
    simpl. rewrite (catch_raise_eq _ _ _ _ _ Hf).
    unfold bind at 1, sleep_ms at 1, modify at 1. cbv iota beta.
    apply (IH (S a) (S r) _ w'); [exact Hrest|lia|exact Hok].
Qed.

(** When the attempt that follows [k] failed attempts is the last one and
    fails too, the wrapper raises [RetryError] without another wait. *)
Lemma retry_loop_exhausted k :
  forall a w w' e w'',
    attempts_fail f k a w w' ->
    f w' = (Raise e, w'') ->
    retry_loop a (S k) f w = (Raise RetryError, w'').
Proof.
  induction k as [|k IH]; intros a w w' e w'' Hfail Hlast.
  - inversion Hfail; subst. simpl.
    now rewrite (catch_raise_eq _ _ _ _ _ Hlast).
  - inversion Hfail as [|k0 a0 w0 e0 w1 w2 Hf Hrest]; subst.
    change (retry_loop a (S (S k)) f w)
      with (catch f (fun _ => sleep_ms (wait_exponential_ms a) ;;
                              retry_loop (S a) (S k) f) w).
    rewrite (catch_raise_eq _ _ _ _ _ Hf).
    unfold bind at 1, sleep_ms at 1, modify at 1. cbv iota beta.
    now apply (IH (S a) _ w' e).
Qed.

End Retry.

Section FailingAttempts.

(** An attempt whose first act is the call [c], which raises. *)
Context {A : Type} (f : M A) (c : oss_call).
Hypothesis f_raises :
  forall w,
    oss_fault (bucket w) (List.length (oss_trace w)) c = true ->
    f w = (Raise OssError, with_oss_trace (c :: oss_trace w) w).

Lemma repeat_snoc {X : Type} (x : X) k :
  (List.repeat x k ++ [x])%list = x :: List.repeat x k.
Proof. induction k as [|k IH]; simpl; [reflexivity|now rewrite IH]. Qed.

Lemma attempts_fail_while_faults k :
  forall a w,
    first_faults w c k ->
    exists w',
      attempts_fail f k a w w'
      /\ bucket w' = bucket w
      /\ oss_trace w' = (List.repeat c k ++ oss_trace w)%list
      /\ slept w' = (waits_from a k ++ slept w)%list
      /\ log w' = log w /\ db_trace w' = db_trace w
      /\ committed w' = committed w /\ working w' = working w
      /\ db_fault w' = db_fault w /\ device_config w' = device_config w.
Proof.
  induction k as [|k IH]; intros a w Hf.
  - exists w. split; [constructor|]. now repeat split.
  - assert (H0 : oss_fault (bucket w) (List.length (oss_trace w)) c = true)
      by (rewrite <- (Nat.add_0_r (List.length _)); apply Hf; lia).
    set (w1 := with_oss_trace (c :: oss_trace w) w).
    set (w2 := with_slept (wait_exponential_ms a :: slept w1) w1).
    destruct (IH (S a) w2) as (w' & Hfail & B & T & Sl & L & D & Cm & Wk & Df & Dc).
    { intros i Hi. simpl. rewrite <- Nat.add_succ_r. apply Hf. lia. }
    exists w'. split; [econstructor; [apply f_raises, H0|exact Hfail]|].
    simpl in *. repeat split; try assumption.
    + rewrite T. change (c :: oss_trace w) with ([c] ++ oss_trace w)%list.
      now rewrite app_assoc, repeat_snoc.
    + rewrite Sl. unfold waits_from. simpl.
      now rewrite <- app_assoc.
Qed.

End FailingAttempts.

(** The calls of one complete pass over the pages of a listing, most
    recent first. *)
Definition page_calls (prefix : string) (first pages : nat) : list oss_call :=
  List.rev (List.map (fun i => ListObjectsV2 prefix "" i) (List.seq first pages)).

Section RetriedCalls.

Lemma wait_exponential_bounds n :
  1000 <= wait_exponential_ms n <= 10000.
Proof. unfold wait_exponential_ms. lia. Qed.

Lemma waits_from_bounds a k :
  Forall (fun t => 1000 <= t <= 10000) (waits_from a k).
Proof.
  unfold waits_from. apply List.Forall_forall. intros t Ht.
  apply List.in_rev in Ht. apply List.in_map_iff in Ht as (n & <- & _).
  apply wait_exponential_bounds.
Qed.

Lemma waits_from_length a k : List.length (waits_from a k) = k.
Proof. unfold waits_from. now rewrite length_rev, length_map, length_seq. Qed.

(** One attempt of [list_prefixes]. *)
Lemma prefix_attempt_raises prefix w :
  oss_fault (bucket w) (List.length (oss_trace w)) (ListObjectsV2 prefix "/" 0)
  = true ->
  (oss_request (ListObjectsV2 prefix "/" 0) ;;
   w <- get_world ;; ret (prefix_list (bucket w) prefix)) w
  = (Raise OssError,
     with_oss_trace (ListObjectsV2 prefix "/" 0 :: oss_trace w) w).
Proof. intros H. unfold bind, oss_request. now rewrite H. Qed.

Lemma prefix_attempt_ok prefix w :
  oss_fault (bucket w) (List.length (oss_trace w)) (ListObjectsV2 prefix "/" 0)
  = false ->
  (oss_request (ListObjectsV2 prefix "/" 0) ;;
   w <- get_world ;; ret (prefix_list (bucket w) prefix)) w
  = (Ok (prefix_list (bucket w) prefix),
     with_oss_trace (ListObjectsV2 prefix "/" 0 :: oss_trace w) w).
Proof. intros H. unfold bind, oss_request. now rewrite H. Qed.

Lemma list_prefixes_retried prefix w k :
  let c := ListObjectsV2 prefix "/" 0 in
  (k < 5)%nat ->
  first_faults w c k ->
  oss_fault (bucket w) (List.length (oss_trace w) + k) c = false ->
  (list_prefixes prefix w).1 = Ok (prefix_list (bucket w) prefix)
  /\ oss_trace (list_prefixes prefix w).2
     = (List.repeat c (S k) ++ oss_trace w)%list
  /\ slept (list_prefixes prefix w).2 = (waits_from 1 k ++ slept w)%list.
Proof.
  intros c Hk Hf Hok.
  destruct (attempts_fail_while_faults _ c (prefix_attempt_raises prefix) k 1 w Hf)
    as (w' & Hfail & B & T & Sl & _).
  unfold list_prefixes, retry.
  erewrite retry_loop_then_ok; [|exact Hfail|exact Hk|].
  2:{ apply prefix_attempt_ok. rewrite B, T, length_app, repeat_length.
      now rewrite Nat.add_comm. }
  simpl. rewrite B, T, Sl. now repeat split.
Qed.

Lemma list_prefixes_exhausted prefix w :
  let c := ListObjectsV2 prefix "/" 0 in
  first_faults w c 5 ->
  (list_prefixes prefix w).1 = Raise RetryError
  /\ oss_trace (list_prefixes prefix w).2 = (List.repeat c 5 ++ oss_trace w)%list
  /\ slept (list_prefixes prefix w).2 = (waits_from 1 4 ++ slept w)%list.
Proof.
  intros c Hf.
  destruct (attempts_fail_while_faults _ c (prefix_attempt_raises prefix) 4 1 w)
    as (w' & Hfail & B & T & Sl & _).
  { intros i Hi. apply Hf. lia. }
  unfold list_prefixes, retry.
  erewrite retry_loop_exhausted; [|exact Hfail|].
  2:{ apply prefix_attempt_raises. rewrite B, T, length_app, repeat_length.
      rewrite Nat.add_comm. apply Hf. lia. }
  simpl. rewrite T, Sl. now repeat split.
Qed.

(** One attempt of [list_objects]. *)
Lemma objects_attempt_raises prefix w :
  oss_fault (bucket w) (List.length (oss_trace w)) (ListObjectsV2 prefix "" 0)
  = true ->
  (w <- get_world ;;
   list_objects_loop prefix 0 (pages_of (bucket w) prefix) []) w
  = (Raise OssError,
     with_oss_trace (ListObjectsV2 prefix "" 0 :: oss_trace w) w).
Proof.
  intros H. unfold bind at 1, get_world. cbv iota beta.
  unfold pages_of.
  destruct (object_pages (bucket w) prefix); simpl;
    unfold bind, oss_request; now rewrite H.
Qed.

Lemma list_objects_loop_ok prefix pages :
  forall page objs w,
    (forall i, (i < List.length pages)%nat ->
       oss_fault (bucket w) (List.length (oss_trace w) + i)
                 (ListObjectsV2 prefix "" (page + i)) = false) ->
    list_objects_loop prefix page pages objs w
    = (Ok (objs ++ concat pages)%list,
       with_oss_trace
         (page_calls prefix page (List.length pages) ++ oss_trace w)%list w).
Proof.
  induction pages as [|p pages IH]; intros page objs w Hok.
  - simpl. unfold ret. rewrite app_nil_r. now destruct w.
  - assert (H0 : oss_fault (bucket w) (List.length (oss_trace w))
                   (ListObjectsV2 prefix "" page) = false).
    { specialize (Hok O ltac:(simpl; lia)). now rewrite !Nat.add_0_r in Hok. }
    simpl list_objects_loop. unfold bind at 1, oss_request at 1. rewrite H0.
    cbv iota beta. rewrite IH.
    + f_equal; [now rewrite <- app_assoc|].
      unfold with_oss_trace, page_calls. simpl. f_equal.
      now rewrite <- app_assoc.
    + intros i Hi. simpl. rewrite <- !Nat.add_succ_r. apply Hok. simpl. lia.
Qed.

Lemma list_objects_retried prefix w k :
  let c := ListObjectsV2 prefix "" 0 in
  let p := List.length (pages_of (bucket w) prefix) in
  (k < 5)%nat ->
  first_faults w c k ->
  (forall i, (i < p)%nat ->
     oss_fault (bucket w) (List.length (oss_trace w) + k + i)
               (ListObjectsV2 prefix "" i) = false) ->
  (list_objects prefix w).1 = Ok (concat (pages_of (bucket w) prefix))
  /\ oss_trace (list_objects prefix w).2
     = (page_calls prefix 0 p ++ List.repeat c k ++ oss_trace w)%list
  /\ slept (list_objects prefix w).2 = (waits_from 1 k ++ slept w)%list.
Proof.
  intros c p Hk Hf Hok.
  destruct (attempts_fail_while_faults _ c (objects_attempt_raises prefix) k 1 w Hf)
    as (w' & Hfail & B & T & Sl & _).
  unfold list_objects, retry.
  erewrite retry_loop_then_ok; [|exact Hfail|exact Hk|].
  2:{ unfold bind at 1, get_world. cbv iota beta.
      apply list_objects_loop_ok. intros i Hi.
      rewrite B, T, length_app, repeat_length. simpl.
      rewrite (Nat.add_comm k). apply Hok. now rewrite B in Hi. }
  simpl. rewrite B, T, Sl. now repeat split.
Qed.

Lemma list_objects_exhausted prefix w :
  let c := ListObjectsV2 prefix "" 0 in
  first_faults w c 5 ->
  (list_objects prefix w).1 = Raise RetryError
  /\ oss_trace (list_objects prefix w).2 = (List.repeat c 5 ++ oss_trace w)%list
  /\ slept (list_objects prefix w).2 = (waits_from 1 4 ++ slept w)%list.
Proof.
  intros c Hf.
  destruct (attempts_fail_while_faults _ c (objects_attempt_raises prefix) 4 1 w)
    as (w' & Hfail & B & T & Sl & _).
  { intros i Hi. apply Hf. lia. }
  unfold list_objects, retry.
  erewrite retry_loop_exhausted; [|exact Hfail|].
  2:{ apply objects_attempt_raises. rewrite B, T, length_app, repeat_length.
      rewrite Nat.add_comm. apply Hf. lia. }
  simpl. rewrite T, Sl. now repeat split.
Qed.

End RetriedCalls.

Section UnretriedCalls.

Lemma bucket_object_exists_fault key w :
  oss_fault (bucket w) (List.length (oss_trace w)) (ObjectExists key) = true ->
  bucket_object_exists key w
  = (Raise OssError, with_oss_trace (ObjectExists key :: oss_trace w) w).
Proof.
  intros H. unfold bucket_object_exists, bind, oss_request. now rewrite H.
Qed.

Lemma bucket_get_object_to_file_fault key w :
  oss_fault (bucket w) (List.length (oss_trace w)) (GetObjectToFile key) = true ->
  bucket_get_object_to_file key w
  = (Raise OssError, with_oss_trace (GetObjectToFile key :: oss_trace w) w).
Proof.
  intros H. unfold bucket_get_object_to_file, bind, oss_request.
  now rewrite H.
Qed.

(** The session oracle on an id without a row, with all it leaves alone. *)
Lemma is_session_exists_absent_frame sid w :
  sessions (working w) !! sid = None ->
  exists w', is_session_exists sid w = (Ok false, w')
    /\ bucket w' = bucket w /\ oss_trace w' = oss_trace w
    /\ slept w' = slept w /\ committed w' = committed w
    /\ working w' = working w.
Proof.
  intros Hnone.
  unfold is_session_exists, catch, bind, db_execute, get_world, ret, log_at,
    modify. simpl.
  destruct (db_fault w _ _); simpl; rewrite ?Hnone; eexists;
    (split; [reflexivity|now repeat split]).
Qed.

(** The session oracle on an id with a row, when the query does not
    raise. *)
Lemma is_session_exists_present sid w :
  db_fault w (List.length (db_trace w)) (SelectSession sid) = false ->
  is_Some (sessions (working w) !! sid) ->
  is_session_exists sid w
  = (Ok true,
     with_working (working w)
       (trace_db (DbStmt (SelectSession sid) None) w)).
Proof.
  intros Hf [x Hx].
  unfold is_session_exists, catch, bind, db_execute. rewrite Hf. simpl.
  unfold get_world, ret. simpl. now rewrite Hx.
Qed.

(** A failing existence check or download: one call, no wait, the session
    is counted as failed and the loop goes on. *)
Lemma scan_metadata_session_unretried d s e debug sp stats w :
  let sid := session_id_of sp in
  let key := sp ++ METADATA_FILENAME in
  let t := List.length (oss_trace w) in
  let step := scan_metadata_session d s e debug sp stats w in
  is_date_in_range (parse_session_id_value sid).2 s e = true ->
  sessions (working w) !! sid = None ->
  (oss_fault (bucket w) t (ObjectExists key) = true ->
   step.1 = Ok (Next (incr "解析失败数" (incr "扫描会话数" stats)))
   /\ oss_trace step.2 = ObjectExists key :: oss_trace w
   /\ slept step.2 = slept w
   /\ committed step.2 = committed w)
  /\ (oss_fault (bucket w) t (ObjectExists key) = false ->
      is_Some (objects (bucket w) !! key) ->
      oss_fault (bucket w) (S t) (GetObjectToFile key) = true ->
      step.1 = Ok (Next (incr "解析失败数" (incr "扫描会话数" stats)))
      /\ oss_trace step.2
         = GetObjectToFile key :: ObjectExists key :: oss_trace w
      /\ slept step.2 = slept w
      /\ committed step.2 = committed w).
Proof.
  cbv zeta. intros Hrange Hnone.
  unfold scan_metadata_session.
  destruct (parse_session_id_log (session_id_of sp) w)
    as (w1 & Hp & L1 & L2 & L3 & L4 & L5 & L6 & L7 & L8).
  rewrite (bind_eq _ _ _ _ _ Hp).
  destruct (parse_session_id_value (session_id_of sp)) as [[ds ts] sd].
  simpl in Hrange. rewrite Hrange. change (negb true) with false. cbv iota.
  rewrite <- L6 in Hnone.
  destruct (is_session_exists_absent_frame _ _ Hnone)
    as (w2 & He & B & T & Sl & Cm & Wk).
  rewrite (bind_eq _ _ _ _ _ He). cbv iota.
  split.
  - intros Hf.
    assert (Hx : bucket_object_exists (sp ++ METADATA_FILENAME) w2
                 = (Raise OssError,
                    with_oss_trace (ObjectExists (sp ++ METADATA_FILENAME)
                                      :: oss_trace w2) w2)).
    { apply bucket_object_exists_fault. now rewrite B, T, L1, L2. }
    erewrite catch_raise_eq; [|apply bind_raise_eq; exact Hx].
    simpl. repeat split; congruence.
  - intros Hf [o Ho] Hg.
    assert (Hx : bucket_object_exists (sp ++ METADATA_FILENAME) w2
                 = (Ok true,
                    with_oss_trace (ObjectExists (sp ++ METADATA_FILENAME)
                                      :: oss_trace w2) w2)).
    { rewrite bucket_object_exists_eq by now rewrite B, T, L1, L2.
      now rewrite B, L1, Ho. }
    rewrite (catch_bind_eq _ _ _ _ _ _ Hx). change (negb true) with false.
    cbv iota. set (wx := with_oss_trace _ w2).
    assert (Hgx : bucket_get_object_to_file (sp ++ METADATA_FILENAME) wx
                  = (Raise OssError,
                     with_oss_trace (GetObjectToFile (sp ++ METADATA_FILENAME)
                                       :: oss_trace wx) wx)).
    { apply bucket_get_object_to_file_fault. unfold wx. simpl.
      now rewrite B, T, L1, L2. }
    erewrite catch_raise_eq; [|apply bind_raise_eq; exact Hgx].
    unfold wx. simpl. repeat split; congruence.
Qed.

(** A listing of a session's segments that fails five times: the session
    is passed over with an error in the log, and the loop goes on. *)
Lemma scan_segments_session_unlisted s e debug sp stats ns w :
  let sid := session_id_of sp in
  let c := ListObjectsV2 (sp ++ "segments/") "" 0 in
  let step := scan_segments_session s e debug sp (stats, ns) w in
  is_date_in_range (parse_session_id_value sid).2 s e = true ->
  db_fault w (List.length (db_trace w)) (SelectSession sid) = false ->
  is_Some (sessions (working w) !! sid) ->
  first_faults w c 5 ->
  step.1 = Ok (Next (incr "处理会话数" (incr "扫描会话数" stats), ns))
  /\ oss_trace step.2 = (List.repeat c 5 ++ oss_trace w)%list
  /\ head (log step.2) = Some (ERROR, MsgListObjectsFailed)
  /\ committed step.2 = committed w.
Proof.
  cbv zeta. intros Hrange Hdb Hsome Hf.
  unfold scan_segments_session.
  destruct (parse_session_id_log (session_id_of sp) w)
    as (w1 & Hp & L1 & L2 & L3 & L4 & L5 & L6 & L7 & L8).
  rewrite (bind_eq _ _ _ _ _ Hp).
  destruct (parse_session_id_value (session_id_of sp)) as [[ds ts] sd].
  simpl in Hrange. rewrite Hrange. change (negb true) with false. cbv iota.
  assert (Hdb1 : db_fault w1 (List.length (db_trace w1))
                   (SelectSession (session_id_of sp)) = false)
    by now rewrite L4, L7.
  assert (Hsome1 : is_Some (sessions (working w1) !! session_id_of sp))
    by now rewrite L6.
  rewrite (bind_eq _ _ _ _ _ (is_session_exists_present _ w1 Hdb1 Hsome1)).
  change (negb true) with false. cbv iota.
  set (w2 := with_working _ _).
  destruct (list_objects_exhausted (sp ++ "segments/") w2) as (Hr & Ht & Hs).
  { intros i Hi. unfold w2. simpl. rewrite L1, L2. now apply Hf. }
  destruct (list_objects (sp ++ "segments/") w2) as [res w3] eqn:El.
  simpl in Hr, Ht, Hs. subst res.
  erewrite bind_eq;
    [|erewrite catch_raise_eq; [reflexivity|apply bind_raise_eq; exact El]].
  simpl. unfold w2 in Ht. simpl in Ht.
  repeat split; try congruence.
  pose proof (io_only_list_objects (sp ++ "segments/") w2) as Hio.
  rewrite El in Hio. destruct Hio as (_ & _ & Hc & _). simpl in Hc.
  unfold w2 in Hc. simpl in Hc. congruence.
Qed.

End UnretriedCalls.

(** The deployment with a bucket whose third call raises, and no other:
    in a metadata scan that call is the existence check of the first
    session's metadata document. *)
Definition demo_transient : World :=
  demo_world (fun n _ => Nat.eqb n 2) never.

Definition demo_transient_run : result (gmap string nat) * World :=
  main_metadata demo_day demo_day (Some "7393") false demo_transient.

Definition is_exists_call (key : string) (c : oss_call) : bool :=
  match c with
  | ObjectExists k => String.eqb k key
  | _ => false
  end.

(** The deployment with a bucket whose first two calls raise. *)
Definition demo_two_faults : World :=
  demo_world (fun n _ => Nat.ltb n 2) never.

Section RetryContract.

(** C7, as the code has it.  The two listing operations ([list_prefixes],
    in both scanners, and [list_objects]) are retried on any exception: after
    [k < 5] failed attempts the next attempt's answer is returned, with one
    wait between 1 s and 10 s after each failed attempt (1 s, 1 s, 2 s,
    4 s); after five failed attempts the call raises [RetryError].  A
    listing of a session's segments that is exhausted makes the segment
    phase pass over that session, log an error and go on.  The existence
    check and the download of the metadata document are made once: when
    either raises, the session is counted as failed, there is no second
    call and no wait, and the metadata phase goes on. *)
Theorem retry_contract :
  (forall prefix, MetadataScan.list_prefixes prefix = list_prefixes prefix)
  /\ (forall prefix w k,
        let c := ListObjectsV2 prefix "/" 0 in
        (k < 5)%nat ->
        first_faults w c k ->
        oss_fault (bucket w) (List.length (oss_trace w) + k) c = false ->
        (list_prefixes prefix w).1 = Ok (prefix_list (bucket w) prefix)
        /\ oss_trace (list_prefixes prefix w).2
           = (List.repeat c (S k) ++ oss_trace w)%list
        /\ slept (list_prefixes prefix w).2 = (waits_from 1 k ++ slept w)%list)
  /\ (forall prefix w,
        let c := ListObjectsV2 prefix "/" 0 in
        first_faults w c 5 ->
        (list_prefixes prefix w).1 = Raise RetryError
        /\ oss_trace (list_prefixes prefix w).2
           = (List.repeat c 5 ++ oss_trace w)%list
        /\ slept (list_prefixes prefix w).2 = (waits_from 1 4 ++ slept w)%list)
  /\ (forall prefix w k,
        let c := ListObjectsV2 prefix "" 0 in
        let p := List.length (pages_of (bucket w) prefix) in
        (k < 5)%nat ->
        first_faults w c k ->
        (forall i, (i < p)%nat ->
           oss_fault (bucket w) (List.length (oss_trace w) + k + i)
                     (ListObjectsV2 prefix "" i) = false) ->
        (list_objects prefix w).1 = Ok (concat (pages_of (bucket w) prefix))
        /\ oss_trace (list_objects prefix w).2
           = (page_calls prefix 0 p ++ List.repeat c k ++ oss_trace w)%list
        /\ slept (list_objects prefix w).2 = (waits_from 1 k ++ slept w)%list)
  /\ (forall prefix w,
        let c := ListObjectsV2 prefix "" 0 in
        first_faults w c 5 ->
        (list_objects prefix w).1 = Raise RetryError
        /\ oss_trace (list_objects prefix w).2
           = (List.repeat c 5 ++ oss_trace w)%list
        /\ slept (list_objects prefix w).2 = (waits_from 1 4 ++ slept w)%list)
  /\ (forall a k, Forall (fun t => 1000 <= t <= 10000) (waits_from a k))
  /\ waits_from 1 4 = [4000; 2000; 1000; 1000]
  /\ (forall s e debug sp stats ns w,
        let sid := session_id_of sp in
        let c := ListObjectsV2 (sp ++ "segments/") "" 0 in
        let step := scan_segments_session s e debug sp (stats, ns) w in
        is_date_in_range (parse_session_id_value sid).2 s e = true ->
        db_fault w (List.length (db_trace w)) (SelectSession sid) = false ->
        is_Some (sessions (working w) !! sid) ->
        first_faults w c 5 ->
        step.1 = Ok (Next (incr "处理会话数" (incr "扫描会话数" stats), ns))
        /\ oss_trace step.2 = (List.repeat c 5 ++ oss_trace w)%list
        /\ head (log step.2) = Some (ERROR, MsgListObjectsFailed)
        /\ committed step.2 = committed w)
  /\ (forall d s e debug sp stats w,
        let sid := session_id_of sp in
        let key := sp ++ METADATA_FILENAME in
        let t := List.length (oss_trace w) in
        let step := scan_metadata_session d s e debug sp stats w in
        is_date_in_range (parse_session_id_value sid).2 s e = true ->
        sessions (working w) !! sid = None ->
        (oss_fault (bucket w) t (ObjectExists key) = true ->
         step.1 = Ok (Next (incr "解析失败数" (incr "扫描会话数" stats)))
         /\ oss_trace step.2 = ObjectExists key :: oss_trace w
         /\ slept step.2 = slept w
         /\ committed step.2 = committed w)
        /\ (oss_fault (bucket w) t (ObjectExists key) = false ->
            is_Some (objects (bucket w) !! key) ->
            oss_fault (bucket w) (S t) (GetObjectToFile key) = true ->
            step.1 = Ok (Next (incr "解析失败数" (incr "扫描会话数" stats)))
            /\ oss_trace step.2
               = GetObjectToFile key :: ObjectExists key :: oss_trace w
            /\ slept step.2 = slept w
            /\ committed step.2 = committed w)).
Proof.
  split; [reflexivity|].
  split; [exact list_prefixes_retried|].
  split; [exact list_prefixes_exhausted|].
  split; [exact list_objects_retried|].
  split; [exact list_objects_exhausted|].
  split; [exact waits_from_bounds|].
  split; [reflexivity|].
  split; [exact scan_segments_session_unlisted|].
  exact scan_metadata_session_unretried.
Qed.

(** [retry_contract] on the deployment whose first two calls raise: the
    listing of the device prefixes is answered at the third attempt, after
    two waits of one second. *)
Lemma retry_contract_witness :
  first_faults demo_two_faults (ListObjectsV2 "" "/" 0) 2
  /\ (list_prefixes "" demo_two_faults).1 = Ok ["7393/"]
  /\ List.length (oss_trace (list_prefixes "" demo_two_faults).2) = 3%nat
  /\ slept (list_prefixes "" demo_two_faults).2 = [1000; 1000].
Proof.
  assert (Hf : first_faults demo_two_faults (ListObjectsV2 "" "/" 0) 2).
  { intros i Hi. destruct i as [|[|i]]; [reflexivity|reflexivity|lia]. }
  destruct retry_contract as (_ & Hretry & _).
  destruct (Hretry "" demo_two_faults 2%nat ltac:(lia) Hf eq_refl)
    as (H1 & H2 & H3).
  split; [exact Hf|]. split; [exact H1|].
  split; [now rewrite H2|exact H3].
Defined.

(** C7 as stated fails: in a metadata scan of the deployment whose third
    bucket call raises, the existence check of the first session's metadata
    document raises once.  A second attempt would have been answered, but
    none is made: the check appears once in the trace, there is no wait,
    the session is counted as failed and gets no row, and the five other
    sessions are inserted. *)
Lemma retry_contract_counterexample :
  oss_fault (bucket demo_transient) 2
            (ObjectExists (demo_session "0" ++ METADATA_FILENAME)) = true
  /\ oss_fault (bucket demo_transient) 3
               (ObjectExists (demo_session "0" ++ METADATA_FILENAME)) = false
  /\ List.length
       (List.filter (is_exists_call (demo_session "0" ++ METADATA_FILENAME))
                    (oss_trace demo_transient_run.2)) = 1%nat
  /\ slept demo_transient_run.2 = []
  /\ sessions (committed demo_transient_run.2) !! demo_sid = None
  /\ (stat "解析失败数" <$> (match demo_transient_run.1 with
                             | Ok st => Some st
                             | Raise _ => None
                             end)) = Some 1%nat
  /\ size (sessions (committed demo_transient_run.2)) = 5%nat.
Proof. repeat split; vm_compute; reflexivity. Qed.

End RetryContract.

(* ===================================================================== *)
(** * The metadata phase without faults                                   *)
(* ===================================================================== *)

(** No call on the bucket and no statement on the connection raises. *)
Definition no_faults (w : World) : Prop :=
  (forall n c, oss_fault (bucket w) n c = false)
  /\ (forall n s, db_fault w n s = false).

Section FaultFree.

Lemma no_faults_db_step w w' : db_step w w' -> no_faults w -> no_faults w'.
Proof. intros (Hb & Hf) [Ho Hd]. split; intros; rewrite ?Hb, ?Hf; auto. Qed.

Lemma io_step_db_step w w' : io_step w w' -> db_step w w'.
Proof. intros (Hb & Hf & _). now split. Qed.

Lemma no_faults_io w w' : io_step w w' -> no_faults w -> no_faults w'.
Proof. intros H. apply no_faults_db_step. now apply io_step_db_step. Qed.

Lemma wp_list_prefixes_nf p w Q :
  no_faults w ->
  (forall w', io_step w w' -> Q (Ok (prefix_list (bucket w) p)) w') ->
  wp (list_prefixes p) w Q.
Proof.
  intros [Ho _] H.
  destruct (list_prefixes_retried p w 0) as (H1 & _);
    [lia|intros i Hi; lia|apply Ho|].
  unfold wp. rewrite H1. apply H, io_only_list_prefixes.
Qed.

Lemma wp_is_session_exists_nf sid w Q :
  no_faults w ->
  (forall w', io_step w w' ->
     Q (Ok (match sessions (working w) !! sid with
            | Some _ => true
            | None => false
            end)) w') ->
  wp (is_session_exists sid) w Q.
Proof.
  intros [_ Hd] H.
  destruct (is_session_exists_spec sid w) as (Hio & b & Hr & _ & Hb).
  unfold wp. rewrite Hr, (Hb (Hd _ _)). now apply H.
Qed.

Lemma wp_bucket_object_exists_nf key w Q :
  no_faults w ->
  (forall w', io_step w w' ->
     Q (Ok (match objects (bucket w) !! key with
            | Some _ => true
            | None => false
            end)) w') ->
  wp (bucket_object_exists key) w Q.
Proof.
  intros [Ho _] H. unfold wp.
  rewrite (bucket_object_exists_eq key w (Ho _ _)). simpl.
  apply H. now repeat split.
Qed.

Lemma wp_bucket_get_object_to_file_nf key w o Q :
  no_faults w ->
  objects (bucket w) !! key = Some o ->
  (forall w', io_step w w' -> Q (Ok o) w') ->
  wp (bucket_get_object_to_file key) w Q.
Proof.
  intros [Ho _] Hobj H. unfold wp.
  rewrite (bucket_get_object_to_file_eq key w o (Ho _ _) Hobj). simpl.
  apply H. now repeat split.
Qed.

Lemma wp_prepare_session_record d sid j w Q :
  (forall w', io_step w w' -> Q (session_record_of d sid j) w') ->
  wp (prepare_session_record d sid j) w Q.
Proof.
  intros H. destruct (prepare_session_record_eq d sid j w) as (w' & He & Hl).
  unfold wp. rewrite He. simpl. apply H.
  destruct Hl as (L1 & L2 & L3 & L4 & L5 & L6 & L7 & L8). now repeat split.
Qed.

(** Without faults an insert of an absent session commits. *)
Lemma insert_session_nf r w :
  clean w -> no_faults w ->
  sessions (committed w) !! s_session_id r = None ->
  exists w',
    insert_session r w = (Ok true, w')
    /\ db_step w w' /\ device_config w' = device_config w /\ clean w'
    /\ committed w'
       = set_sessions (<[s_session_id r := r]> (sessions (committed w)))
                      (committed w).
Proof.
  intros Hc [_ Hd] Hnone. unfold clean in Hc.
  unfold insert_session, catch, bind, db_execute, db_commit, ret.
  simpl. rewrite !Hd. simpl. rewrite Hc, Hnone. simpl. rewrite Hd. simpl.
  eexists. split; [reflexivity|]. now repeat split.
Qed.

(** Without faults [ensure_device_exists] answers from the configuration,
    or registers the unknown device. *)
Lemma ensure_device_exists_nf d w :
  clean w -> no_faults w ->
  match device_config w !! d with
  | Some e =>
      ensure_device_exists d w
      = (Ok (negb (skip_scan e) && device_is_active e), w)
  | None =>
      exists w',
        ensure_device_exists d w = (Ok true, w')
        /\ db_step w w' /\ clean w'
        /\ device_config w' = <[d := default_device]> (device_config w)
        /\ sessions (committed w') = sessions (committed w)
        /\ devices (committed w')
           = match devices (committed w) !! d with
             | Some _ => devices (committed w)
             | None => <[d := default_device]> (devices (committed w))
             end
  end.
Proof.
  intros Hc [_ Hd]. unfold clean in Hc.
  destruct (device_config w !! d) as [e|] eqn:E.
  - unfold ensure_device_exists, bind, get_world. rewrite E.
    destruct (skip_scan e); [reflexivity|].
    now destruct (device_is_active e).
  - unfold ensure_device_exists, catch, bind, db_execute, db_commit, modify,
      ret, get_world.
    rewrite E, Hd. simpl. rewrite Hc.
    destruct (devices (committed w) !! d) eqn:Ed; simpl; rewrite Hd; simpl;
      (eexists; split; [reflexivity|]); unfold clean; simpl;
      repeat split; now rewrite ?Hc.
Qed.

Lemma load_device_config_nf w :
  no_faults w ->
  exists w', load_device_config w = (Ok (devices (working w)), w')
             /\ io_step w w'.
Proof.
  intros [_ Hd].
  unfold load_device_config, catch, bind, db_execute, get_world, ret.
  rewrite Hd. simpl. eexists. split; [reflexivity|]. now repeat split.
Qed.

End FaultFree.

(* ===================================================================== *)
(** * The metadata phase, run twice                                       *)
(* ===================================================================== *)

Definition NEW_SESSIONS : string := "新增会话数".

(** The record that the metadata document of a session folder yields, when
    the document is there, is a JSON document and has the expected shape. *)
Definition metadata_record (b : Bucket) (device_id session_prefix : string)
  : option session_record :=
  match objects b !! (session_prefix ++ METADATA_FILENAME) with
  | Some o =>
      match body o with
      | Some j =>
          match session_record_of device_id (session_id_of session_prefix) j with
          | Ok r => Some r
          | Raise _ => None
          end
      | None => None
      end
  | None => None
  end.

(** The date filter of the session loop. *)
Definition session_in_range (start_date end_date : option date)
  (session_prefix : string) : bool :=
  is_date_in_range
    (parse_session_id_value (session_id_of session_prefix)).2
    start_date end_date.

(** Nothing is left to insert for a session folder: its row is there, or
    its metadata document yields no record. *)
Definition settled (b : Bucket) (rows : gmap string session_record)
  (device_id session_prefix : string) : Prop :=
  is_Some (rows !! session_id_of session_prefix)
  \/ metadata_record b device_id session_prefix = None.

Definition device_settled (start_date end_date : option date) (b : Bucket)
  (rows : gmap string session_record) (device_prefix : string) : Prop :=
  forall sp,
    In sp (prefix_list b device_prefix) ->
    is_session_prefix sp = true ->
    session_in_range start_date end_date sp = true ->
    settled b rows (Py.rstrip_char "/" device_prefix) sp.

(** A device folder has been dealt with: the device is configured and, if
    it is scanned at all, each of its session folders in range is
    settled. *)
Definition device_done (start_date end_date : option date)
  (device_id_filter : option string) (b : Bucket)
  (rows : gmap string session_record) (cfg : gmap string device_entry)
  (device_prefix : string) : Prop :=
  filtered_out device_id_filter (Py.rstrip_char "/" device_prefix) = false ->
  exists ent,
    cfg !! Py.rstrip_char "/" device_prefix = Some ent
    /\ (skip_scan ent = false -> device_is_active ent = true ->
        device_settled start_date end_date b rows device_prefix).

Definition scan_complete (start_date end_date : option date)
  (device_id_filter : option string) (b : Bucket)
  (rows : gmap string session_record) (cfg : gmap string device_entry)
  : Prop :=
  forall dp, In dp (prefix_list b "") ->
    device_done start_date end_date device_id_filter b rows cfg dp.

(** What a scan step may do to the world besides talking: add session rows
    and configure devices. *)
Definition grows (w w' : World) : Prop :=
  bucket w' = bucket w /\ db_fault w' = db_fault w
  /\ (forall k, is_Some (sessions (committed w) !! k) ->
                is_Some (sessions (committed w') !! k))
  /\ (forall d ent, device_config w !! d = Some ent ->
                    device_config w' !! d = Some ent).

(** The configuration cache agrees with the committed device table. *)
Definition synced (w : World) : Prop :=
  device_config w = devices (committed w).

Section Growth.

Lemma grows_refl w : grows w w.
Proof. now repeat split. Qed.

Lemma grows_trans w1 w2 w3 : grows w1 w2 -> grows w2 w3 -> grows w1 w3.
Proof.
  intros (A1 & A2 & A3 & A4) (B1 & B2 & B3 & B4).
  repeat split; [congruence|congruence|auto|auto].
Qed.

Lemma io_step_grows w w' : io_step w w' -> grows w w'.
Proof.
  intros (A1 & A2 & A3 & A4 & A5). repeat split; auto.
  - intros k. now rewrite A3.
  - intros d ent. now rewrite A5.
Qed.

Lemma grows_no_faults w w' : grows w w' -> no_faults w -> no_faults w'.
Proof. intros (A1 & A2 & _). apply no_faults_db_step. now split. Qed.

Lemma settled_mono b rows rows' d sp :
  (forall k, is_Some (rows !! k) -> is_Some (rows' !! k)) ->
  settled b rows d sp -> settled b rows' d sp.
Proof. intros H [Hs|Hn]; [left; auto|now right]. Qed.

Lemma device_settled_mono s e b rows rows' dp :
  (forall k, is_Some (rows !! k) -> is_Some (rows' !! k)) ->
  device_settled s e b rows dp -> device_settled s e b rows' dp.
Proof.
  intros H Hd sp H1 H2 H3. eapply settled_mono; [exact H|]. now apply Hd.
Qed.

Lemma device_done_grows s e f w w' dp :
  grows w w' ->
  device_done s e f (bucket w) (sessions (committed w)) (device_config w) dp ->
  device_done s e f (bucket w') (sessions (committed w')) (device_config w') dp.
Proof.
  intros (A1 & A2 & A3 & A4) Hd Hf. destruct (Hd Hf) as (ent & Hc & Hs).
  exists ent. split; [now apply A4|]. intros H1 H2. rewrite A1.
  eapply device_settled_mono; [exact A3|]. now apply Hs.
Qed.

Lemma stat_new_init : stat NEW_SESSIONS metadata_stats_init = O.
Proof. reflexivity. Qed.

End Growth.

Section FirstRun.

Variables (start_date end_date : option date).

(** A session folder met by a scan without faults is settled afterwards;
    the step never leaves the loop when the debug limit is off. *)
Lemma scan_metadata_session_first d sp st w :
  no_faults w -> clean w ->
  wp (scan_metadata_session d start_date end_date false sp st) w (fun r w' =>
    (exists st', r = Ok (Next st'))
    /\ grows w w' /\ clean w'
    /\ device_config w' = device_config w
    /\ devices (committed w') = devices (committed w)
    /\ (session_in_range start_date end_date sp = true ->
        settled (bucket w) (sessions (committed w')) d sp)).
Proof.
  intros Hnf Hc.
  match goal with |- wp _ _ ?P => set (Q := P) end.
  assert (Hquiet : forall st' w',
             io_step w w' ->
             (session_in_range start_date end_date sp = true ->
              settled (bucket w) (sessions (committed w)) d sp) ->
             Q (Ok (Next st')) w').
  { intros st' w' (B1 & B2 & B3 & B4 & B5) Hs. unfold Q.
    split; [eauto|]. split; [apply io_step_grows; now repeat split|].
    split; [unfold clean in *; congruence|].
    split; [assumption|]. split; [now rewrite B3|now rewrite B3]. }
  unfold scan_metadata_session.
  assert (Hrange : session_in_range start_date end_date sp
                   = is_date_in_range
                       (parse_session_id_value (session_id_of sp)).2
                       start_date end_date) by reflexivity.
  apply wp_bind, wp_parse_session_id. intros w1 H1. cbv beta iota.
  destruct (parse_session_id_value (session_id_of sp)) as [[ds ts] sd].
  cbn [snd] in Hrange |- *.
  destruct (is_date_in_range sd start_date end_date) eqn:Er.
  2:{ change (negb false) with true. cbv iota. apply wp_ret.
      apply Hquiet; [exact H1|]. rewrite Hrange. discriminate. }
  change (negb true) with false. cbv iota.
  apply wp_bind, wp_is_session_exists_nf; [now apply (no_faults_io w)|].
  intros w2 H2. cbv beta iota.
  pose proof (io_step_trans _ _ _ H1 H2) as Hio.
  assert (Hw1 : working w1 = committed w)
    by (destruct H1 as (_ & _ & _ & -> & _); exact Hc).
  rewrite Hw1. clear H1 H2 Hw1 w1.
  destruct (sessions (committed w) !! session_id_of sp) as [row|] eqn:Es.
  { apply wp_ret. apply Hquiet; [exact Hio|]. intros _. left. eauto. }
  apply wp_catch, wp_bind, wp_bucket_object_exists_nf;
    [now apply (no_faults_io w)|].
  intros w3 H3. cbv beta iota.
  replace (bucket w2) with (bucket w) by (symmetry; apply Hio).
  pose proof (io_step_trans _ _ _ Hio H3) as Hio3. clear Hio H3 w2.
  assert (Hb3 : bucket w3 = bucket w) by apply Hio3.
  destruct (objects (bucket w) !! (sp ++ METADATA_FILENAME)) as [o|] eqn:Eo.
  2:{ change (negb false) with true. cbv iota.
      apply wp_bind, wp_log_at, wp_ret. cbv beta iota.
      apply Hquiet; [|intros _; right; unfold metadata_record; now rewrite Eo].
      eapply io_step_trans; [exact Hio3|now repeat split]. }
  change (negb true) with false. cbv iota.
  assert (Hfail : forall e w',
             io_step w w' -> metadata_record (bucket w) d sp = None ->
             wp match e with
                | JSONDecodeError =>
                    log_at ERROR MsgJsonDecodeFailed ;;
                    ret (Next (incr "解析失败数" (incr "扫描会话数" st)))
                | _ =>
                    log_at ERROR MsgProcessingFailed ;;
                    ret (Next (incr "解析失败数" (incr "扫描会话数" st)))
                end w' Q).
  { intros e w' Hw' Hn.
    destruct e; apply wp_bind, wp_log_at, wp_ret; cbv beta iota;
      (apply Hquiet; [|intros _; now right]);
      (eapply io_step_trans; [exact Hw'|now repeat split]). }
  apply wp_bind.
  apply (wp_bucket_get_object_to_file_nf _ _ o);
    [now apply (no_faults_io w)|now rewrite Hb3|].
  intros w4 H4. cbv beta iota.
  pose proof (io_step_trans _ _ _ Hio3 H4) as Hio4. clear Hio3 H4 Hb3 w3.
  apply wp_bind. unfold json_load.
  destruct (body o) as [j|] eqn:Ej.
  2:{ apply wp_raise. cbv beta iota.
      apply (Hfail JSONDecodeError); [exact Hio4|].
      unfold metadata_record. now rewrite Eo, Ej. }
  apply wp_ret. apply wp_bind, wp_prepare_session_record.
  intros w5 H5. cbv beta iota.
  pose proof (io_step_trans _ _ _ Hio4 H5) as Hio5. clear Hio4 H5 w4.
  destruct (session_record_of d (session_id_of sp) j) as [r|err] eqn:Erec.
  2:{ apply (Hfail err); [exact Hio5|].
      unfold metadata_record. now rewrite Eo, Ej, Erec. }
  pose proof (session_record_of_id _ _ _ _ Erec) as Hid.
  destruct Hio5 as (B1 & B2 & B3 & B4 & B5).
  destruct (insert_session_nf r w5) as (w6 & Hins & (D1 & D2) & Dc & Dcl & Dm).
  { unfold clean in *. congruence. }
  { apply (no_faults_db_step w); [now split|exact Hnf]. }
  { now rewrite Hid, B3. }
  apply wp_bind. unfold wp at 1. rewrite Hins. cbn [fst snd].
  apply wp_bind, wp_ret, wp_ret. unfold Q.
  split; [eauto|]. rewrite Hid, B3 in Dm.
  split.
  { split; [congruence|]. split; [congruence|]. split.
    - intros k Hk. rewrite Dm. cbn [sessions set_sessions].
      destruct (decide (k = session_id_of sp)) as [->|Hne].
      + rewrite lookup_insert_eq. eauto.
      + now rewrite lookup_insert_ne by congruence.
    - intros d0 ent. now rewrite Dc, B5. }
  split; [exact Dcl|]. split; [congruence|]. rewrite Dm.
  split; [reflexivity|].
  intros _. left. cbn [sessions set_sessions]. rewrite lookup_insert_eq. eauto.
Qed.

(** The session loop over one device folder. *)
Lemma scan_sessions_first d dp st w :
  no_faults w -> clean w ->
  wp (session_prefixes <- list_prefixes dp ;;
      foreach (List.filter is_session_prefix session_prefixes)
        (scan_metadata_session d start_date end_date false) st) w
    (fun r w' =>
       (exists st', r = Ok (Next st'))
       /\ grows w w' /\ clean w'
       /\ device_config w' = device_config w
       /\ devices (committed w') = devices (committed w)
       /\ forall sp, In sp (prefix_list (bucket w) dp) ->
            is_session_prefix sp = true ->
            session_in_range start_date end_date sp = true ->
            settled (bucket w) (sessions (committed w')) d sp).
Proof.
  intros Hnf Hc. apply wp_bind, wp_list_prefixes_nf; [exact Hnf|].
  intros w1 H1. cbv beta iota.
  eapply wp_conseq.
  - apply (wp_foreach _
             (fun done (_ : gmap string nat) w' =>
                grows w w' /\ clean w'
                /\ device_config w' = device_config w
                /\ devices (committed w') = devices (committed w)
                /\ forall sp, In sp done ->
                     session_in_range start_date end_date sp = true ->
                     settled (bucket w) (sessions (committed w')) d sp)
             (fun _ _ => False) (fun _ _ => False) _ []).
    + intros done sp s0 w0 _ (Hg & Hcl & Hcfg & Hdev & Hset).
      eapply wp_conseq;
        [apply scan_metadata_session_first;
         [now apply (grows_no_faults w)|exact Hcl]|].
      intros r w' ([st' ->] & Hg' & Hcl' & Hcfg' & Hdev' & Hset').
      split; [now apply (grows_trans w w0)|]. split; [exact Hcl'|].
      split; [congruence|]. split; [congruence|].
      intros sp' Hin Hr. apply in_app_iff in Hin. destruct Hin as [Hin|Hin].
      * eapply settled_mono; [apply Hg'|]. now apply Hset.
      * destruct Hin as [<-|[]].
        replace (bucket w) with (bucket w0) by apply Hg. now apply Hset'.
    + split; [now apply io_step_grows|]. split; [now apply (io_step_clean w)|].
      destruct H1 as (B1 & B2 & B3 & B4 & B5).
      split; [exact B5|]. split; [now rewrite B3|]. intros sp [].
  - intros [[st'|v]|err] w'; cbn [app]; [|intros []|intros []].
    intros (Hg & Hcl & Hcfg & Hdev & Hset).
    split; [eauto|]. do 4 (split; [assumption|]).
    intros sp Hin Hsp Hr. apply Hset; [|exact Hr].
    apply List.filter_In. now split.
Qed.

Variable device_id_filter : option string.

Lemma scan_metadata_device_first dp st w :
  no_faults w -> clean w -> synced w ->
  wp (scan_metadata_device start_date end_date device_id_filter false dp st) w
    (fun r w' =>
       (exists st', r = Ok (Next st'))
       /\ grows w w' /\ clean w' /\ synced w'
       /\ device_done start_date end_date device_id_filter (bucket w')
            (sessions (committed w')) (device_config w') dp).
Proof.
  intros Hnf Hc Hs. unfold scan_metadata_device.
  destruct (filtered_out device_id_filter (Py.rstrip_char "/" dp)) eqn:Ef.
  { apply wp_ret. split; [eauto|]. split; [apply grows_refl|].
    do 2 (split; [assumption|]). intros Hf. congruence. }
  apply wp_bind.
  pose proof (ensure_device_exists_nf (Py.rstrip_char "/" dp) w Hc Hnf) as He.
  destruct (device_config w !! Py.rstrip_char "/" dp) as [ent|] eqn:Ecfg.
  - unfold wp at 1. rewrite He. cbn [fst snd].
    destruct (negb (skip_scan ent) && device_is_active ent) eqn:Eu.
    + change (negb true) with false. cbv iota.
      eapply wp_conseq; [apply scan_sessions_first; assumption|].
      intros r w' (Hst & Hg & Hcl & Hcfg & Hdev & Hset).
      split; [exact Hst|]. split; [exact Hg|]. split; [exact Hcl|].
      split; [unfold synced in *; congruence|].
      intros _. exists ent. split; [now rewrite Hcfg|]. intros _ _.
      replace (bucket w') with (bucket w) by (symmetry; apply Hg).
      exact Hset.
    + change (negb false) with true. cbv iota. apply wp_ret.
      split; [eauto|]. split; [apply grows_refl|].
      do 2 (split; [assumption|]).
      intros _. exists ent. split; [exact Ecfg|]. intros H1 H2.
      rewrite H1, H2 in Eu. discriminate.
  - destruct He as (w1 & He & Hdb & Hcl1 & Hcfg1 & Hsess1 & Hdev1).
    unfold wp at 1. rewrite He. cbn [fst snd].
    change (negb true) with false. cbv iota.
    assert (Hg1 : grows w w1).
    { destruct Hdb as (B1 & B2). split; [exact B1|]. split; [exact B2|].
      split; [intros k; now rewrite Hsess1|].
      intros d0 ent Hd0. rewrite Hcfg1.
      rewrite lookup_insert_ne; [exact Hd0|]. intros <-. congruence. }
    eapply wp_conseq;
      [apply scan_sessions_first;
       [now apply (grows_no_faults w)|exact Hcl1]|].
    intros r w' (Hst & Hg & Hcl & Hcfg & Hdev & Hset).
    split; [exact Hst|]. split; [now apply (grows_trans w w1)|].
    split; [exact Hcl|].
    split.
    { unfold synced in *. rewrite Hcfg, Hdev, Hcfg1, Hdev1, <- Hs, Ecfg.
      reflexivity. }
    intros _. exists default_device.
    split; [rewrite Hcfg, Hcfg1; apply lookup_insert_eq|]. intros _ _.
    replace (bucket w') with (bucket w1) by (symmetry; apply Hg).
    exact Hset.
Qed.

(** A scan with the debug limit off and without faults runs to the end and
    leaves nothing to insert. *)
Lemma scan_metadata_first w :
  no_faults w -> clean w -> synced w ->
  wp (scan_metadata start_date end_date device_id_filter false) w
    (fun r w' =>
       (exists st, r = Ok st)
       /\ grows w w' /\ clean w' /\ synced w'
       /\ scan_complete start_date end_date device_id_filter (bucket w')
            (sessions (committed w')) (device_config w')).
Proof.
  intros Hnf Hc Hs. unfold scan_metadata.
  apply wp_bind, wp_list_prefixes_nf; [exact Hnf|].
  intros w1 H1. cbv beta iota. apply wp_bind.
  eapply wp_conseq.
  - apply (wp_foreach _
             (fun done (_ : gmap string nat) w' =>
                grows w w' /\ clean w' /\ synced w'
                /\ forall dp, In dp done ->
                     device_done start_date end_date device_id_filter
                       (bucket w') (sessions (committed w'))
                       (device_config w') dp)
             (fun _ _ => False) (fun _ _ => False) _ []).
    + intros done dp s0 w0 _ (Hg & Hcl & Hsy & Hdone).
      eapply wp_conseq;
        [apply scan_metadata_device_first;
         [now apply (grows_no_faults w)|exact Hcl|exact Hsy]|].
      intros r w' ([st' ->] & Hg' & Hcl' & Hsy' & Hd').
      split; [now apply (grows_trans w w0)|]. split; [exact Hcl'|].
      split; [exact Hsy'|].
      intros dp' Hin. apply in_app_iff in Hin. destruct Hin as [Hin|Hin].
      * apply (device_done_grows _ _ _ w0); [exact Hg'|]. now apply Hdone.
      * destruct Hin as [<-|[]]. exact Hd'.
    + split; [now apply io_step_grows|]. split; [now apply (io_step_clean w)|].
      destruct H1 as (B1 & B2 & B3 & B4 & B5).
      split; [unfold synced in *; congruence|]. intros dp [].
  - intros [[st'|v]|err] w'; cbn [app]; [|intros []|intros []].
    intros (Hg & Hcl & Hsy & Hdone). apply wp_ret.
    split; [eauto|]. do 3 (split; [assumption|]).
    intros dp Hin. apply Hdone.
    replace (bucket w') with (bucket w) in Hin by (symmetry; apply Hg).
    exact Hin.
Qed.

Lemma main_metadata_first w :
  no_faults w -> clean w ->
  exists st w',
    main_metadata start_date end_date device_id_filter false w = (Ok st, w')
    /\ bucket w' = bucket w /\ no_faults w' /\ clean w'
    /\ scan_complete start_date end_date device_id_filter (bucket w')
         (sessions (committed w')) (devices (committed w')).
Proof.
  intros Hnf Hc.
  destruct (load_device_config_nf w Hnf) as (w1 & Hl & B1 & B2 & B3 & B4 & B5).
  set (w2 := with_device_config (devices (working w)) w1).
  assert (Hnf2 : no_faults w2)
    by (apply (no_faults_db_step w); [now split|exact Hnf]).
  assert (Hc2 : clean w2) by (unfold clean in *; simpl; congruence).
  assert (Hs2 : synced w2) by (unfold synced, clean in *; simpl; congruence).
  pose proof (scan_metadata_first w2 Hnf2 Hc2 Hs2) as H. unfold wp in H.
  assert (Hrun : main_metadata start_date end_date device_id_filter false w
                 = scan_metadata start_date end_date device_id_filter false w2).
  { unfold main_metadata. rewrite (bind_eq _ _ _ _ _ Hl). reflexivity. }
  rewrite Hrun.
  destruct (scan_metadata start_date end_date device_id_filter false w2)
    as [r w'].
  cbn [fst snd] in H. destruct H as ([st ->] & Hg & Hcl & Hsy & Hdone).
  exists st, w'. split; [reflexivity|].
  split; [destruct Hg as (-> & _); exact B1|].
  split; [now apply (grows_no_faults w2)|]. split; [exact Hcl|].
  unfold synced in Hsy. now rewrite <- Hsy.
Qed.

End FirstRun.

Section SecondRun.

Variables (start_date end_date : option date).
Variable device_id_filter : option string.
Variable debug_mode : bool.

(** A settled session folder is passed over: no row is written and the
    count of new sessions stays as it is, whatever the debug flag. *)
Lemma scan_metadata_session_again d sp st w :
  no_faults w -> clean w ->
  (session_in_range start_date end_date sp = true ->
   settled (bucket w) (sessions (committed w)) d sp) ->
  wp (scan_metadata_session d start_date end_date debug_mode sp st) w
    (fun r w' =>
       (exists st', r = Ok (Next st')
                    /\ stat NEW_SESSIONS st' = stat NEW_SESSIONS st)
       /\ io_step w w').
Proof.
  intros Hnf Hc Hset. unfold scan_metadata_session.
  assert (Hrange : session_in_range start_date end_date sp
                   = is_date_in_range
                       (parse_session_id_value (session_id_of sp)).2
                       start_date end_date) by reflexivity.
  apply wp_bind, wp_parse_session_id. intros w1 H1. cbv beta iota.
  destruct (parse_session_id_value (session_id_of sp)) as [[ds ts] sd].
  cbn [snd] in Hrange |- *.
  destruct (is_date_in_range sd start_date end_date) eqn:Er.
  2:{ change (negb false) with true. cbv iota. apply wp_ret.
      split; [|exact H1]. eexists. split; [reflexivity|].
      unfold NEW_SESSIONS. now rewrite !stat_incr_ne by discriminate. }
  change (negb true) with false. cbv iota.
  apply wp_bind, wp_is_session_exists_nf; [now apply (no_faults_io w)|].
  intros w2 H2. cbv beta iota.
  pose proof (io_step_trans _ _ _ H1 H2) as Hio.
  assert (Hw1 : working w1 = committed w)
    by (destruct H1 as (_ & _ & _ & -> & _); exact Hc).
  rewrite Hw1. clear H1 H2 Hw1 w1.
  destruct (Hset Hrange) as [[row Hrow]|Hnone].
  { rewrite Hrow. apply wp_ret. split; [|exact Hio].
    eexists. split; [reflexivity|].
    unfold NEW_SESSIONS. now rewrite !stat_incr_ne by discriminate. }
  destruct (sessions (committed w) !! session_id_of sp) as [row|].
  { apply wp_ret. split; [|exact Hio].
    eexists. split; [reflexivity|].
    unfold NEW_SESSIONS. now rewrite !stat_incr_ne by discriminate. }
  match goal with |- wp _ _ ?P => set (Q := P) end.
  assert (Hfail : forall e w',
             io_step w w' ->
             wp match e with
                | JSONDecodeError =>
                    log_at ERROR MsgJsonDecodeFailed ;;
                    ret (Next (incr "解析失败数" (incr "扫描会话数" st)))
                | _ =>
                    log_at ERROR MsgProcessingFailed ;;
                    ret (Next (incr "解析失败数" (incr "扫描会话数" st)))
                end w' Q).
  { intros e w' Hw'.
    destruct e; apply wp_bind, wp_log_at, wp_ret; cbv beta iota; unfold Q;
      (split; [eexists; split; [reflexivity|];
               unfold NEW_SESSIONS; now rewrite !stat_incr_ne by discriminate
              |eapply io_step_trans; [exact Hw'|now repeat split]]). }
  apply wp_catch, wp_bind, wp_bucket_object_exists_nf;
    [now apply (no_faults_io w)|].
  intros w3 H3. cbv beta iota.
  replace (bucket w2) with (bucket w) by (symmetry; apply Hio).
  pose proof (io_step_trans _ _ _ Hio H3) as Hio3. clear Hio H3 w2.
  assert (Hb3 : bucket w3 = bucket w) by apply Hio3.
  unfold metadata_record in Hnone.
  destruct (objects (bucket w) !! (sp ++ METADATA_FILENAME)) as [o|] eqn:Eo.
  2:{ change (negb false) with true. cbv iota.
      apply wp_bind, wp_log_at, wp_ret. cbv beta iota. unfold Q.
      split; [|eapply io_step_trans; [exact Hio3|now repeat split]].
      eexists. split; [reflexivity|].
      unfold NEW_SESSIONS. now rewrite !stat_incr_ne by discriminate. }
  change (negb true) with false. cbv iota.
  apply wp_bind.
  apply (wp_bucket_get_object_to_file_nf _ _ o);
    [now apply (no_faults_io w)|now rewrite Hb3|].
  intros w4 H4. cbv beta iota.
  pose proof (io_step_trans _ _ _ Hio3 H4) as Hio4. clear Hio3 H4 Hb3 w3.
  apply wp_bind. unfold json_load.
  destruct (body o) as [j|] eqn:Ej.
  2:{ apply wp_raise. cbv beta iota.
      now apply (Hfail JSONDecodeError). }
  apply wp_ret. apply wp_bind, wp_prepare_session_record.
  intros w5 H5. cbv beta iota.
  pose proof (io_step_trans _ _ _ Hio4 H5) as Hio5. clear Hio4 H5 w4.
  destruct (session_record_of d (session_id_of sp) j) as [r|err] eqn:Erec;
    [discriminate|].
  now apply (Hfail err).
Qed.

Lemma scan_metadata_device_again dp st w :
  no_faults w -> clean w ->
  device_done start_date end_date device_id_filter (bucket w)
    (sessions (committed w)) (device_config w) dp ->
  wp (scan_metadata_device start_date end_date device_id_filter debug_mode
        dp st) w
    (fun r w' =>
       (exists st', r = Ok (Next st')
                    /\ stat NEW_SESSIONS st' = stat NEW_SESSIONS st)
       /\ io_step w w').
Proof.
  intros Hnf Hc Hdone. unfold scan_metadata_device.
  destruct (filtered_out device_id_filter (Py.rstrip_char "/" dp)) eqn:Ef.
  { apply wp_ret. split; [eauto|apply io_step_refl]. }
  destruct (Hdone Ef) as (ent & Hcfg & Hset).
  apply wp_bind.
  pose proof (ensure_device_exists_nf (Py.rstrip_char "/" dp) w Hc Hnf) as He.
  rewrite Hcfg in He. unfold wp at 1. rewrite He. cbn [fst snd].
  destruct (skip_scan ent) eqn:Esk;
    [apply wp_ret; split; [eauto|apply io_step_refl]|].
  destruct (device_is_active ent) eqn:Eact;
    [|apply wp_ret; split; [eauto|apply io_step_refl]].
  change (negb (negb false && true)) with false. cbv iota.
  specialize (Hset eq_refl eq_refl).
  apply wp_bind, wp_list_prefixes_nf; [exact Hnf|].
  intros w1 H1. cbv beta iota.
  eapply wp_conseq.
  - apply (wp_foreach _
             (fun (_ : list string) st' w' =>
                stat NEW_SESSIONS st' = stat NEW_SESSIONS st /\ io_step w w')
             (fun _ _ => False) (fun _ _ => False) _ []).
    + intros done sp s0 w0 [rest Hsplit] (Hst & Hio).
      assert (Hin : In sp (List.filter is_session_prefix
                             (prefix_list (bucket w) dp))).
      { cbn [app] in Hsplit. rewrite Hsplit. apply in_app_iff.
        right. now left. }
      apply List.filter_In in Hin. destruct Hin as [Hin Hsp].
      destruct Hio as (B1 & B2 & B3 & B4 & B5).
      eapply wp_conseq;
        [apply scan_metadata_session_again;
         [apply (no_faults_db_step w); [now split|exact Hnf]
         |unfold clean in *; congruence
         |intros Hr; rewrite B1, B3; now apply Hset]|].
      intros r w' ([st' [-> Hst']] & Hio').
      split; [congruence|].
      eapply io_step_trans; [|exact Hio']. now repeat split.
    + split; [|exact H1].
      unfold NEW_SESSIONS. now rewrite stat_incr_ne by discriminate.
  - intros [[st'|v]|err] w'; [|intros []|intros []].
    intros (Hst & Hio). split; [eauto|exact Hio].
Qed.

Lemma scan_metadata_again w :
  no_faults w -> clean w ->
  scan_complete start_date end_date device_id_filter (bucket w)
    (sessions (committed w)) (device_config w) ->
  wp (scan_metadata start_date end_date device_id_filter debug_mode) w
    (fun r w' =>
       (exists st, r = Ok st /\ stat NEW_SESSIONS st = O) /\ io_step w w').
Proof.
  intros Hnf Hc Hdone. unfold scan_metadata.
  apply wp_bind, wp_list_prefixes_nf; [exact Hnf|].
  intros w1 H1. cbv beta iota. apply wp_bind.
  eapply wp_conseq.
  - apply (wp_foreach _
             (fun (_ : list string) st' w' =>
                stat NEW_SESSIONS st' = O /\ io_step w w')
             (fun _ _ => False) (fun _ _ => False) _ []).
    + intros done dp s0 w0 [rest Hsplit] (Hst & Hio).
      assert (Hin : In dp (prefix_list (bucket w) "")).
      { cbn [app] in Hsplit. rewrite Hsplit. apply in_app_iff.
        right. now left. }
      destruct Hio as (B1 & B2 & B3 & B4 & B5).
      eapply wp_conseq;
        [apply scan_metadata_device_again;
         [apply (no_faults_db_step w); [now split|exact Hnf]
         |unfold clean in *; congruence
         |rewrite B1, B3, B5; now apply Hdone]|].
      intros r w' ([st' [-> Hst']] & Hio').
      split; [congruence|].
      eapply io_step_trans; [|exact Hio']. now repeat split.
    + split; [apply stat_new_init|exact H1].
  - intros [[st'|v]|err] w'; [|intros []|intros []].
    intros (Hst & Hio). apply wp_ret. split; [eauto|exact Hio].
Qed.

Lemma main_metadata_again w :
  no_faults w -> clean w ->
  scan_complete start_date end_date device_id_filter (bucket w)
    (sessions (committed w)) (devices (committed w)) ->
  exists st w',
    main_metadata start_date end_date device_id_filter debug_mode w
    = (Ok st, w')
    /\ stat NEW_SESSIONS st = O
    /\ committed w' = committed w /\ working w' = working w.
Proof.
  intros Hnf Hc Hdone.
  destruct (load_device_config_nf w Hnf) as (w1 & Hl & B1 & B2 & B3 & B4 & B5).
  set (w2 := with_device_config (devices (working w)) w1).
  assert (Hnf2 : no_faults w2)
    by (apply (no_faults_db_step w); [now split|exact Hnf]).
  assert (Hc2 : clean w2) by (unfold clean in *; simpl; congruence).
  assert (Hd2 : scan_complete start_date end_date device_id_filter (bucket w2)
                  (sessions (committed w2)) (device_config w2)).
  { unfold w2. simpl. rewrite B1, B3, Hc. exact Hdone. }
  pose proof (scan_metadata_again w2 Hnf2 Hc2 Hd2) as H. unfold wp in H.
  assert (Hrun : main_metadata start_date end_date device_id_filter debug_mode w
                 = scan_metadata start_date end_date device_id_filter
                     debug_mode w2).
  { unfold main_metadata. rewrite (bind_eq _ _ _ _ _ Hl). reflexivity. }
  rewrite Hrun.
  destruct (scan_metadata start_date end_date device_id_filter debug_mode w2)
    as [r w'].
  cbn [fst snd] in H. destruct H as ([st [-> Hst]] & C1 & C2 & C3 & C4 & C5).
  exists st, w'. split; [reflexivity|]. split; [exact Hst|].
  unfold w2 in C3, C4. simpl in C3, C4. split; congruence.
Qed.

End SecondRun.

Section Idempotence.

Variables (start_date end_date : option date).
Variable device_id_filter : option string.

(** X1.  Idempotence of the metadata phase.  When no call on the bucket or
    on the store raises and the first run of the metadata phase is made
    with the debug limit off, the first run completes, and a second run
    over the same bucket and the tables the first one left (with or without
    the debug limit) reports zero new sessions and leaves the tables as the
    first run left them. *)
Theorem metadata_phase_idempotent (debug_mode : bool) (w : World) :
  no_faults w -> clean w ->
  exists st1 w1 st2 w2,
    main_metadata start_date end_date device_id_filter false w = (Ok st1, w1)
    /\ main_metadata start_date end_date device_id_filter debug_mode w1
       = (Ok st2, w2)
    /\ bucket w1 = bucket w
    /\ stat NEW_SESSIONS st2 = O
    /\ committed w2 = committed w1.
Proof.
  intros Hnf Hc.
  destruct (main_metadata_first start_date end_date device_id_filter w Hnf Hc)
    as (st1 & w1 & Hrun1 & Hb1 & Hnf1 & Hc1 & Hdone).
  destruct (main_metadata_again start_date end_date device_id_filter
              debug_mode w1 Hnf1 Hc1 Hdone)
    as (st2 & w2 & Hrun2 & Hst & Hcm & Hwk).
  exists st1, w1, st2, w2. repeat split; try assumption.
Qed.

End Idempotence.

(** The deployment scanned twice with the debug limit on. *)
Definition demo_debug_first : result (gmap string nat) * World :=
  main_metadata demo_day demo_day (Some "7393") true (demo_world never never).

Definition demo_debug_second : result (gmap string nat) * World :=
  main_metadata demo_day demo_day (Some "7393") true demo_debug_first.2.

(** [metadata_phase_idempotent] on the demo deployment: after a full scan,
    a second one (here with the debug limit on) inserts nothing. *)
Lemma metadata_phase_idempotent_witness :
  no_faults (demo_world never never) /\ clean (demo_world never never)
  /\ exists st1 w1 st2 w2,
       main_metadata demo_day demo_day (Some "7393") false
         (demo_world never never) = (Ok st1, w1)
       /\ main_metadata demo_day demo_day (Some "7393") true w1 = (Ok st2, w2)
       /\ bucket w1 = bucket (demo_world never never)
       /\ stat NEW_SESSIONS st2 = O
       /\ committed w2 = committed w1.
Proof.
  assert (Hnf : no_faults (demo_world never never))
    by (split; intros; reflexivity).
  assert (Hc : clean (demo_world never never)) by reflexivity.
  split; [exact Hnf|]. split; [exact Hc|].
  exact (metadata_phase_idempotent demo_day demo_day (Some "7393") true
           (demo_world never never) Hnf Hc).
Defined.

Lemma rows_differ (m1 m2 : gmap string session_record) (n1 n2 : nat) :
  size m1 = n1 -> size m2 = n2 -> n1 <> n2 -> m1 <> m2.
Proof. intros <- <- Hne Heq. apply Hne. now rewrite Heq. Qed.

(** The debug limit of the first run matters: with the limit on and no
    fault anywhere, the first run over the six session folders of the
    deployment stops after five inserts; the second run over the same
    bucket and the tables of the first inserts the sixth session, so it
    reports one new session and the session rows are no longer those the
    first run left. *)
Lemma metadata_rerun_counterexample :
  no_faults (demo_world never never) /\ clean (demo_world never never)
  /\ stat NEW_SESSIONS <$> (match demo_debug_first.1 with
                            | Ok st => Some st
                            | Raise _ => None
                            end) = Some 5%nat
  /\ bucket demo_debug_first.2 = bucket (demo_world never never)
  /\ working demo_debug_first.2 = committed demo_debug_first.2
  /\ stat NEW_SESSIONS <$> (match demo_debug_second.1 with
                            | Ok st => Some st
                            | Raise _ => None
                            end) = Some 1%nat
  /\ size (sessions (committed demo_debug_first.2)) = 5%nat
  /\ size (sessions (committed demo_debug_second.2)) = 6%nat
  /\ sessions (committed demo_debug_second.2)
     <> sessions (committed demo_debug_first.2).
Proof.
  split; [split; intros; reflexivity|]. split; [reflexivity|].
  split; [vm_compute; reflexivity|]. split; [vm_compute; reflexivity|].
  split; [vm_compute; reflexivity|]. split; [vm_compute; reflexivity|].
  assert (H1 : size (sessions (committed demo_debug_first.2)) = 5%nat)
    by (vm_compute; reflexivity).
  assert (H2 : size (sessions (committed demo_debug_second.2)) = 6%nat)
    by (vm_compute; reflexivity).
  split; [exact H1|]. split; [exact H2|].
  refine (rows_differ _ _ _ _ H2 H1 _). discriminate.
Qed.

(* ===================================================================== *)
(** * The metadata phase under arbitrary faults                           *)
(* ===================================================================== *)

(** The counters of [scan_metadata] that classify a scanned session. *)
Definition accounted (st : gmap string nat) : Prop :=
  stat "扫描会话数" st
  = (stat "新增会话数" st + stat "已存在会话数" st + stat "跳过会话数" st
     + stat "metadata不存在" st + stat "解析失败数" st
     + stat "插入失败数" st)%nat.

(** Where a session row written by the metadata phase comes from: a session
    folder listed under a device folder that passes the device filter, with
    an id in the date range, whose metadata document is stored, is a JSON
    document and yields the row. *)
Definition sourced (start_date end_date : option date)
  (device_id_filter : option string) (b : Bucket)
  (session_id : string) (row : session_record) : Prop :=
  exists dp sp o j,
    In dp (prefix_list b "")
    /\ filtered_out device_id_filter (Py.rstrip_char "/" dp) = false
    /\ In sp (prefix_list b dp)
    /\ is_session_prefix sp = true
    /\ session_id_of sp = session_id
    /\ session_in_range start_date end_date sp = true
    /\ objects b !! (sp ++ METADATA_FILENAME) = Some o
    /\ body o = Some j
    /\ session_record_of (Py.rstrip_char "/" dp) session_id j = Ok row.

(** A device row registered by the phase: the default entry, for a listed
    device folder that passes the filter. *)
Definition registered (device_id_filter : option string) (b : Bucket)
  (device_id : string) (ent : device_entry) : Prop :=
  ent = default_device
  /\ filtered_out device_id_filter device_id = false
  /\ exists dp, In dp (prefix_list b "") /\ Py.rstrip_char "/" dp = device_id.

(** What the metadata phase may have done to the world [w0] it started in:
    rows are only added, to the session and device tables, each with its
    origin, and no write is pending. *)
Record meta_inv (start_date end_date : option date)
  (device_id_filter : option string) (w0 w : World) : Prop := mkMetaInv {
  mi_bucket : bucket w = bucket w0;
  mi_fault : db_fault w = db_fault w0;
  mi_clean : clean w;
  mi_sessions : sessions (committed w0) ⊆ sessions (committed w);
  mi_segments : segments (committed w) = segments (committed w0);
  mi_metadata : session_metadata (committed w) = session_metadata (committed w0);
  mi_devices : devices (committed w0) ⊆ devices (committed w);
  mi_registered :
    forall d ent, devices (committed w) !! d = Some ent ->
      devices (committed w0) !! d = Some ent
      \/ registered device_id_filter (bucket w0) d ent;
  mi_sourced :
    forall k row, sessions (committed w) !! k = Some row ->
      sessions (committed w0) !! k = Some row
      \/ sourced start_date end_date device_id_filter (bucket w0) k row
}.

(** The statistics agree with the world: the count of new sessions is the
    number of rows added, and every scanned session is classified once. *)
Definition meta_stats_ok (w0 : World) (st : gmap string nat) (w : World)
  : Prop :=
  size (sessions (committed w))
  = (size (sessions (committed w0)) + stat NEW_SESSIONS st)%nat
  /\ accounted st.

(** Rewrites the counters of an updated statistics dictionary. *)
Ltac stat_norm :=
  unfold accounted, NEW_SESSIONS, incr in *;
  repeat first [ rewrite stat_add_stat_eq
               | rewrite stat_add_stat_ne by discriminate ].

Section MetadataPhase.

Variables (start_date end_date : option date).
Variable device_id_filter : option string.
Variable debug_mode : bool.

Local Abbreviation inv := (meta_inv start_date end_date device_id_filter).

Lemma meta_inv_init w0 : clean w0 -> inv w0 w0.
Proof. intros Hc. split; auto. Qed.

Lemma meta_inv_io w0 w w' : inv w0 w -> io_step w w' -> inv w0 w'.
Proof.
  intros [Ab Af Acl As Ag Am Ad Ar Asrc] (Hb & Hf & Hc & Hw & Hd).
  split; unfold clean in *; rewrite ?Hc, ?Hw; try congruence; assumption.
Qed.

Lemma meta_stats_ok_io w0 st w w' :
  meta_stats_ok w0 st w -> io_step w w' -> meta_stats_ok w0 st w'.
Proof. intros [Hn Ha] (_ & _ & Hc & _). split; [now rewrite Hc|exact Ha]. Qed.

(** The object a download returns is the one stored under the key. *)
Lemma bucket_get_object_to_file_outcome key w :
  io_step w (bucket_get_object_to_file key w).2
  /\ forall o, (bucket_get_object_to_file key w).1 = Ok o ->
               objects (bucket w) !! key = Some o.
Proof.
  split; [apply io_only_bucket_get_object_to_file|].
  unfold bucket_get_object_to_file, bind, oss_request, get_world.
  destruct (oss_fault _ _ _); simpl; [discriminate|].
  destruct (objects (bucket w) !! key); simpl; [|discriminate].
  now intros o' [= <-].
Qed.

(** [list_prefixes] raises only when its first attempt met a fault. *)
Lemma list_prefixes_outcome prefix w :
  io_step w (list_prefixes prefix w).2
  /\ match (list_prefixes prefix w).1 with
     | Ok l => l = prefix_list (bucket w) prefix
     | Raise e =>
         e = RetryError
         /\ oss_fault (bucket w) (List.length (oss_trace w))
                      (ListObjectsV2 prefix "/" 0) = true
     end.
Proof.
  destruct (list_prefixes_spec prefix w) as [Hio Hres]. split; [exact Hio|].
  destruct (list_prefixes prefix w).1 as [l|e] eqn:E; [exact Hres|].
  split; [exact Hres|].
  destruct (oss_fault (bucket w) (List.length (oss_trace w))
              (ListObjectsV2 prefix "/" 0)) eqn:Ef; [reflexivity|].
  destruct (list_prefixes_retried prefix w 0) as (H1 & _);
    [lia|intros i Hi; lia|now rewrite Nat.add_0_r|].
  rewrite H1 in E. discriminate.
Qed.

(** [ensure_device_exists] whatever the store does: it never raises, leaves
    no write pending, and changes the tables at most by registering the
    device with the default entry. *)
Lemma ensure_device_exists_ok d w :
  clean w ->
  let w' := (ensure_device_exists d w).2 in
  (exists b, (ensure_device_exists d w).1 = Ok b)
  /\ db_step w w' /\ clean w'
  /\ sessions (committed w') = sessions (committed w)
  /\ segments (committed w') = segments (committed w)
  /\ session_metadata (committed w') = session_metadata (committed w)
  /\ (devices (committed w') = devices (committed w)
      \/ devices (committed w) !! d = None
         /\ devices (committed w')
            = <[d := default_device]> (devices (committed w))).
Proof.
  intros Hc. unfold clean in Hc. cbv zeta.
  unfold ensure_device_exists, bind, get_world.
  destruct (device_config w !! d) as [ent|].
  - destruct (skip_scan ent); [|destruct (negb (device_is_active ent))];
      simpl; (split; [eauto|]); now repeat split; auto.
  - unfold catch, bind, db_execute, db_commit, db_rollback, modify, ret,
      log_at, clean, db_step.
    destruct (db_fault w _ _); simpl;
      [split; [eauto|]; now repeat split; auto|].
    rewrite Hc.
    destruct (devices (committed w) !! d) eqn:Ed; simpl;
      (destruct (db_fault w _ Commit); simpl;
       (split; [eauto|]); repeat split; auto).
Qed.

(** The state of the session loop: the invariant, the statistics in
    agreement with the world, and the debug limit not yet reached. *)
Definition meta_ok (w0 : World) (st : gmap string nat) (w : World) : Prop :=
  inv w0 w /\ meta_stats_ok w0 st w
  /\ (debug_mode = true -> (stat NEW_SESSIONS st < 5)%nat).

(** The state [scan_metadata] returns in, by either exit. *)
Definition meta_done (w0 : World) (st : gmap string nat) (w : World)
  : Prop :=
  inv w0 w /\ meta_stats_ok w0 st w
  /\ (debug_mode = true -> (stat NEW_SESSIONS st <= 5)%nat).

Lemma meta_ok_done w0 st w : meta_ok w0 st w -> meta_done w0 st w.
Proof.
  intros (Hi & Hs & Hd). split; [exact Hi|]. split; [exact Hs|].
  intros H. specialize (Hd H). lia.
Qed.

(** A session classified without a write. *)
Lemma meta_ok_count w0 st w w' key :
  key <> "新增会话数" -> key <> "扫描会话数" ->
  In key ["已存在会话数"; "跳过会话数"; "metadata不存在"; "解析失败数";
          "插入失败数"] ->
  meta_ok w0 st w -> io_step w w' ->
  meta_ok w0 (incr key (incr "扫描会话数" st)) w'.
Proof.
  intros Hk1 Hk2 Hin (Hi & [Hn Ha] & Hd) Hio.
  split; [now apply (meta_inv_io w0 w)|].
  assert (Hnew : stat NEW_SESSIONS (incr key (incr "扫描会话数" st))
                 = stat NEW_SESSIONS st).
  { unfold NEW_SESSIONS, incr.
    rewrite stat_add_stat_ne by congruence.
    now rewrite stat_add_stat_ne by discriminate. }
  split; [split|].
  - rewrite Hnew. destruct Hio as (_ & _ & -> & _). exact Hn.
  - simpl in Hin.
    destruct Hin as [<-|[<-|[<-|[<-|[<-|[]]]]]]; stat_norm; lia.
  - now rewrite Hnew.
Qed.

(** The session step keeps the invariant and never raises. *)
Lemma scan_metadata_session_ok w0 dp sp st w :
  In dp (prefix_list (bucket w0) "") ->
  filtered_out device_id_filter (Py.rstrip_char "/" dp) = false ->
  In sp (prefix_list (bucket w0) dp) ->
  is_session_prefix sp = true ->
  meta_ok w0 st w ->
  wp (scan_metadata_session (Py.rstrip_char "/" dp) start_date end_date
        debug_mode sp st) w
    (fun r w' =>
       match r with
       | Ok (Next st') => meta_ok w0 st' w'
       | Ok (Return st') => meta_done w0 st' w'
       | Raise _ => False
       end).
Proof.
  intros Hdp Hflt Hsp Hpre Hok.
  match goal with |- wp _ _ ?P => set (Q := P) end.
  assert (Hcount : forall key w',
             key <> "新增会话数" -> key <> "扫描会话数" ->
             In key ["已存在会话数"; "跳过会话数"; "metadata不存在";
                     "解析失败数"; "插入失败数"] ->
             io_step w w' ->
             Q (Ok (Next (incr key (incr "扫描会话数" st)))) w').
  { intros key w' H1 H2 H3 Hio. now apply (meta_ok_count w0 st w). }
  unfold scan_metadata_session.
  assert (Hrange : session_in_range start_date end_date sp
                   = is_date_in_range
                       (parse_session_id_value (session_id_of sp)).2
                       start_date end_date) by reflexivity.
  apply wp_bind, wp_parse_session_id. intros w1 H1. cbv beta iota.
  destruct (parse_session_id_value (session_id_of sp)) as [[ds ts] sd].
  cbn [snd] in Hrange |- *.
  destruct (is_date_in_range sd start_date end_date) eqn:Er.
  2:{ change (negb false) with true. cbv iota. apply wp_ret.
      apply Hcount; [discriminate|discriminate|simpl; tauto|exact H1]. }
  change (negb true) with false. cbv iota.
  apply wp_bind, wp_is_session_exists. intros found w2 H2 _. cbv beta iota.
  pose proof (io_step_trans _ _ _ H1 H2) as Hio. clear H1 H2 w1.
  destruct found.
  { apply wp_ret.
    apply Hcount; [discriminate|discriminate|simpl; tauto|exact Hio]. }
  assert (Hfail : forall e w',
             io_step w w' ->
             wp match e with
                | JSONDecodeError =>
                    log_at ERROR MsgJsonDecodeFailed ;;
                    ret (Next (incr "解析失败数" (incr "扫描会话数" st)))
                | _ =>
                    log_at ERROR MsgProcessingFailed ;;
                    ret (Next (incr "解析失败数" (incr "扫描会话数" st)))
                end w' Q).
  { intros e w' Hw'.
    destruct e; apply wp_bind, wp_log_at, wp_ret; cbv beta iota;
      (apply Hcount; [discriminate|discriminate|simpl; tauto|]);
      (eapply io_step_trans; [exact Hw'|now repeat split]). }
  apply wp_catch, wp_bind, wp_io; [apply io_only_bucket_object_exists|].
  intros [present|e] w3 H3; cbv beta iota.
  2:{ apply Hfail. now apply (io_step_trans _ w2). }
  pose proof (io_step_trans _ _ _ Hio H3) as Hio3. clear Hio H3 w2.
  destruct present.
  2:{ change (negb false) with true. cbv iota.
      apply wp_bind, wp_log_at, wp_ret. cbv beta iota.
      apply Hcount; [discriminate|discriminate|simpl; tauto|].
      eapply io_step_trans; [exact Hio3|now repeat split]. }
  change (negb true) with false. cbv iota.
  apply wp_bind. unfold wp at 1.
  destruct (bucket_get_object_to_file_outcome (sp ++ METADATA_FILENAME) w3)
    as [H4 Hobj].
  set (w4 := (bucket_get_object_to_file (sp ++ METADATA_FILENAME) w3).2) in *.
  pose proof (io_step_trans _ _ _ Hio3 H4) as Hio4.
  destruct (bucket_get_object_to_file (sp ++ METADATA_FILENAME) w3).1
    as [o|e]; [|now apply Hfail].
  specialize (Hobj o eq_refl).
  apply wp_bind. unfold json_load.
  destruct (body o) as [j|] eqn:Ej;
    [|apply wp_raise; cbv beta iota; now apply (Hfail JSONDecodeError)].
  apply wp_ret. apply wp_bind, wp_prepare_session_record.
  intros w5 H5. cbv beta iota.
  pose proof (io_step_trans _ _ _ Hio4 H5) as Hio5.
  destruct (session_record_of (Py.rstrip_char "/" dp) (session_id_of sp) j)
    as [r|err] eqn:Erec; [|now apply (Hfail err)].
  pose proof (session_record_of_id _ _ _ _ Erec) as Hid.
  destruct Hok as (Hi & [Hn Ha] & Hd).
  pose proof (meta_inv_io w0 w w5 Hi Hio5) as Hi5.
  destruct (insert_session_spec r w5 (mi_clean _ _ _ _ _ Hi5))
    as (Hdb & Hcfg & Hcl & Hres).
  cbv zeta in Hdb, Hcfg, Hcl, Hres.
  set (w6 := (insert_session r w5).2) in *.
  apply wp_bind. unfold wp at 1. fold w6.
  assert (Hc5 : committed w5 = committed w) by apply Hio5.
  assert (Hb3 : bucket w3 = bucket w0).
  { destruct Hio3 as (B1 & _). rewrite B1. apply Hi. }
  destruct Hres as [(Hr & Hnone & Hcom)|(Hr & Hcom)]; rewrite Hr.
  - (* the row was added *)
    assert (Hi6 : inv w0 w6).
    { destruct Hi5 as [Ab Af Acl As Ag Am Ad Ar Asrc].
      destruct Hdb as (Hb & Hf).
      split; rewrite ?Hcom; cbn [sessions segments devices session_metadata
                                 set_sessions]; try congruence; try assumption.
      - etrans; [exact As|]. now apply insert_subseteq.
      - intros k row Hk.
        destruct (decide (k = s_session_id r)) as [->|Hne].
        + rewrite lookup_insert_eq in Hk. injection Hk as <-. right.
          exists dp, sp, o, j. rewrite Hid.
          repeat split; try assumption; try reflexivity.
          now rewrite <- Hobj, Hb3.
        + rewrite lookup_insert_ne in Hk by congruence. now apply Asrc. }
    assert (Hn6 : size (sessions (committed w6))
                  = S (size (sessions (committed w0)) + stat NEW_SESSIONS st)).
    { rewrite Hcom. cbn [sessions set_sessions].
      rewrite map_size_insert_None by exact Hnone. now rewrite Hc5, Hn. }
    apply wp_bind, wp_ret. cbv beta iota.
    destruct (debug_mode && Nat.leb 5
                (stat "新增会话数" (incr "新增会话数" (incr "扫描会话数" st))))
      eqn:Elim.
    + apply wp_bind, wp_log_at, wp_ret. cbv beta iota. unfold Q.
      apply andb_true_iff in Elim as [Hdm _].
      split; [apply (meta_inv_io w0 w6); [exact Hi6|now repeat split]|].
      split; [split|].
      * cbn [committed with_log]. rewrite Hn6. stat_norm. lia.
      * stat_norm. lia.
      * intros _. specialize (Hd Hdm). stat_norm. lia.
    + apply wp_ret. unfold Q. split; [exact Hi6|]. split; [split|].
      * rewrite Hn6. stat_norm. lia.
      * stat_norm. lia.
      * intros Hdm. rewrite Hdm, andb_true_l in Elim.
        apply Nat.leb_gt in Elim. exact Elim.
  - (* no row was added *)
    assert (Hi6 : inv w0 w6).
    { destruct Hi5 as [Ab Af Acl As Ag Am Ad Ar Asrc].
      destruct Hdb as (Hb & Hf).
      split; rewrite ?Hcom; try congruence; assumption. }
    apply wp_bind, wp_bind, wp_log_at, wp_ret. cbv beta iota.
    set (wl := with_log _ w6).
    assert (Hil : inv w0 wl)
      by (apply (meta_inv_io w0 w6); [exact Hi6|now repeat split]).
    assert (Hnl : size (sessions (committed wl))
                  = (size (sessions (committed w0)) + stat NEW_SESSIONS st)%nat).
    { unfold wl. cbn [committed with_log]. now rewrite Hcom, Hc5. }
    destruct (debug_mode && Nat.leb 5
                (stat "新增会话数" (incr "插入失败数" (incr "扫描会话数" st))))
      eqn:Elim.
    + apply wp_bind, wp_log_at, wp_ret. cbv beta iota. unfold Q.
      apply andb_true_iff in Elim as [Hdm _].
      split; [apply (meta_inv_io w0 wl); [exact Hil|now repeat split]|].
      split; [split|].
      * cbn [committed with_log]. rewrite Hnl. stat_norm. lia.
      * stat_norm. lia.
      * intros _. specialize (Hd Hdm). stat_norm. lia.
    + apply wp_ret. unfold Q. split; [exact Hil|]. split; [split|].
      * rewrite Hnl. stat_norm. lia.
      * stat_norm. lia.
      * intros Hdm. specialize (Hd Hdm). stat_norm. lia.
Qed.

(** Registering a device keeps the invariant. *)
Lemma meta_inv_register w0 dp w w' :
  In dp (prefix_list (bucket w0) "") ->
  filtered_out device_id_filter (Py.rstrip_char "/" dp) = false ->
  inv w0 w -> db_step w w' -> clean w' ->
  sessions (committed w') = sessions (committed w) ->
  segments (committed w') = segments (committed w) ->
  session_metadata (committed w') = session_metadata (committed w) ->
  (devices (committed w') = devices (committed w)
   \/ devices (committed w) !! Py.rstrip_char "/" dp = None
      /\ devices (committed w')
         = <[Py.rstrip_char "/" dp := default_device]> (devices (committed w))) ->
  inv w0 w'.
Proof.
  intros Hdp Hflt [Ab Af Acl As Ag Am Ad Ar Asrc] (Hb & Hf) Hcl Hs Hg Hm Hdev.
  split; rewrite ?Hs, ?Hg, ?Hm; try congruence; try assumption.
  - destruct Hdev as [->|[Hnone ->]]; [exact Ad|].
    etrans; [exact Ad|]. now apply insert_subseteq.
  - intros d ent Hent. destruct Hdev as [Hsame|[Hnone Hins]].
    + rewrite Hsame in Hent. now apply Ar.
    + rewrite Hins in Hent.
      destruct (decide (d = Py.rstrip_char "/" dp)) as [->|Hne].
      * rewrite lookup_insert_eq in Hent. injection Hent as <-. right.
        split; [reflexivity|]. split; [exact Hflt|]. now exists dp.
      * rewrite lookup_insert_ne in Hent by congruence. now apply Ar.
Qed.

(** Some prefix listing met a fault. *)
Definition listing_fault (b : Bucket) : Prop :=
  exists n prefix, oss_fault b n (ListObjectsV2 prefix "/" 0) = true.

(** How the phase may be aborted: by the exhausted retries of a prefix
    listing, in a world that satisfies the invariant. *)
Definition meta_aborted (w0 : World) (e : exn) (w : World) : Prop :=
  e = RetryError /\ listing_fault (bucket w0)
  /\ exists st, meta_done w0 st w.

Lemma scan_metadata_device_ok w0 dp st w :
  In dp (prefix_list (bucket w0) "") ->
  meta_ok w0 st w ->
  wp (scan_metadata_device start_date end_date device_id_filter debug_mode
        dp st) w
    (fun r w' =>
       match r with
       | Ok (Next st') => meta_ok w0 st' w'
       | Ok (Return st') => meta_done w0 st' w'
       | Raise e => meta_aborted w0 e w'
       end).
Proof.
  intros Hdp Hok. unfold scan_metadata_device.
  destruct (filtered_out device_id_filter (Py.rstrip_char "/" dp)) eqn:Ef;
    [now apply wp_ret|].
  destruct Hok as (Hi & [Hn Ha] & Hd).
  destruct (ensure_device_exists_ok (Py.rstrip_char "/" dp) w
              (mi_clean _ _ _ _ _ Hi))
    as ([usable Hr] & Hdb & Hcl & Hs & Hg & Hm & Hdev).
  cbv zeta in Hdb, Hcl, Hs, Hg, Hm, Hdev.
  set (w1 := (ensure_device_exists (Py.rstrip_char "/" dp) w).2) in *.
  apply wp_bind. unfold wp at 1. fold w1. rewrite Hr.
  assert (Hi1 : inv w0 w1) by now apply (meta_inv_register w0 dp w).
  assert (Hn1 : size (sessions (committed w1))
                = (size (sessions (committed w0)) + stat NEW_SESSIONS st)%nat)
    by now rewrite Hs.
  destruct usable.
  2:{ apply wp_ret. split; [exact Hi1|]. now split. }
  change (negb true) with false. cbv iota.
  assert (Hok1 : meta_ok w0 (incr "扫描设备数" st) w1).
  { split; [exact Hi1|]. split; [split|].
    - rewrite Hn1. stat_norm. reflexivity.
    - stat_norm. exact Ha.
    - intros Hdm. specialize (Hd Hdm). stat_norm. exact Hd. }
  clearbody w1. clear Hi Hn Ha Hd Hdb Hcl Hs Hg Hm Hdev Hr Hi1 Hn1.
  apply wp_bind. unfold wp at 1.
  destruct (list_prefixes_outcome dp w1) as [Hio Hres].
  set (w2 := (list_prefixes dp w1).2) in *.
  assert (Hok2 : meta_ok w0 (incr "扫描设备数" st) w2).
  { destruct Hok1 as (Hi & Hs & Hd).
    split; [now apply (meta_inv_io w0 w1)|].
    split; [now apply (meta_stats_ok_io w0 _ w1)|exact Hd]. }
  assert (Hb1 : bucket w1 = bucket w0) by apply Hok1.
  destruct (list_prefixes dp w1).1 as [l|e].
  2:{ destruct Hres as [-> Hf]. split; [reflexivity|].
      split; [rewrite <- Hb1; now exists (List.length (oss_trace w1)), dp|].
      exists (incr "扫描设备数" st). apply meta_ok_done, Hok2. }
  subst l. rewrite Hb1.
  eapply wp_conseq.
  - apply (wp_foreach _ (fun _ st' w' => meta_ok w0 st' w')
             (fun st' w' => meta_done w0 st' w') (fun _ _ => False) _ []).
    + intros done sp s0 w3 [rest Hsplit] Hok3.
      assert (Hin : In sp (List.filter is_session_prefix
                             (prefix_list (bucket w0) dp))).
      { cbn [app] in Hsplit. rewrite Hsplit. apply in_app_iff.
        right. now left. }
      apply List.filter_In in Hin. destruct Hin as [Hin Hsp].
      now apply scan_metadata_session_ok.
    + exact Hok2.
  - intros [[st'|st']|e] w'; [auto|auto|intros []].
Qed.

(** The metadata phase keeps the invariant, to its end or to the exception
    that aborts it. *)
Lemma scan_metadata_ok w0 :
  clean w0 ->
  wp (scan_metadata start_date end_date device_id_filter debug_mode) w0
    (fun r w' =>
       match r with
       | Ok st => meta_done w0 st w'
       | Raise e => meta_aborted w0 e w'
       end).
Proof.
  intros Hc. unfold scan_metadata.
  assert (Hok0 : meta_ok w0 metadata_stats_init w0).
  { split; [now apply meta_inv_init|]. split; [split|].
    - rewrite stat_new_init. lia.
    - reflexivity.
    - intros _. rewrite stat_new_init. lia. }
  apply wp_bind. unfold wp at 1.
  destruct (list_prefixes_outcome "" w0) as [Hio Hres].
  set (w1 := (list_prefixes "" w0).2) in *.
  assert (Hok1 : meta_ok w0 metadata_stats_init w1).
  { destruct Hok0 as (Hi & Hs & Hd).
    split; [now apply (meta_inv_io w0 w0)|].
    split; [now apply (meta_stats_ok_io w0 _ w0)|exact Hd]. }
  destruct (list_prefixes "" w0).1 as [l|e].
  2:{ destruct Hres as [-> Hf]. split; [reflexivity|].
      split; [now exists (List.length (oss_trace w0)), ""|].
      exists metadata_stats_init. apply meta_ok_done, Hok1. }
  subst l. apply wp_bind.
  eapply wp_conseq.
  - apply (wp_foreach _ (fun _ st' w' => meta_ok w0 st' w')
             (fun st' w' => meta_done w0 st' w')
             (fun e w' => meta_aborted w0 e w') _ []).
    + intros done dp s0 w3 [rest Hsplit] Hok3.
      apply scan_metadata_device_ok; [|exact Hok3].
      cbn [app] in Hsplit. rewrite Hsplit. apply in_app_iff. right. now left.
    + exact Hok1.
  - intros [[st'|st']|e] w' H;
      [apply wp_ret; now apply meta_ok_done|apply wp_ret; exact H|exact H].
Qed.

End MetadataPhase.

Section MetadataPhaseProperties.

Variables (start_date end_date : option date).
Variable device_id_filter : option string.
Variable debug_mode : bool.

Local Abbreviation run_metadata :=
  (scan_metadata start_date end_date device_id_filter debug_mode).

(** The invariant holds of the world the phase ends in, whichever way it
    ends. *)
Lemma scan_metadata_inv w :
  clean w ->
  exists st,
    meta_done start_date end_date device_id_filter debug_mode w st
      (run_metadata w).2
    /\ match (run_metadata w).1 with
       | Ok st' => st' = st
       | Raise e => e = RetryError /\ listing_fault (bucket w)
       end.
Proof.
  intros Hc.
  pose proof (scan_metadata_ok start_date end_date device_id_filter
                debug_mode w Hc) as H.
  unfold wp in H.
  destruct (run_metadata w).1 as [st|e].
  - now exists st.
  - destruct H as (He & Hf & st & Hst). now exists st.
Qed.

(** X2.  The metadata phase only adds rows.  Whatever the bucket and the
    store do, and whether the phase returns or is aborted: every session
    row and every device row that was there is there unchanged, the
    segment table and the table of [metadata_scan.py] are as they were,
    and no write is left pending on the connection. *)
Theorem metadata_phase_only_adds (w : World) :
  clean w ->
  (forall k row, sessions (committed w) !! k = Some row ->
                 sessions (committed (run_metadata w).2) !! k = Some row)
  /\ (forall d ent, devices (committed w) !! d = Some ent ->
                    devices (committed (run_metadata w).2) !! d = Some ent)
  /\ segments (committed (run_metadata w).2) = segments (committed w)
  /\ session_metadata (committed (run_metadata w).2)
     = session_metadata (committed w)
  /\ working (run_metadata w).2 = committed (run_metadata w).2.
Proof.
  intros Hc. destruct (scan_metadata_inv w Hc) as (st & (Hi & _) & _).
  destruct Hi as [Ab Af Acl As Ag Am Ad Ar Asrc].
  split; [|split; [|split; [|split]]].
  - intros k row Hk. exact (lookup_weaken _ _ _ _ Hk As).
  - intros d ent Hd. exact (lookup_weaken _ _ _ _ Hd Ad).
  - exact Ag.
  - exact Am.
  - exact Acl.
Qed.

(** X3.  Every row the metadata phase writes has its origin in the bucket.
    A new session row is the record that [prepare_session_record] builds
    from the metadata document of a listed session folder, under a listed
    device folder that passes the device filter, with an id in the date
    range; a new device row is the default entry of such a device. *)
Theorem metadata_rows_sourced (w : World) :
  clean w ->
  (forall k row,
     sessions (committed w) !! k = None ->
     sessions (committed (run_metadata w).2) !! k = Some row ->
     sourced start_date end_date device_id_filter (bucket w) k row)
  /\ (forall d ent,
        devices (committed w) !! d = None ->
        devices (committed (run_metadata w).2) !! d = Some ent ->
        registered device_id_filter (bucket w) d ent).
Proof.
  intros Hc. destruct (scan_metadata_inv w Hc) as (st & (Hi & _) & _).
  destruct Hi as [Ab Af Acl As Ag Am Ad Ar Asrc]. split.
  - intros k row Hnone Hk. destruct (Asrc k row Hk) as [H|H]; [|exact H].
    congruence.
  - intros d ent Hnone Hd. destruct (Ar d ent Hd) as [H|H]; [|exact H].
    congruence.
Qed.

(** X4.  The counter of new sessions is exact: when the metadata phase
    returns, the count it reports under "新增会话数" is the number of
    session rows the run added to the table. *)
Theorem new_session_count_exact (w : World) (st : gmap string nat) :
  clean w ->
  (run_metadata w).1 = Ok st ->
  size (dom (sessions (committed (run_metadata w).2))
        ∖ dom (sessions (committed w)))
  = stat "新增会话数" st
  /\ size (sessions (committed (run_metadata w).2))
     = (size (sessions (committed w)) + stat "新增会话数" st)%nat.
Proof.
  intros Hc Hr. destruct (scan_metadata_inv w Hc) as (st' & (Hi & Hs & _) & He).
  rewrite Hr in He. subst st'. destruct Hs as [Hn _].
  split; [|exact Hn].
  rewrite size_difference by (apply subseteq_dom, Hi).
  rewrite !size_dom, Hn. unfold NEW_SESSIONS. lia.
Qed.

(** X5.  The statistics of the metadata phase add up: when the phase
    returns, every session it counted as scanned is counted under exactly
    one outcome (new, already there, outside the date range, without
    metadata document, failed to parse or process, failed to insert). *)
Theorem metadata_stats_add_up (w : World) (st : gmap string nat) :
  clean w ->
  (run_metadata w).1 = Ok st ->
  stat "扫描会话数" st
  = (stat "新增会话数" st + stat "已存在会话数" st + stat "跳过会话数" st
     + stat "metadata不存在" st + stat "解析失败数" st
     + stat "插入失败数" st)%nat.
Proof.
  intros Hc Hr. destruct (scan_metadata_inv w Hc) as (st' & (_ & Hs & _) & He).
  rewrite Hr in He. subst st'. apply Hs.
Qed.

(** X6.  Only a prefix listing can abort the metadata phase, as long as
    the registration of new devices does not fail.  [ensure_device_exists]
    is called outside every [try], and its handler rolls back; so the
    statement is made for stores on which no insert of a device and no
    commit raises.  Then the phase raises nothing but the error of the
    exhausted retries, and only when a prefix listing met a fault; when no
    prefix listing fails the phase returns its statistics, whatever else
    fails (the existence queries, the calls on the bucket for the metadata
    document, its parsing, the insert of a session). *)
Theorem metadata_phase_aborts_on_listing_only (w : World) :
  clean w ->
  (forall n d, db_fault w n (InsertDevice d) = false) ->
  (forall n, db_fault w n Commit = false) ->
  (forall e, (run_metadata w).1 = Raise e ->
             e = RetryError
             /\ exists n prefix,
                  oss_fault (bucket w) n (ListObjectsV2 prefix "/" 0) = true)
  /\ ((forall n prefix,
         oss_fault (bucket w) n (ListObjectsV2 prefix "/" 0) = false) ->
      exists st, (run_metadata w).1 = Ok st).
Proof.
  intros Hc _ _. destruct (scan_metadata_inv w Hc) as (st & _ & He). split.
  - intros e Hr. rewrite Hr in He. exact He.
  - intros Hnone. destruct (run_metadata w).1 as [st'|e]; [eauto|].
    destruct He as (_ & n & prefix & Hf). rewrite Hnone in Hf. discriminate.
Qed.

End MetadataPhaseProperties.

(** X7.  The debug limit.  With the debug flag on, the metadata phase adds
    at most five session rows, whether it returns or is aborted, and the
    count of new sessions it returns is at most five. *)
Theorem debug_limit_bounds_new_sessions
  (start_date end_date : option date) (device_id_filter : option string)
  (w : World) :
  clean w ->
  let run := scan_metadata start_date end_date device_id_filter true w in
  (size (sessions (committed run.2)) <= size (sessions (committed w)) + 5)%nat
  /\ forall st, run.1 = Ok st -> (stat "新增会话数" st <= 5)%nat.
Proof.
  intros Hc run.
  destruct (scan_metadata_inv start_date end_date device_id_filter true w Hc)
    as (st & (_ & [Hn _] & Hd) & He).
  fold run in Hn, He. specialize (Hd eq_refl). unfold NEW_SESSIONS in *.
  split; [lia|]. intros st' Hr. rewrite Hr in He. now subst st'.
Qed.

(** The deployment after the first debug run (five of its six sessions have
    a row), scanned again. *)
Definition demo_rescan : result (gmap string nat) * World :=
  scan_metadata demo_day demo_day (Some "7393") false demo_debug_first.2.

Definition demo_rescan_stats : gmap string nat := result_value ∅ demo_rescan.1.

(** Whether a run returned. *)
Definition returned {A : Type} (r : result A) : bool :=
  match r with
  | Ok _ => true
  | Raise _ => false
  end.

Lemma returned_value {A : Type} (d : A) (r : result A) :
  returned r = true -> r = Ok (result_value d r).
Proof. now destruct r. Qed.

(** The deployment on services where every call on the bucket fails,
    prefix listings apart, and every statement on the store fails, the
    device inserts and the commits apart. *)
Definition demo_only_listing : World :=
  demo_world (fun _ c => match c with
                         | ListObjectsV2 _ _ _ => false
                         | _ => true
                         end)
             (fun _ s => match s with
                         | InsertDevice _ | Commit => false
                         | _ => true
                         end).

(** [metadata_phase_only_adds] on the rescan: the five rows of the first
    run are kept. *)
Lemma metadata_phase_only_adds_witness :
  clean demo_debug_first.2
  /\ size (sessions (committed demo_debug_first.2)) = 5%nat
  /\ (forall k row,
        sessions (committed demo_debug_first.2) !! k = Some row ->
        sessions (committed demo_rescan.2) !! k = Some row).
Proof.
  assert (Hc : clean demo_debug_first.2) by (vm_compute; reflexivity).
  split; [exact Hc|]. split; [vm_compute; reflexivity|].
  exact (proj1 (metadata_phase_only_adds demo_day demo_day (Some "7393")
                  false demo_debug_first.2 Hc)).
Defined.

(** [metadata_rows_sourced] on the rescan: the row it adds comes from a
    listed folder. *)
Lemma metadata_rows_sourced_witness :
  clean demo_debug_first.2
  /\ forall k row,
       sessions (committed demo_debug_first.2) !! k = None ->
       sessions (committed demo_rescan.2) !! k = Some row ->
       sourced demo_day demo_day (Some "7393") (bucket demo_debug_first.2)
         k row.
Proof.
  assert (Hc : clean demo_debug_first.2) by (vm_compute; reflexivity).
  split; [exact Hc|].
  exact (proj1 (metadata_rows_sourced demo_day demo_day (Some "7393")
                  false demo_debug_first.2 Hc)).
Defined.

(** [new_session_count_exact] on the rescan: one session is new. *)
Lemma new_session_count_exact_witness :
  clean demo_debug_first.2
  /\ demo_rescan.1 = Ok demo_rescan_stats
  /\ stat "新增会话数" demo_rescan_stats = 1%nat
  /\ size (sessions (committed demo_rescan.2))
     = (size (sessions (committed demo_debug_first.2))
        + stat "新增会话数" demo_rescan_stats)%nat.
Proof.
  assert (Hc : clean demo_debug_first.2) by (vm_compute; reflexivity).
  assert (Hr : demo_rescan.1 = Ok demo_rescan_stats)
    by (apply returned_value; vm_compute; reflexivity).
  split; [exact Hc|]. split; [exact Hr|]. split; [vm_compute; reflexivity|].
  exact (proj2 (new_session_count_exact demo_day demo_day (Some "7393")
                  false demo_debug_first.2 demo_rescan_stats Hc Hr)).
Defined.

(** [metadata_stats_add_up] on the rescan. *)
Lemma metadata_stats_add_up_witness :
  clean demo_debug_first.2
  /\ demo_rescan.1 = Ok demo_rescan_stats
  /\ stat "扫描会话数" demo_rescan_stats
     = (stat "新增会话数" demo_rescan_stats
        + stat "已存在会话数" demo_rescan_stats
        + stat "跳过会话数" demo_rescan_stats
        + stat "metadata不存在" demo_rescan_stats
        + stat "解析失败数" demo_rescan_stats
        + stat "插入失败数" demo_rescan_stats)%nat.
Proof.
  assert (Hc : clean demo_debug_first.2) by (vm_compute; reflexivity).
  assert (Hr : demo_rescan.1 = Ok demo_rescan_stats)
    by (apply returned_value; vm_compute; reflexivity).
  split; [exact Hc|]. split; [exact Hr|].
  exact (metadata_stats_add_up demo_day demo_day (Some "7393")
           false demo_debug_first.2 demo_rescan_stats Hc Hr).
Defined.

(** [metadata_phase_aborts_on_listing_only] where everything else fails:
    the phase returns. *)
Lemma metadata_phase_aborts_on_listing_only_witness :
  clean demo_only_listing
  /\ (forall n d, db_fault demo_only_listing n (InsertDevice d) = false)
  /\ (forall n, db_fault demo_only_listing n Commit = false)
  /\ exists st,
       (scan_metadata demo_day demo_day (Some "7393") false
          demo_only_listing).1 = Ok st.
Proof.
  assert (Hc : clean demo_only_listing) by reflexivity.
  assert (Hd : forall n d, db_fault demo_only_listing n (InsertDevice d)
                           = false) by reflexivity.
  assert (Hm : forall n, db_fault demo_only_listing n Commit = false)
    by reflexivity.
  split; [exact Hc|]. split; [exact Hd|]. split; [exact Hm|].
  apply (proj2 (metadata_phase_aborts_on_listing_only demo_day demo_day
                  (Some "7393") false demo_only_listing Hc Hd Hm)).
  intros n prefix. reflexivity.
Defined.

(** [debug_limit_bounds_new_sessions] on the deployment: the debug run over
    six session folders adds five rows. *)
Lemma debug_limit_bounds_new_sessions_witness :
  clean (demo_world never never)
  /\ (size (sessions (committed
              (scan_metadata demo_day demo_day (Some "7393") true
                 (demo_world never never)).2))
      <= size (sessions (committed (demo_world never never))) + 5)%nat.
Proof.
  assert (Hc : clean (demo_world never never)) by reflexivity.
  split; [exact Hc|].
  exact (proj1 (debug_limit_bounds_new_sessions demo_day demo_day
                  (Some "7393") (demo_world never never) Hc)).
Defined.

(* ===================================================================== *)
(** * File names of segments ([parse_mp4_filename])                       *)
(* ===================================================================== *)

(** A string of ASCII digits. *)
Definition all_digits (s : string) : bool :=
  forallb Py.is_digit (list_ascii_of_string s).

(** A string without a newline. *)
Definition one_line (s : string) : bool :=
  forallb (fun c => negb (Ascii.eqb c (ascii_of_nat 10)))
          (list_ascii_of_string s).

Section StringFacts.

Lemma sapp_assoc (a b c : string) : (a ++ b) ++ c = a ++ b ++ c.
Proof. induction a as [|x a IH]; simpl; [reflexivity|now rewrite IH]. Qed.

Lemma sapp_nil_r (a : string) : a ++ "" = a.
Proof. induction a as [|x a IH]; simpl; [reflexivity|now rewrite IH]. Qed.

Lemma sapp_length (a b : string) :
  String.length (a ++ b) = (String.length a + String.length b)%nat.
Proof. induction a as [|x a IH]; simpl; [reflexivity|now rewrite IH]. Qed.

Lemma slice_from_length n s :
  String.length (Py.slice_from n s) = (String.length s - n)%nat.
Proof.
  revert s. induction n as [|n IH]; intros s; simpl; [lia|].
  destruct s as [|c s]; simpl; [reflexivity|apply IH].
Qed.

Lemma slice_from_app_le n a b :
  (n <= String.length a)%nat ->
  Py.slice_from n (a ++ b) = Py.slice_from n a ++ b.
Proof.
  revert a. induction n as [|n IH]; intros a Hn; simpl; [reflexivity|].
  destruct a as [|c a]; simpl in *; [lia|]. apply IH. lia.
Qed.


Lemma at_dollar_length s : Py.at_dollar s = true -> (String.length s <= 1)%nat.
Proof.
  unfold Py.at_dollar. intros H. apply orb_true_iff in H as [H|H];
    apply String.eqb_eq in H; subst s; simpl; lia.
Qed.


Lemma all_digits_cons c s :
  all_digits (String c s) = Py.is_digit c && all_digits s.
Proof. reflexivity. Qed.

Lemma one_line_cons c s :
  one_line (String c s)
  = negb (Ascii.eqb c (ascii_of_nat 10)) && one_line s.
Proof. reflexivity. Qed.

Lemma one_line_app a b : one_line (a ++ b) = one_line a && one_line b.
Proof.
  induction a as [|c a IH]; [reflexivity|].
  simpl String.append. rewrite !one_line_cons, IH. now rewrite andb_assoc.
Qed.


(** On digits followed by a character that is not a digit, [span_digits]
    takes exactly the digits. *)
Lemma span_digits_app d c r :
  all_digits d = true -> Py.is_digit c = false ->
  Py.span_digits (d ++ String c r) = (d, String c r).
Proof.
  intros Hd Hc. induction d as [|x d IH]; simpl.
  - now rewrite Hc.
  - rewrite all_digits_cons in Hd. apply andb_true_iff in Hd as [Hx Hd].
    rewrite Hx, (IH Hd). reflexivity.
Qed.

(** What [span_digits] leaves of a string that holds a character which is
    not a digit still holds that character and what follows it. *)
Lemma span_digits_keeps y c z :
  Py.is_digit c = false ->
  exists y', (Py.span_digits (y ++ String c z)).2 = y' ++ String c z.
Proof.
  intros Hc. induction y as [|x y [y' IH]]; simpl.
  - rewrite Hc. now exists "".
  - destruct (Py.is_digit x).
    + destruct (Py.span_digits (y ++ String c z)) as [d r]. simpl in *.
      now exists y'.
    + now exists (String x y).
Qed.

End StringFacts.

Section Mp4Names.

(** The tail pattern on the tail of a well-formed name. *)
Lemma match_sbs_tail_exact n :
  n <> "" -> all_digits n = true ->
  match_sbs_tail ("_sbs_" ++ n ++ ".mp4") = Some n.
Proof.
  intros Hn Hd. unfold match_sbs_tail.
  rewrite prefix_app. rewrite (slice_from_app "_sbs_").
  change (n ++ ".mp4") with (n ++ String "." "mp4").
  rewrite span_digits_app by (exact Hd || reflexivity).
  destruct n; [congruence|]. reflexivity.
Qed.

(** The tail pattern does not match before the last underscore of a name:
    what follows the digits would have to be [.mp4] and the end. *)
Lemma match_sbs_tail_early x n :
  (5 <= String.length x)%nat -> n <> "" ->
  match_sbs_tail (x ++ "_" ++ n ++ ".mp4") = None.
Proof.
  intros Hx Hn. unfold match_sbs_tail.
  destruct (String.prefix "_sbs_" (x ++ "_" ++ n ++ ".mp4")); [|reflexivity].
  rewrite slice_from_app_le by exact Hx.
  destruct (span_digits_keeps (Py.slice_from 5 x) "_" (n ++ ".mp4") eq_refl)
    as [y' Hy].
  change ("_" ++ n ++ ".mp4") with (String "_" (n ++ ".mp4")).
  destruct (Py.span_digits (Py.slice_from 5 x ++ String "_" (n ++ ".mp4")))
    as [d r]. simpl in Hy. subst r.
  destruct (Py.at_dollar (Py.slice_from 4 (y' ++ String "_" (n ++ ".mp4"))))
    eqn:E.
  - apply at_dollar_length in E.
    rewrite slice_from_length, sapp_length in E. simpl in E.
    rewrite sapp_length in E. simpl in E.
    destruct n; [congruence|]. simpl in E. lia.
  - now rewrite andb_false_r.
Qed.

Lemma parse_mp4_from_name label : forall acc n,
  label <> "" -> one_line label = true ->
  n <> "" -> all_digits n = true ->
  parse_mp4_from acc (label ++ "_sbs_" ++ n ++ ".mp4")
  = Some (acc ++ label, n).
Proof.
  induction label as [|c l IH]; intros acc n Hl Hline Hn Hd; [congruence|].
  rewrite one_line_cons in Hline. apply andb_true_iff in Hline as [Hc Hline].
  set (tail := "_sbs_" ++ n ++ ".mp4").
  change (String c l ++ tail) with (String c (l ++ tail)).
  cbn [parse_mp4_from].
  apply negb_true_iff in Hc. rewrite Hc.
  destruct l as [|c' l'].
  - change ("" ++ tail) with tail. unfold tail.
    rewrite match_sbs_tail_exact by assumption. reflexivity.
  - unfold tail.
    replace (String c' l' ++ "_sbs_" ++ n ++ ".mp4")
      with ((String c' l' ++ "_sbs") ++ "_" ++ n ++ ".mp4")
      by now rewrite sapp_assoc.
    rewrite match_sbs_tail_early
      by (try exact Hn; rewrite sapp_length; simpl; lia).
    rewrite sapp_assoc.
    change ("_sbs" ++ "_" ++ n ++ ".mp4") with ("_sbs_" ++ n ++ ".mp4").
    rewrite IH by (assumption || discriminate).
    now rewrite sapp_assoc.
Qed.



(** X8.  [parse_mp4_filename] reads back what the naming scheme writes:
    for a camera label that is not empty and holds no newline, and a
    segment number of one or more digits, the name
    [<label>_sbs_<number>.mp4] parses to the label and the number, also
    when the label itself contains [_sbs_]. *)
Theorem parse_mp4_filename_of_name (camera number : string) :
  camera <> "" -> one_line camera = true ->
  number <> "" -> all_digits number = true ->
  parse_mp4_filename (camera ++ "_sbs_" ++ number ++ ".mp4")
  = (camera, number).
Proof.
  intros Hc Hl Hn Hd. unfold parse_mp4_filename.
  now rewrite (parse_mp4_from_name camera "" number).
Qed.


End Mp4Names.

(** [parse_mp4_filename_of_name] on the second example of the source. *)
Lemma parse_mp4_filename_of_name_witness :
  parse_mp4_filename "2ed0-front_sbs_0012.mp4" = ("2ed0-front", "0012").
Proof.
  apply (parse_mp4_filename_of_name "2ed0-front" "0012");
    (discriminate || reflexivity).
Defined.

(* ===================================================================== *)
(** * Session ids ([parse_session_id])                                    *)
(* ===================================================================== *)

(** A string of exactly [n] ASCII digits. *)
Definition digits_of_length (n : nat) (s : string) : bool :=
  Nat.eqb (String.length s) n && all_digits s.

Section SessionIds.

Lemma take_digits_app n : forall d r,
  digits_of_length n d = true ->
  Py.take_digits n (d ++ r) = Some (d, r).
Proof.
  unfold digits_of_length.
  induction n as [|n IH]; intros d r H;
    apply andb_true_iff in H as [Hl Hd]; apply Nat.eqb_eq in Hl.
  - destruct d; [reflexivity|discriminate].
  - destruct d as [|c d]; [discriminate|]. simpl in Hl.
    rewrite all_digits_cons in Hd. apply andb_true_iff in Hd as [Hc Hd].
    simpl. rewrite Hc, IH; [reflexivity|].
    apply andb_true_iff. split; [apply Nat.eqb_eq; lia|exact Hd].
Qed.


Lemma span_digits_all d : all_digits d = true -> Py.span_digits d = (d, "").
Proof.
  induction d as [|c d IH]; [reflexivity|].
  rewrite all_digits_cons. intros H. apply andb_true_iff in H as [Hc Hd].
  simpl. now rewrite Hc, (IH Hd).
Qed.

(** The groups of the pattern on an id of the expected shape. *)
Lemma session_id_groups_of_id y mo d hh mi ss micro :
  digits_of_length 4 y = true -> digits_of_length 2 mo = true ->
  digits_of_length 2 d = true -> digits_of_length 2 hh = true ->
  digits_of_length 2 mi = true -> digits_of_length 2 ss = true ->
  micro <> "" -> all_digits micro = true ->
  session_id_groups
    ("session_" ++ y ++ mo ++ d ++ "_" ++ hh ++ mi ++ ss ++ "_" ++ micro)
  = Some (y, mo, d, hh, mi, ss).
Proof.
  intros Hy Hmo Hd Hhh Hmi Hss Hne Hmicro. unfold session_id_groups.
  rewrite prefix_app. change (negb true) with false. cbv iota.
  rewrite (slice_from_app "session_").
  rewrite (take_digits_app 4 y) by exact Hy.
  rewrite (take_digits_app 2 mo) by exact Hmo.
  rewrite (take_digits_app 2 d) by exact Hd.
  change ("_" ++ hh ++ mi ++ ss ++ "_" ++ micro)
    with (String "_" (hh ++ mi ++ ss ++ "_" ++ micro)).
  cbv iota beta. change (Ascii.eqb "_" "_") with true.
  change (negb true) with false. cbv iota.
  rewrite (take_digits_app 2 hh) by exact Hhh.
  rewrite (take_digits_app 2 mi) by exact Hmi.
  rewrite (take_digits_app 2 ss) by exact Hss.
  change ("_" ++ micro) with (String "_" micro).
  cbv iota beta. change (Ascii.eqb "_" "_") with true.
  change (negb true) with false. cbv iota.
  rewrite (span_digits_all micro Hmicro).
  destruct micro; [congruence|]. reflexivity.
Qed.


(** X10.  [parse_session_id] on an id of the expected shape
    [session_YYYYMMDD_HHMMSS_n]: when year, month and day form a calendar
    date it returns the date written with dashes, the time written with
    colons and the date; the time fields are not checked (any two digits
    pass); when they form no calendar date it returns two empty strings
    and no date. *)
Theorem parse_session_id_of_id (y mo d hh mi ss micro : string) :
  digits_of_length 4 y = true -> digits_of_length 2 mo = true ->
  digits_of_length 2 d = true -> digits_of_length 2 hh = true ->
  digits_of_length 2 mi = true -> digits_of_length 2 ss = true ->
  micro <> "" -> all_digits micro = true ->
  parse_session_id_value
    ("session_" ++ y ++ mo ++ d ++ "_" ++ hh ++ mi ++ ss ++ "_" ++ micro)
  = match make_date (Py.int_of_digits y) (Py.int_of_digits mo)
                    (Py.int_of_digits d) with
    | Some date_obj =>
        (Py.str_of_Z (Py.int_of_digits y) ++ "-"
           ++ Py.fmt_02d (Py.int_of_digits mo) ++ "-"
           ++ Py.fmt_02d (Py.int_of_digits d),
         hh ++ ":" ++ mi ++ ":" ++ ss,
         Some date_obj)
    | None => ("", "", None)
    end.
Proof.
  intros Hy Hmo Hd Hhh Hmi Hss Hne Hmicro. unfold parse_session_id_value.
  now rewrite session_id_groups_of_id.
Qed.


End SessionIds.

(** [parse_session_id_of_id] on the example of the source. *)
Lemma parse_session_id_of_id_witness :
  parse_session_id_value "session_20251028_051033_882605"
  = ("2025-10-28", "05:10:33", Some (mkDate 2025 10 28)).
Proof.
  apply (parse_session_id_of_id "2025" "10" "28" "05" "10" "33" "882605");
    (discriminate || reflexivity).
Defined.

Section UnparsedSessions.

(** X12.  A session folder whose id yields no date is never ingested.
    Whatever the date range (also when none is given), both phases count
    the folder as skipped and go on with the next one, without a call on
    the bucket or a statement on the store. *)
Theorem unparsed_session_is_skipped (sp : string) :
  (parse_session_id_value (session_id_of sp)).2 = None ->
  forall (start_date end_date : option date) (debug_mode : bool) (w : World),
    (forall device_id stats,
       let step := scan_metadata_session device_id start_date end_date
                     debug_mode sp stats w in
       step.1 = Ok (Next (incr "跳过会话数" (incr "扫描会话数" stats)))
       /\ oss_trace step.2 = oss_trace w /\ db_trace step.2 = db_trace w
       /\ committed step.2 = committed w /\ working step.2 = working w)
    /\ (forall stats new_segments,
          let step := scan_segments_session start_date end_date debug_mode
                        sp (stats, new_segments) w in
          step.1 = Ok (Next (incr "跳过会话数" (incr "扫描会话数" stats),
                             new_segments))
          /\ oss_trace step.2 = oss_trace w /\ db_trace step.2 = db_trace w
          /\ committed step.2 = committed w /\ working step.2 = working w).
Proof.
  intros Hnone start_date end_date debug_mode w.
  destruct (parse_session_id_log (session_id_of sp) w)
    as (w1 & Hp & L1 & L2 & L3 & L4 & L5 & L6 & L7 & L8).
  split.
  - intros device_id stats. cbv zeta. unfold scan_metadata_session.
    rewrite (bind_eq _ _ _ _ _ Hp).
    destruct (parse_session_id_value (session_id_of sp)) as [[ds ts] sd].
    simpl in Hnone. subst sd. simpl. now repeat split.
  - intros stats new_segments. cbv zeta. unfold scan_segments_session.
    rewrite (bind_eq _ _ _ _ _ Hp).
    destruct (parse_session_id_value (session_id_of sp)) as [[ds ts] sd].
    simpl in Hnone. subst sd. simpl. now repeat split.
Qed.

End UnparsedSessions.

(** [unparsed_session_is_skipped] on a folder dated the 30th of February,
    with no date range. *)
Lemma unparsed_session_is_skipped_witness :
  (parse_session_id_value
     (session_id_of "7393/session_20250230_101010_1/")).2 = None
  /\ (scan_metadata_session "7393" None None false
        "7393/session_20250230_101010_1/" metadata_stats_init
        (demo_world never never)).1
     = Ok (Next (incr "跳过会话数" (incr "扫描会话数" metadata_stats_init))).
Proof.
  assert (H : (parse_session_id_value
                 (session_id_of "7393/session_20250230_101010_1/")).2 = None)
    by reflexivity.
  split; [exact H|].
  exact (proj1 (proj1 (unparsed_session_is_skipped _ H None None false
                         (demo_world never never))
                  "7393" metadata_stats_init)).
Defined.

(* ===================================================================== *)
(** * Dates: the range filter and the trip through a command line         *)
(* ===================================================================== *)

(** A value of [datetime.date]: its fields form a calendar date. *)
Definition valid_date (d : date) : Prop :=
  make_date (year d) (month d) (day d) = Some d.

(** The date as the number [YYYYMMDD]. *)
Definition date_number (d : date) : Z :=
  year d * 10000 + month d * 100 + day d.

Section DateFacts.

Lemma days_in_month_le y m : days_in_month y m <= 31.
Proof.
  unfold days_in_month.
  destruct (m =? 2); [destruct (is_leap y); lia|].
  destruct (_ || _); lia.
Qed.

Lemma valid_date_bounds d :
  valid_date d ->
  1 <= year d <= 9999 /\ 1 <= month d <= 12 /\ 1 <= day d <= 31.
Proof.
  unfold valid_date, make_date. intros H.
  destruct (_ && _) eqn:E in H; [|discriminate].
  repeat (apply andb_true_iff in E as [E ?]).
  pose proof (days_in_month_le (year d) (month d)). lia.
Qed.

(** [<] on dates is [<] on their numbers. *)
Lemma date_ltb_number a b :
  valid_date a -> valid_date b ->
  date_ltb a b = true <-> date_number a < date_number b.
Proof.
  intros Ha Hb. apply valid_date_bounds in Ha, Hb.
  unfold date_ltb, date_number.
  rewrite !orb_true_iff, !andb_true_iff, !orb_true_iff, !andb_true_iff,
    !Z.ltb_lt, !Z.eqb_eq.
  lia.
Qed.

Lemma date_ltb_false a b :
  valid_date a -> valid_date b ->
  date_ltb a b = false <-> date_number b <= date_number a.
Proof.
  intros Ha Hb. pose proof (date_ltb_number a b Ha Hb) as H.
  destruct (date_ltb a b).
  - split; [discriminate|]. intros H'. destruct H as [H _].
    specialize (H eq_refl). lia.
  - split; [|reflexivity]. intros _. apply Z.nlt_ge. intros X.
    apply H in X. discriminate.
Qed.

End DateFacts.

(** X13.  The date filter.  A session without a date is never in range.
    A dated session is in range exactly when it is not before the start
    date, if one is given, and not after the end date, if one is given:
    both bounds are inclusive, and a missing bound leaves that side
    open. *)
Theorem is_date_in_range_spec (session_date : date)
  (start_date end_date : option date) :
  valid_date session_date ->
  (forall s, start_date = Some s -> valid_date s) ->
  (forall e, end_date = Some e -> valid_date e) ->
  is_date_in_range None start_date end_date = false
  /\ (is_date_in_range (Some session_date) start_date end_date = true
      <-> (forall s, start_date = Some s ->
                     date_number s <= date_number session_date)
          /\ (forall e, end_date = Some e ->
                        date_number session_date <= date_number e)).
Proof.
  intros Hd Hs He. split; [reflexivity|].
  unfold is_date_in_range.
  destruct start_date as [s|], end_date as [e|];
    try specialize (Hs s eq_refl); try specialize (He e eq_refl);
    try (destruct (date_ltb session_date s) eqn:E1;
         [apply date_ltb_number in E1|apply date_ltb_false in E1];
         try assumption);
    try (destruct (date_ltb e session_date) eqn:E2;
         [apply date_ltb_number in E2|apply date_ltb_false in E2];
         try assumption);
    (split;
     [intros Hres; try discriminate; split; intros x [= <-]; lia
     |intros [A B]; try specialize (A _ eq_refl);
      try specialize (B _ eq_refl); try reflexivity; lia]).
Qed.

(** [is_date_in_range_spec] on one day as both bounds. *)
Lemma is_date_in_range_spec_witness :
  valid_date (mkDate 2025 1 15)
  /\ is_date_in_range (Some (mkDate 2025 1 15)) demo_day demo_day = true.
Proof.
  assert (Hv : valid_date (mkDate 2025 1 15)) by reflexivity.
  split; [exact Hv|].
  apply (is_date_in_range_spec (mkDate 2025 1 15) demo_day demo_day Hv).
  - intros s [= <-]. exact Hv.
  - intros e [= <-]. exact Hv.
  - split; intros ? [= <-]; reflexivity.
Defined.

Section IsoDates.

(** The year field of [date_iso], for a year number. *)
Definition iso_year (y : Z) : string :=
  let s := Py.str_of_Z y in
  String.string_of_list_ascii (List.repeat "0"%char (4 - String.length s))
    ++ s.

(** The month and day fields of [date_iso]. *)
Definition iso_month_day (m d : Z) : string :=
  Py.fmt_02d m ++ "-" ++ Py.fmt_02d d.

Lemma date_iso_fields d :
  date_iso d = iso_year (year d) ++ "-" ++ iso_month_day (month d) (day d).
Proof. unfold date_iso, iso_year, iso_month_day. now rewrite sapp_assoc. Qed.

(** The checks below run over all years, months and days. *)
Definition year_round_trip (n : nat) : bool :=
  let y := Z.of_nat n in
  digits_of_length 4 (iso_year y)
  && (Py.int_of_digits (iso_year y) =? y)
  && is_token (iso_year y).

Definition month_day_round_trip (p : nat * nat) : bool :=
  let m := Z.of_nat p.1 in
  let d := Z.of_nat p.2 in
  match match_month_day (iso_month_day m d) with
  | Some (m', d', EmptyString) => (m' =? m) && (d' =? d)
  | _ => false
  end
  && forallb (fun c => negb (Py.is_space c))
             (list_ascii_of_string (iso_month_day m d)).

Lemma all_years_round_trip :
  forallb year_round_trip (List.seq 1 (Z.to_nat 9999)) = true.
Proof. vm_compute. reflexivity. Qed.

Lemma all_months_days_round_trip :
  forallb month_day_round_trip
          (list_prod (List.seq 1 12) (List.seq 1 31)) = true.
Proof. vm_compute. reflexivity. Qed.

Lemma iso_year_round_trip y :
  1 <= y <= 9999 ->
  digits_of_length 4 (iso_year y) = true
  /\ Py.int_of_digits (iso_year y) = y
  /\ is_token (iso_year y) = true.
Proof.
  intros Hy. pose proof all_years_round_trip as H.
  rewrite List.forallb_forall in H. specialize (H (Z.to_nat y)).
  unfold year_round_trip in H. rewrite Z2Nat.id in H by lia.
  assert (Hin : In (Z.to_nat y) (List.seq 1 (Z.to_nat 9999)))
    by (apply in_seq; lia).
  apply H in Hin. apply andb_true_iff in Hin as [Hin H3].
  apply andb_true_iff in Hin as [H1 H2]. apply Z.eqb_eq in H2. auto.
Qed.

Lemma iso_month_day_round_trip m d :
  1 <= m <= 12 -> 1 <= d <= 31 ->
  match_month_day (iso_month_day m d) = Some (m, d, "")
  /\ forallb (fun c => negb (Py.is_space c))
             (list_ascii_of_string (iso_month_day m d)) = true.
Proof.
  intros Hm Hd. pose proof all_months_days_round_trip as H.
  rewrite List.forallb_forall in H.
  specialize (H (Z.to_nat m, Z.to_nat d)).
  unfold month_day_round_trip in H. cbn [fst snd] in H.
  rewrite !Z2Nat.id in H by lia.
  assert (Hin : In (Z.to_nat m, Z.to_nat d)
                   (list_prod (List.seq 1 12) (List.seq 1 31)))
    by (apply in_prod; apply in_seq; lia).
  apply H in Hin. apply andb_true_iff in Hin as [H1 H2].
  split; [|exact H2].
  destruct (match_month_day (iso_month_day m d)) as [[[m' d'] [|c r]]|];
    try discriminate.
  apply andb_true_iff in H1 as [A B].
  apply Z.eqb_eq in A, B. now subst.
Qed.

Lemma no_space_app a b :
  forallb (fun c => negb (Py.is_space c)) (list_ascii_of_string (a ++ b))
  = forallb (fun c => negb (Py.is_space c)) (list_ascii_of_string a)
    && forallb (fun c => negb (Py.is_space c)) (list_ascii_of_string b).
Proof.
  induction a as [|c a IH]; [reflexivity|].
  simpl. rewrite IH. now rewrite andb_assoc.
Qed.

Lemma date_iso_token d : valid_date d -> is_token (date_iso d) = true.
Proof.
  intros Hv. destruct (valid_date_bounds d Hv) as (Hy & Hm & Hd).
  destruct (iso_year_round_trip _ Hy) as (_ & _ & Ht).
  destruct (iso_month_day_round_trip _ _ Hm Hd) as (_ & Hs).
  rewrite date_iso_fields. unfold is_token in *.
  apply andb_true_iff in Ht as [Hne Hns].
  apply andb_true_iff. split.
  - destruct (iso_year (year d)); [discriminate|reflexivity].
  - rewrite no_space_app, Hns. simpl. exact Hs.
Qed.

(** [strptime] on the three fields of a calendar date, as [str(date)] sets
    them. *)
Lemma strptime_iso_fields d :
  valid_date d ->
  strptime_ymd (iso_year (year d) ++ "-" ++ iso_month_day (month d) (day d))
  = Some d.
Proof.
  intros Hv. destruct (valid_date_bounds d Hv) as (Hy & Hm & Hd).
  destruct (iso_year_round_trip _ Hy) as (H4 & Hint & _).
  destruct (iso_month_day_round_trip _ _ Hm Hd) as (Hmd & _).
  unfold strptime_ymd.
  change ("-" ++ iso_month_day (month d) (day d))
    with (String "-" (iso_month_day (month d) (day d))).
  rewrite (take_digits_app 4 _ _ H4). cbv iota beta.
  change (Ascii.eqb "-" "-") with true. cbv iota.
  rewrite Hmd, Hint. exact Hv.
Qed.

End IsoDates.

(** X14.  A date survives the trip through a command line.  The worker of
    the chat service passes the dates of a command to the scanner as
    [str(date)], and the scanner reads them back with [strptime] and the
    format [%Y-%m-%d]: for every calendar date the result is the date
    itself. *)
Theorem strptime_inverts_date_str (d : date) :
  valid_date d -> strptime_ymd (date_iso d) = Some d.
Proof.
  intros Hv. rewrite date_iso_fields. now apply strptime_iso_fields.
Qed.

(** [strptime_inverts_date_str] on a leap day. *)
Lemma strptime_inverts_date_str_witness :
  valid_date (mkDate 2024 2 29)
  /\ date_iso (mkDate 2024 2 29) = "2024-02-29"
  /\ strptime_ymd "2024-02-29" = Some (mkDate 2024 2 29).
Proof.
  assert (Hv : valid_date (mkDate 2024 2 29)) by reflexivity.
  split; [exact Hv|]. split; [reflexivity|].
  exact (strptime_inverts_date_str (mkDate 2024 2 29) Hv).
Defined.

Section CommandRoundTrip.

Variable today : date.

(** X15.  A well-formed command is read as written.  For a device token
    that matches [[\w-]+] and does not contain "date", and calendar dates
    written as [str(date)] writes them, [/scan <device> <start> <end>]
    parses to exactly that device and those dates, [/scan <device> <day>]
    to that day as both dates, and [/export <start> <end>] to those
    dates. *)
Theorem commands_read_as_written (device : string) (d1 d2 : date) :
  is_token device = true ->
  re_word_dash device = true ->
  Py.contains "date" (Py.lower device) = false ->
  valid_date d1 -> valid_date d2 ->
  parse_scan_command today
    (command_text "/scan" [device; date_iso d1; date_iso d2])
  = Some (mkScanCommand device d1 d2)
  /\ parse_scan_command today (command_text "/scan" [device; date_iso d1])
     = Some (mkScanCommand device d1 d1)
  /\ parse_export_command today
       (command_text "/export" [date_iso d1; date_iso d2])
     = Some (mkExportCommand (Some d1) (Some d2) false).
Proof.
  intros Ht Hre Hdate H1 H2.
  pose proof (date_iso_token d1 H1) as T1.
  pose proof (date_iso_token d2 H2) as T2.
  assert (S1 : strptime_ymd (date_iso d1) = Some d1)
    by (rewrite date_iso_fields; now apply strptime_iso_fields).
  assert (S2 : strptime_ymd (date_iso d2) = Some d2)
    by (rewrite date_iso_fields; now apply strptime_iso_fields).
  split; [|split].
  - rewrite parse_scan_on_tokens
      by (simpl; rewrite ?Ht, ?T1, ?T2; (reflexivity || congruence)).
    unfold scan_command_of_parts. now rewrite Hre, Hdate, S1, S2.
  - rewrite parse_scan_on_tokens
      by (simpl; rewrite ?Ht, ?T1; (reflexivity || congruence)).
    unfold scan_command_of_parts. now rewrite Hre, Hdate, S1.
  - rewrite parse_export_on_tokens;
      [|simpl; now rewrite T1, T2|congruence
       |now apply export_two_not_all].
    unfold export_command_of_parts. now rewrite S1, S2.
Qed.

End CommandRoundTrip.

(** [commands_read_as_written] on the second example of the help text. *)
Lemma commands_read_as_written_witness :
  valid_date (mkDate 2025 1 1) /\ valid_date (mkDate 2025 1 15)
  /\ parse_scan_command (mkDate 2025 6 1)
       (command_text "/scan" ["7393"; date_iso (mkDate 2025 1 1);
                              date_iso (mkDate 2025 1 15)])
     = Some (mkScanCommand "7393" (mkDate 2025 1 1) (mkDate 2025 1 15)).
Proof.
  assert (H1 : valid_date (mkDate 2025 1 1)) by reflexivity.
  assert (H2 : valid_date (mkDate 2025 1 15)) by reflexivity.
  split; [exact H1|]. split; [exact H2|].
  exact (proj1 (commands_read_as_written (mkDate 2025 6 1) "7393"
                  (mkDate 2025 1 1) (mkDate 2025 1 15)
                  eq_refl eq_refl eq_refl H1 H2)).
Defined.

(* ===================================================================== *)
(** * Metadata documents ([get_nested_value], [prepare_session_record])   *)
(* ===================================================================== *)

(** A key without a dot. *)
Definition plain_key (key : string) : bool :=
  forallb (fun c => negb (Ascii.eqb c ".")) (list_ascii_of_string key).

Definition is_dict (j : json) : bool :=
  match j with JObject _ => true | _ => false end.

(** The values [len] accepts. *)
Definition has_len (j : json) : bool :=
  match j with JString _ | JArray _ | JObject _ => true | _ => false end.

(** The member [key] of a dictionary is absent or satisfies [p]. *)
Definition member_is (p : json -> bool) (l : list (string * json))
  (key : string) : bool :=
  match assoc key l with Some v => p v | None => true end.

(** The documents [prepare_session_record] can turn into a record: a
    dictionary whose [task_info], [camera_settings] and [device_info], when
    present, are dictionaries, and whose [camera_settings.stereo_cameras],
    when present, has a length. *)
Definition well_shaped (metadata : json) : bool :=
  match metadata with
  | JObject l =>
      member_is is_dict l "task_info"
      && member_is is_dict l "camera_settings"
      && member_is is_dict l "device_info"
      && match assoc "camera_settings" l with
         | Some (JObject c) => member_is has_len c "stereo_cameras"
         | _ => true
         end
  | _ => false
  end.

Section MetadataDocuments.

Lemma split_on_plain ch key :
  forallb (fun c => negb (Ascii.eqb c ch)) (list_ascii_of_string key) = true ->
  Py.split_on ch key = [key]
  /\ forall rest, Py.split_on ch (key ++ String ch rest)
                  = key :: Py.split_on ch rest.
Proof.
  induction key as [|c key IH]; intros H.
  - split; [reflexivity|]. intros rest. simpl. now rewrite Ascii.eqb_refl.
  - simpl in H. apply andb_true_iff in H as [Hc Hk].
    apply negb_true_iff in Hc. destruct (IH Hk) as [IH1 IH2].
    split; [simpl; now rewrite Hc, IH1|].
    intros rest. simpl. now rewrite Hc, IH2.
Qed.

End MetadataDocuments.

(** X16.  [get_nested_value] walks a dotted path one key at a time.  At
    each key the current value must be a dictionary that holds the key,
    otherwise the default is returned; the value found at the end of the
    path is returned as it is, also when it is null. *)
Theorem get_nested_value_path (data : json) (key rest : string)
  (default : json) :
  plain_key key = true ->
  get_nested_value data key default
  = match data with
    | JObject l => match assoc key l with Some v => v | None => default end
    | _ => default
    end
  /\ get_nested_value data (key ++ "." ++ rest) default
     = match data with
       | JObject l =>
           match assoc key l with
           | Some v => get_nested_value v rest default
           | None => default
           end
       | _ => default
       end.
Proof.
  intros Hk. destruct (split_on_plain "." key Hk) as [H1 H2].
  unfold get_nested_value. split.
  - rewrite H1. now destruct data.
  - change ("." ++ rest) with (String "." rest). rewrite H2. reflexivity.
Qed.

(** [get_nested_value_path] on the path the scanner uses. *)
Lemma get_nested_value_path_witness :
  plain_key "task_info" = true
  /\ forall data default,
       get_nested_value data "task_info.collect_site" default
       = match data with
         | JObject l =>
             match assoc "task_info" l with
             | Some v => get_nested_value v "collect_site" default
             | None => default
             end
         | _ => default
         end.
Proof.
  split; [reflexivity|]. intros data default.
  exact (proj2 (get_nested_value_path data "task_info" "collect_site" default
                  eq_refl)).
Defined.

(** X17.  What [prepare_session_record] makes of a metadata document.  It
    returns a record exactly for the well-shaped documents, and the record
    carries the session id and the device id it was given, the date and
    time of the id, and the document itself; on any other document it
    raises [AttributeError] or [TypeError] (which the metadata phase counts
    as a processing failure). *)
Theorem prepare_session_record_outcome (device_id session_id : string)
  (metadata : json) (w : World) :
  match (prepare_session_record device_id session_id metadata w).1 with
  | Ok r =>
      well_shaped metadata = true
      /\ s_session_id r = session_id /\ s_device_id r = device_id
      /\ s_raw_metadata_json r = metadata
      /\ s_collect_date r = (parse_session_id_value session_id).1.1
      /\ s_collect_time r = (parse_session_id_value session_id).1.2
  | Raise e =>
      well_shaped metadata = false /\ (e = AttributeError \/ e = TypeError)
  end.
Proof.
  destruct (prepare_session_record_eq device_id session_id metadata w)
    as (w' & -> & _). cbn [fst].
  unfold session_record_of, well_shaped, member_is, rbind.
  destruct (parse_session_id_value session_id) as [[ds ts] sd].
  destruct metadata as [| | | | |items|l]; simpl; auto.
  destruct (assoc "task_info" l) as [[| | | | | |t]|]; simpl; auto;
    (destruct (assoc "camera_settings" l) as [[| | | | | |c]|]; simpl; auto);
    (destruct (assoc "device_info" l) as [[| | | | | |dv]|]; simpl; auto);
    try (destruct (assoc "stereo_cameras" c) as [[| | | | | |]|]; simpl; auto);
    repeat split; auto.
Qed.

(* ===================================================================== *)
(** * Rows: insert and lookup                                             *)
(* ===================================================================== *)

Section InsertLookup.

(** X18.  A session row that [insert_session] reports as inserted is
    stored as given; from then on [is_session_exists] answers [True] for
    its id whenever the lookup itself does not fail, and another insert
    under that id returns [False] and leaves the tables as they are (the
    row is created once and never updated). *)
Theorem inserted_session_is_found (r : session_record) (w : World) :
  clean w ->
  (insert_session r w).1 = Ok true ->
  let w1 := (insert_session r w).2 in
  sessions (committed w) !! s_session_id r = None
  /\ sessions (committed w1) !! s_session_id r = Some r
  /\ (db_fault w1 (List.length (db_trace w1))
               (SelectSession (s_session_id r)) = false ->
      (is_session_exists (s_session_id r) w1).1 = Ok true)
  /\ (forall r', s_session_id r' = s_session_id r ->
        (insert_session r' w1).1 = Ok false
        /\ committed (insert_session r' w1).2 = committed w1).
Proof.
  intros Hc Hr w1.
  destruct (insert_session_spec r w Hc) as (Hdb & Hcfg & Hcl & Hres).
  cbv zeta in Hdb, Hcfg, Hcl, Hres. fold w1 in Hdb, Hcfg, Hcl, Hres.
  destruct Hres as [(_ & Hnone & Hcom)|(Hf & _)]; [|congruence].
  assert (Hrow : sessions (committed w1) !! s_session_id r = Some r).
  { rewrite Hcom. cbn [sessions set_sessions]. apply lookup_insert_eq. }
  split; [exact Hnone|]. split; [exact Hrow|]. split.
  - intros Hok.
    destruct (is_session_exists_spec (s_session_id r) w1)
      as (_ & b & Hb & _ & Hval).
    rewrite Hb, (Hval Hok). unfold clean in Hcl. now rewrite Hcl, Hrow.
  - intros r' Hid.
    destruct (insert_session_spec r' w1 Hcl) as (_ & _ & _ & Hres').
    cbv zeta in Hres'.
    destruct Hres' as [(_ & Hnone' & _)|Hres']; [|exact Hres'].
    rewrite Hid, Hrow in Hnone'. discriminate.
Qed.

(** X19.  The same for segment rows, under their key of session id and
    segment number. *)
Theorem inserted_segment_is_found (r : segment_record) (w : World) :
  clean w ->
  (insert_segment r w).1 = Ok true ->
  let w1 := (insert_segment r w).2 in
  let k := (g_session_id r, g_segment_number r) in
  segments (committed w) !! k = None
  /\ segments (committed w1) !! k = Some r
  /\ (db_fault w1 (List.length (db_trace w1))
               (SelectSegment (g_session_id r) (g_segment_number r)) = false ->
      (is_segment_exists (g_session_id r) (g_segment_number r) w1).1
      = Ok true)
  /\ (forall r', (g_session_id r', g_segment_number r') = k ->
        (insert_segment r' w1).1 = Ok false
        /\ committed (insert_segment r' w1).2 = committed w1).
Proof.
  intros Hc Hr w1 k.
  destruct (insert_segment_spec r w Hc) as (Hdb & Hcfg & Hcl & Hres).
  cbv zeta in Hdb, Hcfg, Hcl, Hres. fold w1 k in Hdb, Hcfg, Hcl, Hres.
  destruct Hres as [(_ & Hnone & Hcom)|(Hf & _)]; [|congruence].
  assert (Hrow : segments (committed w1) !! k = Some r).
  { rewrite Hcom. cbn [segments set_segments]. apply lookup_insert_eq. }
  split; [exact Hnone|]. split; [exact Hrow|]. split.
  - intros Hok.
    destruct (is_segment_exists_spec (g_session_id r) (g_segment_number r) w1)
      as (_ & b & Hb & _ & Hval).
    rewrite Hb, (Hval Hok). unfold clean in Hcl. fold k. now rewrite Hcl, Hrow.
  - intros r' Hid.
    destruct (insert_segment_spec r' w1 Hcl) as (_ & _ & _ & Hres').
    cbv zeta in Hres'.
    destruct Hres' as [(_ & Hnone' & _)|Hres']; [|exact Hres'].
    rewrite Hid, Hrow in Hnone'. discriminate.
Qed.

End InsertLookup.

(** A session row and a segment row to insert. *)
Definition demo_row : session_record :=
  mkSessionRecord demo_sid "7393" "2025-01-15" "10:10:10" (JString "")
    (JString "") JNull (JString "lab") (JString "N/A") JNull JNull JNull
    JNull JNull 0 demo_metadata.

Definition demo_segment_row : segment_record :=
  mkSegmentRecord demo_sid "0001" "a-down_sbs_0001.mp4" "oss://fpv/down" 10
    "a-front_sbs_0001.mp4" "oss://fpv/front" 10.

(** [inserted_session_is_found] on the empty deployment. *)
Lemma inserted_session_is_found_witness :
  clean (demo_world never never)
  /\ (insert_session demo_row (demo_world never never)).1 = Ok true
  /\ sessions (committed (insert_session demo_row (demo_world never never)).2)
       !! demo_sid = Some demo_row.
Proof.
  assert (Hc : clean (demo_world never never)) by reflexivity.
  assert (Hr : (insert_session demo_row (demo_world never never)).1 = Ok true)
    by reflexivity.
  split; [exact Hc|]. split; [exact Hr|].
  exact (proj1 (proj2 (inserted_session_is_found demo_row
                         (demo_world never never) Hc Hr))).
Defined.

(** [inserted_segment_is_found] on the empty deployment. *)
Lemma inserted_segment_is_found_witness :
  clean (demo_world never never)
  /\ (insert_segment demo_segment_row (demo_world never never)).1 = Ok true
  /\ segments
       (committed (insert_segment demo_segment_row (demo_world never never)).2)
       !! (demo_sid, "0001") = Some demo_segment_row.
Proof.
  assert (Hc : clean (demo_world never never)) by reflexivity.
  assert (Hr : (insert_segment demo_segment_row (demo_world never never)).1
               = Ok true) by reflexivity.
  split; [exact Hc|]. split; [exact Hr|].
  exact (proj1 (proj2 (inserted_segment_is_found demo_segment_row
                         (demo_world never never) Hc Hr))).
Defined.

(* ===================================================================== *)
(** * Device configuration ([ensure_device_exists])                       *)
(* ===================================================================== *)

(** X20.  [ensure_device_exists].  For a device of the configuration it
    answers from the configuration alone, without touching the store:
    [True] exactly when the device is active and not marked to be skipped.
    For an unknown device it registers the default entry: when its insert
    and its commit succeed it answers [True], the device is in the
    configuration with the default entry, a row that was there under this
    id is kept as it was (the insert does nothing on a conflict), a new
    row is the default one, and no write is left pending.  When the insert
    or the commit fails it does not answer [True] and the store holds what
    it held.  In every case an answer [True] means that the device is in
    the configuration as active and not skipped, and no existing device
    row and no existing entry of the configuration is changed. *)
Theorem ensure_device_exists_spec (device_id : string) (w : World) :
  clean w ->
  let out := ensure_device_exists device_id w in
  let n := List.length (db_trace w) in
  (forall ent, device_config w !! device_id = Some ent ->
     out = (Ok (negb (skip_scan ent) && device_is_active ent), w))
  /\ (device_config w !! device_id = None ->
      db_fault w n (InsertDevice device_id) = false ->
      db_fault w (S n) Commit = false ->
      out.1 = Ok true
      /\ device_config out.2 = <[device_id := default_device]> (device_config w)
      /\ devices (committed out.2)
         = match devices (committed w) !! device_id with
           | Some _ => devices (committed w)
           | None => <[device_id := default_device]> (devices (committed w))
           end
      /\ clean out.2)
  /\ (device_config w !! device_id = None ->
      db_fault w n (InsertDevice device_id) = true
      \/ db_fault w (S n) Commit = true ->
      out.1 <> Ok true /\ committed out.2 = committed w)
  /\ (out.1 = Ok true ->
      exists ent, device_config out.2 !! device_id = Some ent
                  /\ skip_scan ent = false /\ device_is_active ent = true)
  /\ (forall d ent, devices (committed w) !! d = Some ent ->
                    devices (committed out.2) !! d = Some ent)
  /\ (forall d ent, device_config w !! d = Some ent ->
                    device_config out.2 !! d = Some ent).
Proof.
  intros Hc. unfold clean in Hc. cbv zeta.
  unfold ensure_device_exists, bind, get_world.
  destruct (device_config w !! device_id) as [ent|] eqn:Ecfg.
  - assert (Hout : (if skip_scan ent then ret false
                    else if negb (device_is_active ent) then ret false
                         else ret true) w
                   = (Ok (negb (skip_scan ent) && device_is_active ent), w)).
    { destruct (skip_scan ent); [reflexivity|].
      now destruct (device_is_active ent). }
    rewrite Hout. cbn [fst snd].
    split; [now intros ? [= <-]|]. split; [discriminate|].
    split; [discriminate|]. split; [|split; auto].
    intros [= Hb]. apply andb_true_iff in Hb as [Hs Ha].
    apply negb_true_iff in Hs. exists ent. rewrite Ecfg. auto.
  - assert (Hkeep : forall d ent,
               device_config w !! d = Some ent ->
               <[device_id := default_device]> (device_config w) !! d
               = Some ent).
    { intros d ent Hd. rewrite lookup_insert_ne; [exact Hd|].
      intros <-. congruence. }
    unfold catch, bind, db_execute, db_commit, db_rollback, modify, ret,
      log_at, clean.
    destruct (db_fault w (List.length (db_trace w)) (InsertDevice device_id))
      eqn:Ei; simpl.
    { split; [discriminate|]. split; [discriminate|].
      split; [intros _ _; split; [discriminate|reflexivity]|].
      split; [discriminate|]. split; auto. }
    rewrite Hc.
    destruct (devices (committed w) !! device_id) eqn:Ed; simpl;
      (destruct (db_fault w (S (List.length (db_trace w))) Commit) eqn:Em;
       simpl;
       [split; [discriminate|]; split; [discriminate|];
        split; [intros _ _; split; [discriminate|reflexivity]|];
        split; [discriminate|]; split; auto
       |split; [discriminate|];
        split; [intros _ _ _; repeat split; now rewrite ?Hc|];
        split; [intros _ [H|H]; discriminate|];
        split; [intros _; exists default_device; split;
                [apply lookup_insert_eq|split; reflexivity]|];
        split; [|exact Hkeep]]).
    + auto.
    + intros d ent Hd. rewrite lookup_insert_ne; [exact Hd|].
      intros <-. congruence.
Qed.

(** [ensure_device_exists_spec] on the empty deployment: the device of the
    bucket is registered. *)
Lemma ensure_device_exists_spec_witness :
  clean (demo_world never never)
  /\ (ensure_device_exists "7393" (demo_world never never)).1 = Ok true
  /\ devices (committed
                (ensure_device_exists "7393" (demo_world never never)).2)
     = <[ "7393" := default_device ]> ∅.
Proof.
  assert (Hc : clean (demo_world never never)) by reflexivity.
  split; [exact Hc|].
  destruct (ensure_device_exists_spec "7393" (demo_world never never) Hc)
    as (_ & Hnew & _).
  destruct (Hnew eq_refl eq_refl eq_refl) as (Hr & _ & Hd & _).
  split; [exact Hr|exact Hd].
Defined.

(* ===================================================================== *)
(** * The message poller ([MessagePoller], [scan_service.py])             *)
(* ===================================================================== *)

(** The texts [_handle_message] sends to the chat. *)
Inductive reply :=
| HelpReply                                (** [HELP_MESSAGE] *)
| ScanFormatReply                          (** the format error of [/scan] *)
| ExportFormatReply                        (** the format error of [/export] *)
| BusyReply (current_task : option string). (** a task is running *)

(** A message of the chat as [get_chat_messages] returns it;
    [body_content] is what [json.loads(msg.body.content)] makes of the
    body ([None]: it raises). *)
Record message := mkMessage {
  message_id : string;
  msg_type : string;
  body_content : option json
}.

(** The poller with the executor it drives and the replies sent so far
    (oldest first). *)
Record Poller := mkPoller {
  chat_id : string;
  processed_ids : gset string;
  executor : TaskExecutor;
  sent : list reply
}.

(** [MessagePoller.__init__] *)
Definition Poller_init (chat : string) (ex : TaskExecutor) : Poller :=
  mkPoller chat ∅ ex [].

(** [self.lark_client.send_text_message(self.chat_id, ...)] *)
Definition send_reply (r : reply) (p : Poller) : Poller :=
  mkPoller (chat_id p) (processed_ids p) (executor p) (sent p ++ [r]).

Definition with_executor (ex : TaskExecutor) (p : Poller) : Poller :=
  mkPoller (chat_id p) (processed_ids p) ex (sent p).

(** [self.processed_ids.add(msg_id)] *)
Definition mark_processed (id : string) (p : Poller) : Poller :=
  mkPoller (chat_id p) ({[ id ]} ∪ processed_ids p) (executor p) (sent p).

(** [_handle_message]; [today] is the value of [date.today()].  The
    literals are the UTF-8 bytes of the source's. *)
Definition handle_message (today : date) (text : string) (p : Poller)
  : Poller :=
  let text_lower := Py.strip (Py.lower text) in
  if Py.contains "@" text
     || existsb (String.eqb text_lower) ["help"; "帮助"; "?"; "？"]
  then send_reply HelpReply p
  else if Py.startswith "/scan" text_lower then
    match parse_scan_command today text with
    | None => send_reply ScanFormatReply p
    | Some scan_cmd =>
        let '(started, ex) :=
          try_execute_scan scan_cmd (chat_id p) (executor p) in
        if started then with_executor ex p
        else send_reply (BusyReply (current_task ex)) (with_executor ex p)
    end
  else if Py.startswith "/export" text_lower then
    match parse_export_command today text with
    | None => send_reply ExportFormatReply p
    | Some export_cmd =>
        let '(started, ex) :=
          try_execute_export export_cmd (chat_id p) (executor p) in
        if started then with_executor ex p
        else send_reply (BusyReply (current_task ex)) (with_executor ex p)
    end
  else p.

(** The loop of [_poll_once] over the messages [get_chat_messages]
    returned.  A text that is not a string makes [_handle_message] raise
    [AttributeError] (at [text.lower()]), which leaves the loop. *)
Fixpoint poll_messages (today : date) (messages : list message) (p : Poller)
  : result unit * Poller :=
  match messages with
  | [] => (Ok tt, p)
  | msg :: rest =>
      if decide (message_id msg ∈ processed_ids p)
      then poll_messages today rest p
      else
        let p := mark_processed (message_id msg) p in
        if negb (String.eqb (msg_type msg) "text")
        then poll_messages today rest p
        else
          match body_content msg with
          | None => poll_messages today rest p
          | Some content =>
              match py_get content "text" (JString "") with
              | Raise _ => poll_messages today rest p
              | Ok (JString text) =>
                  poll_messages today rest (handle_message today text p)
              | Ok _ => (Raise AttributeError, p)
              end
          end
  end.

(** The first loop of [start]: the messages already in the chat are marked
    as processed. *)
Definition mark_history (messages : list message) (p : Poller) : Poller :=
  fold_left (fun p msg => mark_processed (message_id msg) p) messages p.

Section PollerProperties.

Variable today : date.

Lemma handle_message_processed text p :
  processed_ids (handle_message today text p) = processed_ids p.
Proof.
  unfold handle_message.
  destruct (_ || _); [reflexivity|].
  destruct (Py.startswith "/scan" _).
  { destruct (parse_scan_command today text); [|reflexivity].
    destruct (try_execute_scan _ _ _) as [[] ex]; reflexivity. }
  destruct (Py.startswith "/export" _); [|reflexivity].
  destruct (parse_export_command today text); [|reflexivity].
  destruct (try_execute_export _ _ _) as [[] ex]; reflexivity.
Qed.

(** One step of the loop only adds to the processed ids, and adds the id of
    the message it looked at. *)
Lemma poll_messages_marks messages : forall p,
  processed_ids p ⊆ processed_ids (poll_messages today messages p).2
  /\ ((poll_messages today messages p).1 = Ok tt ->
      forall msg, In msg messages ->
        message_id msg ∈ processed_ids (poll_messages today messages p).2).
Proof.
  induction messages as [|m rest IH]; intros p; simpl.
  - split; [reflexivity|]. intros _ msg [].
  - assert (Hstep : forall p1,
              processed_ids p ⊆ processed_ids p1 ->
              message_id m ∈ processed_ids p1 ->
              processed_ids p ⊆ processed_ids (poll_messages today rest p1).2
              /\ ((poll_messages today rest p1).1 = Ok tt ->
                  forall msg, m = msg \/ In msg rest ->
                    message_id msg
                    ∈ processed_ids (poll_messages today rest p1).2)).
    { intros p1 Hsub Hin. destruct (IH p1) as [H1 H2].
      split; [set_solver|].
      intros Hok msg [<-|Hmsg]; [set_solver|now apply H2]. }
    destruct (decide (message_id m ∈ processed_ids p)) as [Hin|Hnew].
    { now apply Hstep. }
    set (p1 := mark_processed (message_id m) p).
    assert (Hsub : processed_ids p ⊆ processed_ids p1) by (simpl; set_solver).
    assert (Hin1 : message_id m ∈ processed_ids p1) by (simpl; set_solver).
    destruct (negb (String.eqb (msg_type m) "text")); [now apply Hstep|].
    destruct (body_content m) as [content|]; [|now apply Hstep].
    destruct (py_get content "text" (JString "")) as [v|e];
      [|now apply Hstep].
    destruct v; try (split; [exact Hsub|discriminate]).
    apply Hstep; now rewrite handle_message_processed.
Qed.

(** Messages that are all processed already have no effect. *)
Lemma poll_messages_processed messages : forall p,
  (forall msg, In msg messages -> message_id msg ∈ processed_ids p) ->
  poll_messages today messages p = (Ok tt, p).
Proof.
  induction messages as [|m rest IH]; intros p H; simpl; [reflexivity|].
  destruct (decide (message_id m ∈ processed_ids p)) as [Hin|Hnew].
  - apply IH. intros msg Hmsg. apply H. now right.
  - destruct Hnew. apply H. now left.
Qed.

Lemma mark_history_ids messages : forall p,
  processed_ids p ⊆ processed_ids (mark_history messages p)
  /\ forall msg, In msg messages ->
       message_id msg ∈ processed_ids (mark_history messages p).
Proof.
  unfold mark_history.
  induction messages as [|m rest IH]; intros p; simpl.
  - split; [reflexivity|]. intros msg [].
  - destruct (IH (mark_processed (message_id m) p)) as [H1 H2].
    simpl in H1. split; [set_solver|].
    intros msg [<-|Hmsg]; [set_solver|now apply H2].
Qed.

(** X21.  Every message is handled at most once.  A poll marks each
    message it looks at before handling it and never unmarks one; a poll
    over messages that are all marked sends nothing, starts nothing and
    changes nothing.  So the batch a poll went through has no effect when
    the next poll returns it again, and the messages found in the chat at
    startup are never executed. *)
Theorem messages_handled_once (messages : list message) (p : Poller) :
  let out := poll_messages today messages p in
  processed_ids p ⊆ processed_ids out.2
  /\ (out.1 = Ok tt ->
      (forall msg, In msg messages -> message_id msg ∈ processed_ids out.2)
      /\ poll_messages today messages out.2 = (Ok tt, out.2))
  /\ ((forall msg, In msg messages -> message_id msg ∈ processed_ids p) ->
      out = (Ok tt, p))
  /\ poll_messages today messages (mark_history messages p)
     = (Ok tt, mark_history messages p).
Proof.
  cbv zeta. destruct (poll_messages_marks messages p) as [H1 H2].
  split; [exact H1|]. split; [|split].
  - intros Hok. split; [now apply H2|].
    apply poll_messages_processed. now apply H2.
  - apply poll_messages_processed.
  - apply poll_messages_processed. apply mark_history_ids.
Qed.

(** X22.  What one message can do.  [_handle_message] sends at most one
    reply and starts at most one job.  A text that mentions someone
    ([@]) gets the help text and nothing else, also when it is a
    well-formed command; and while a task is running no job is started:
    the executor is left as it is. *)
Theorem handle_message_effects (text : string) (p : Poller) :
  let p' := handle_message today text p in
  chat_id p' = chat_id p
  /\ ((sent p' = sent p /\ executor p' = executor p)
      \/ (exists r : reply,
            sent p' = (sent p ++ [r])%list /\ executor p' = executor p)
      \/ (exists job,
            sent p' = sent p
            /\ is_running (executor p) = false
            /\ is_running (executor p') = true
            /\ threads (executor p') = (threads (executor p) ++ [job])%list))
  /\ (Py.contains "@" text = true ->
      sent p' = (sent p ++ [HelpReply])%list /\ executor p' = executor p)
  /\ (is_running (executor p) = true -> executor p' = executor p).
Proof.
  cbv zeta. unfold handle_message.
  destruct (Py.contains "@" text) eqn:Eat; cbn [orb].
  { repeat split; eauto. }
  match goal with
  | |- context [existsb ?f ?l] => destruct (existsb f l)
  end.
  { repeat split; eauto; discriminate. }
  destruct (Py.startswith "/scan" _).
  { destruct (parse_scan_command today text) as [cmd|].
    - unfold try_execute_scan.
      destruct (is_running (executor p)) eqn:Er; simpl.
      + repeat split; eauto; discriminate.
      + split; [reflexivity|]. split; [|split; discriminate].
        right. right. eexists. repeat split.
    - repeat split; eauto; discriminate. }
  destruct (Py.startswith "/export" _).
  { destruct (parse_export_command today text) as [cmd|].
    - unfold try_execute_export.
      destruct (is_running (executor p)) eqn:Er; simpl.
      + repeat split; eauto; discriminate.
      + split; [reflexivity|]. split; [|split; discriminate].
        right. right. eexists. repeat split.
    - repeat split; eauto; discriminate. }
  repeat split; eauto; discriminate.
Qed.

End PollerProperties.

(* ===================================================================== *)
(** * The date arguments of the scanners ([main])                         *)
(* ===================================================================== *)

(** One date argument of [main] in [info_scan.py] and [metadata_scan.py]:
    [None] when the argument is absent or empty, the date when [strptime]
    accepts it; the outer [None] is the [return] after the error log. *)
Definition date_argument (arg : option string) : option (option date) :=
  match arg with
  | None => Some None
  | Some s =>
      if Py.is_empty s then Some None
      else match strptime_ymd s with
           | Some d => Some (Some d)
           | None => None
           end
  end.

(** The date range [main] hands to the scan phases, from [--start-date]
    and [--end-date]; [today] is the value of [date.today()], and [None]
    means that [main] returned before connecting to anything. *)
Definition main_dates (today : date) (start_arg end_arg : option string)
  : option (option date * option date) :=
  match date_argument start_arg with
  | None => None
  | Some start_date =>
      match date_argument end_arg with
      | None => None
      | Some end_date =>
          match start_date, end_date with
          | None, None => Some (Some today, Some today)
          | _, _ => Some (start_date, end_date)
          end
      end
  end.

Section MainDates.

Variable today : date.

(** X23.  The date range of a scan.  Without date arguments the range is
    today alone.  With one argument only, the other side stays open.  The
    two dates of a chat command, passed as [str(date)], arrive as the very
    dates of the command.  An argument that is given and is no date makes
    [main] return before it connects to anything. *)
Theorem main_dates_spec (d1 d2 : date) (bad : string) :
  valid_date d1 -> valid_date d2 ->
  bad <> "" -> strptime_ymd bad = None ->
  main_dates today None None = Some (Some today, Some today)
  /\ main_dates today (Some (date_iso d1)) (Some (date_iso d2))
     = Some (Some d1, Some d2)
  /\ main_dates today (Some (date_iso d1)) None = Some (Some d1, None)
  /\ main_dates today None (Some (date_iso d2)) = Some (None, Some d2)
  /\ (forall other, main_dates today (Some bad) other = None)
  /\ (forall other, main_dates today other (Some bad) = None).
Proof.
  intros H1 H2 Hne Hbad.
  assert (A1 : date_argument (Some (date_iso d1)) = Some (Some d1)).
  { unfold date_argument.
    replace (strptime_ymd (date_iso d1)) with (Some d1)
      by (rewrite date_iso_fields; symmetry; now apply strptime_iso_fields).
    pose proof (date_iso_token d1 H1) as Ht.
    destruct (date_iso d1); [discriminate|reflexivity]. }
  assert (A2 : date_argument (Some (date_iso d2)) = Some (Some d2)).
  { unfold date_argument.
    replace (strptime_ymd (date_iso d2)) with (Some d2)
      by (rewrite date_iso_fields; symmetry; now apply strptime_iso_fields).
    pose proof (date_iso_token d2 H2) as Ht.
    destruct (date_iso d2); [discriminate|reflexivity]. }
  assert (Ab : date_argument (Some bad) = None).
  { unfold date_argument. rewrite Hbad. destruct bad; [congruence|reflexivity]. }
  unfold main_dates. rewrite A1, A2, Ab.
  split; [reflexivity|]. split; [reflexivity|]. split; [reflexivity|].
  split; [reflexivity|]. split; [reflexivity|].
  intros other. now destruct (date_argument other).
Qed.

End MainDates.

(** [main_dates_spec] on the dates of the help text and a day that does not
    exist. *)
Lemma main_dates_spec_witness :
  valid_date (mkDate 2025 1 1) /\ valid_date (mkDate 2025 1 15)
  /\ strptime_ymd "2025-02-30" = None
  /\ main_dates (mkDate 2025 6 1) (Some "2025-01-01") (Some "2025-01-15")
     = Some (Some (mkDate 2025 1 1), Some (mkDate 2025 1 15))
  /\ main_dates (mkDate 2025 6 1) (Some "2025-02-30") None = None.
Proof.
  assert (H1 : valid_date (mkDate 2025 1 1)) by reflexivity.
  assert (H2 : valid_date (mkDate 2025 1 15)) by reflexivity.
  assert (Hb : strptime_ymd "2025-02-30" = None) by reflexivity.
  destruct (main_dates_spec (mkDate 2025 6 1) (mkDate 2025 1 1)
              (mkDate 2025 1 15) "2025-02-30" H1 H2 ltac:(discriminate) Hb)
    as (_ & A & _ & _ & B & _).
  split; [exact H1|]. split; [exact H2|]. split; [exact Hb|].
  split; [exact A|exact (B None)].
Defined.

(* ===================================================================== *)
(** * The error excerpt of a failed job                                   *)
(* ===================================================================== *)

Section ErrorTail.

Lemma slice_from_suffix n s :
  exists pre, s = pre ++ Py.slice_from n s
              /\ String.length pre = Nat.min n (String.length s).
Proof.
  revert s. induction n as [|n IH]; intros s.
  - exists "". now split.
  - destruct s as [|c s]; [exists ""; now split|].
    destruct (IH s) as (pre & Hs & Hl). exists (String c pre). simpl.
    split; [now rewrite <- Hs|now rewrite Hl].
Qed.

(** X24.  The error text a failed job sends to the chat is the end of the
    standard error of the subprocess: all of it when it has at most 500
    characters, and otherwise exactly its last 500 characters. *)
Theorem error_tail_spec (stderr : string) :
  (String.length (error_tail stderr) <= 500)%nat
  /\ (exists pre, stderr = pre ++ error_tail stderr)
  /\ ((String.length stderr <= 500)%nat -> error_tail stderr = stderr)
  /\ ((500 < String.length stderr)%nat ->
      String.length (error_tail stderr) = 500%nat).
Proof.
  unfold error_tail.
  destruct (Nat.ltb 500 (String.length stderr)) eqn:E.
  - apply Nat.ltb_lt in E.
    split; [rewrite slice_from_length; lia|]. split; [|split].
    + destruct (slice_from_suffix (String.length stderr - 500) stderr)
        as (pre & Hs & _). now exists pre.
    + lia.
    + intros _. rewrite slice_from_length. lia.
  - apply Nat.ltb_ge in E.
    split; [exact E|]. split; [now exists ""|]. split; [reflexivity|lia].
Qed.

End ErrorTail.

(* ===================================================================== *)
(** * The device configuration when it cannot be read                     *)
(* ===================================================================== *)

Section ConfigLoad.

(** An unknown device that has a row: the insert does nothing, and the
    device is taken as usable. *)
Lemma ensure_device_exists_conflict device_id ent w :
  device_config w !! device_id = None ->
  clean w ->
  devices (committed w) !! device_id = Some ent ->
  db_fault w (List.length (db_trace w)) (InsertDevice device_id) = false ->
  db_fault w (S (List.length (db_trace w))) Commit = false ->
  (ensure_device_exists device_id w).1 = Ok true
  /\ devices (committed (ensure_device_exists device_id w).2) !! device_id
     = Some ent.
Proof.
  intros Hcfg Hc Hent H1 H2. unfold clean in Hc.
  unfold ensure_device_exists, bind, get_world. rewrite Hcfg.
  unfold catch, bind, db_execute, db_commit, modify, ret.
  rewrite H1. simpl. rewrite Hc, Hent. simpl. rewrite H2. simpl.
  split; [reflexivity|exact Hent].
Qed.

(** X25.  [load_device_config] never raises.  When the query succeeds it
    returns the rows of the device table; when it fails it logs an error
    and returns the empty configuration, and the tables stay as they are.
    With the empty configuration every device counts as unknown: for a
    device whose row says [skip_scan], [ensure_device_exists] answers
    [True] (when its own statement and commit succeed) and the row stays as
    it is, so after a failed load the skip marks are not honoured. *)
Theorem load_device_config_fail_open (w : World) :
  let load := load_device_config w in
  committed load.2 = committed w /\ working load.2 = working w
  /\ (db_fault w (List.length (db_trace w)) SelectDevices = false ->
      load.1 = Ok (devices (working w)))
  /\ (db_fault w (List.length (db_trace w)) SelectDevices = true ->
      load.1 = Ok ∅
      /\ head (log load.2) = Some (ERROR, MsgLoadDevicesFailed)
      /\ forall device_id ent,
           clean w ->
           devices (committed w) !! device_id = Some ent ->
           let w1 := with_device_config ∅ load.2 in
           db_fault w1 (List.length (db_trace w1)) (InsertDevice device_id)
           = false ->
           db_fault w1 (S (List.length (db_trace w1))) Commit = false ->
           (ensure_device_exists device_id w1).1 = Ok true
           /\ devices (committed (ensure_device_exists device_id w1).2)
                !! device_id = Some ent).
Proof.
  cbv zeta.
  unfold load_device_config, catch, bind, db_execute, get_world, ret, log_at,
    modify.
  destruct (db_fault w (List.length (db_trace w)) SelectDevices) eqn:Ef;
    simpl.
  - split; [reflexivity|]. split; [reflexivity|]. split; [discriminate|].
    intros _. split; [reflexivity|]. split; [reflexivity|].
    intros device_id ent Hc Hent H1 H2.
    apply (ensure_device_exists_conflict device_id ent);
      [apply lookup_empty|exact Hc|exact Hent|exact H1|exact H2].
  - split; [reflexivity|]. split; [reflexivity|]. split; [reflexivity|].
    discriminate.
Qed.

End ConfigLoad.

(* ===================================================================== *)
(** * Paginated listings ([list_objects])                                 *)
(* ===================================================================== *)

Section Pagination.

(** X26.  [list_objects] returns all or nothing.  Whatever calls fail and
    wherever a listing is interrupted, the keys it returns are the keys of
    all pages of the listing, each page once and in page order, never a part
    of the listing; the only error it raises is that of the exhausted
    retries, and the stores are not touched. *)
Theorem list_objects_all_pages (prefix : string) (w : World) :
  let run := list_objects prefix w in
  let pages := pages_of (bucket w) prefix in
  match run.1 with
  | Ok objs => objs = concat pages
  | Raise e => e = RetryError
  end
  /\ committed run.2 = committed w /\ working run.2 = working w.
Proof.
  cbv zeta. destruct (list_objects_spec prefix w) as [Hio Hres].
  split; [exact Hres|].
  destruct Hio as (_ & _ & Hc & Hw & _).
  split; [exact Hc|exact Hw].
Qed.

End Pagination.

(* ===================================================================== *)
(** * The segment phase: statistics, debug limit, aborts                  *)
(* ===================================================================== *)

(** The counters of [scan_segments] that classify a scanned session. *)
Definition segments_accounted (st : gmap string nat) : Prop :=
  stat "扫描会话数" st
  = (stat "跳过会话数" st + stat "会话不存在数" st + stat "处理会话数" st)%nat.

Section SegmentControl.

Variables (start_date end_date : option date).
Variable device_id_filter : option string.
Variable debug_mode : bool.

(** The state of the session loop of the segment phase: same bucket, no
    write pending, the session counters in balance, the debug limit not yet
    reached. *)
Definition seg_ctl (w0 : World) (st : segments_result) (w : World) : Prop :=
  bucket w = bucket w0 /\ clean w /\ segments_accounted st.1
  /\ (debug_mode = true -> (stat NEW_SEGMENTS st.1 < 5)%nat).

(** The state the phase returns in. *)
Definition seg_ctl_done (w0 : World) (st : segments_result) (w : World)
  : Prop :=
  bucket w = bucket w0 /\ clean w /\ segments_accounted st.1
  /\ (debug_mode = true -> (stat NEW_SEGMENTS st.1 <= 5)%nat).

(** The state of the pairing loop over the statistics [stats]. *)
Definition pair_ctl (w0 : World) (stats : gmap string nat) (p : pair_state)
  (w : World) : Prop :=
  bucket w = bucket w0 /\ clean w
  /\ (debug_mode = true -> (stat NEW_SEGMENTS stats + paired_new p < 5)%nat).

Lemma seg_ctl_to_done w0 st w : seg_ctl w0 st w -> seg_ctl_done w0 st w.
Proof.
  intros (Hb & Hc & Ha & Hd). repeat split; try assumption.
  intros H. specialize (Hd H). lia.
Qed.

Lemma ctl_io w0 w w' :
  bucket w = bucket w0 /\ clean w -> io_step w w' ->
  bucket w' = bucket w0 /\ clean w'.
Proof.
  intros [Hb Hc] Hio. split; [|now apply (io_step_clean w)].
  destruct Hio as (-> & _). exact Hb.
Qed.

Lemma segments_accounted_result stats a b c :
  segments_accounted stats ->
  segments_accounted
    (add_stat "未配对段数" a
       (add_stat "已存在视频段数" b (add_stat NEW_SEGMENTS c stats))).
Proof.
  unfold segments_accounted, NEW_SEGMENTS.
  now rewrite !stat_add_stat_ne by discriminate.
Qed.

(** The grouping loop never raises and only talks. *)
Lemma wp_group_objects keys : forall st w Q,
  (forall st' w', io_step w w' -> Q (Ok st') w') ->
  wp (fold_m keys group_object st) w Q.
Proof.
  intros st w Q HQ. eapply wp_conseq.
  - apply (wp_fold_m group_object (fun _ _ w' => io_step w w')
             (fun _ _ => False) keys [] st w).
    + intros done key s0 w1 _ Hio. unfold group_object.
      destruct s0 as [d n].
      destruct (parse_mp4_filename (basename key)) as [cam num].
      destruct (Py.is_empty cam || Py.is_empty num).
      { apply wp_bind, wp_log_at, wp_ret.
        eapply io_step_trans; [exact Hio|now repeat split]. }
      apply wp_bind, wp_get_world, wp_bind, wp_get_object_size.
      intros z w2 Hio2. cbv beta iota.
      pose proof (io_step_trans _ _ _ Hio Hio2) as Hio'.
      destruct (Py.contains "down" (Py.lower cam)); [now apply wp_ret|].
      destruct (Py.contains "front" (Py.lower cam)); [now apply wp_ret|].
      apply wp_bind, wp_log_at, wp_ret.
      eapply io_step_trans; [exact Hio'|now repeat split].
    + apply io_step_refl.
  - intros [st'|e] w'; [apply HQ|intros []].
Qed.

Lemma pair_segment_ctl w0 sid stats item p w :
  segments_accounted stats ->
  pair_ctl w0 stats p w ->
  wp (pair_segment sid debug_mode stats item p) w (fun r w' =>
    match r with
    | Ok (Next p') => pair_ctl w0 stats p' w'
    | Ok (Return res) => seg_ctl_done w0 res w'
    | Raise _ => False
    end).
Proof.
  intros Hacc (Hb & Hc & Hd). destruct item as [n files].
  unfold pair_segment.
  destruct (down_file files) as [down|];
    [destruct (front_file files) as [front|]|];
    try (apply wp_ret; now repeat split).
  apply wp_bind, wp_is_segment_exists. intros found w1 Hio1 _.
  destruct (ctl_io w0 w w1 (conj Hb Hc) Hio1) as [Hb1 Hc1].
  destruct found; [apply wp_ret; now repeat split|].
  apply wp_bind. unfold wp at 1.
  set (record := mkSegmentRecord sid n _ _ _ _ _ _).
  destruct (insert_segment_spec record w1 Hc1)
    as ((Hb2 & _) & _ & Hc2 & Hres).
  cbv zeta in Hb2, Hc2, Hres.
  set (w2 := (insert_segment record w1).2) in *.
  assert (Hbk : bucket w2 = bucket w0) by congruence.
  assert (Hr : exists inserted, (insert_segment record w1).1 = Ok inserted)
    by (destruct Hres as [(-> & _)|(-> & _)]; eauto).
  destruct Hr as [inserted ->].
  set (p' := if inserted then mkPairState _ _ _ _ else p).
  assert (Hp' : (paired_new p' <= S (paired_new p))%nat)
    by (unfold p'; destruct inserted; simpl; lia).
  destruct (debug_mode
            && Nat.leb 5 (stat "新增视频段数" stats + paired_new p')) eqn:Elim.
  - apply wp_bind, wp_log_at, wp_ret.
    apply andb_true_iff in Elim as [Hdm _].
    split; [exact Hbk|]. split; [exact Hc2|].
    split; [now apply segments_accounted_result|].
    intros _. cbn [fst]. specialize (Hd Hdm).
    change "新增视频段数" with NEW_SEGMENTS. rewrite stat_new_result.
    unfold NEW_SEGMENTS in *. lia.
  - apply wp_ret. split; [exact Hbk|]. split; [exact Hc2|].
    intros Hdm. rewrite Hdm, andb_true_l in Elim.
    apply Nat.leb_gt in Elim. exact Elim.
Qed.

Lemma scan_segments_session_ctl w0 sp st w :
  seg_ctl w0 st w ->
  wp (scan_segments_session start_date end_date debug_mode sp st) w
    (fun r w' =>
       match r with
       | Ok (Next st') => seg_ctl w0 st' w'
       | Ok (Return st') => seg_ctl_done w0 st' w'
       | Raise _ => False
       end).
Proof.
  intros (Hb & Hc & Ha & Hd). destruct st as [stats ns]. cbn [fst] in Ha, Hd.
  unfold scan_segments_session.
  apply wp_bind, wp_parse_session_id. intros w1 Hio1.
  destruct (parse_session_id_value (session_id_of sp)) as [[ds ts] sd].
  destruct (ctl_io w0 w w1 (conj Hb Hc) Hio1) as [Hb1 Hc1].
  destruct (negb (is_date_in_range sd start_date end_date)).
  { apply wp_ret. split; [exact Hb1|]. split; [exact Hc1|]. cbn [fst].
    split; [revert Ha; unfold segments_accounted; stat_norm; lia|].
    intros Hdm. specialize (Hd Hdm). revert Hd. unfold NEW_SEGMENTS.
    stat_norm. trivial. }
  apply wp_bind, wp_is_session_exists. intros found w2 Hio2 _.
  destruct (ctl_io w0 w1 w2 (conj Hb1 Hc1) Hio2) as [Hb2 Hc2].
  destruct found; simpl negb; cbv iota.
  2:{ apply wp_bind, wp_log_at, wp_ret. split; [exact Hb2|].
      split; [exact Hc2|]. cbn [fst].
      split; [revert Ha; unfold segments_accounted; stat_norm; lia|].
      intros Hdm. specialize (Hd Hdm). revert Hd. unfold NEW_SEGMENTS.
      stat_norm. trivial. }
  set (stats1 := incr "处理会话数" (incr "扫描会话数" stats)).
  assert (Ha1 : segments_accounted stats1)
    by (revert Ha; unfold stats1, segments_accounted; stat_norm; lia).
  assert (Hn1 : stat NEW_SEGMENTS stats1 = stat NEW_SEGMENTS stats)
    by (unfold stats1, NEW_SEGMENTS; stat_norm; reflexivity).
  assert (Hnext : forall w', bucket w' = bucket w0 /\ clean w' ->
            seg_ctl w0 (stats1, ns) w').
  { intros w' [B C]. split; [exact B|]. split; [exact C|].
    split; [exact Ha1|]. cbn [fst]. now rewrite Hn1. }
  apply wp_bind, wp_catch, wp_bind, wp_io; [apply io_only_list_objects|].
  intros [objs|err] w3 Hio3; cbv beta iota.
  2:{ apply wp_bind, wp_log_at, wp_ret, wp_ret. apply Hnext.
      apply (ctl_io w0 w3); [now apply (ctl_io w0 w2)|now repeat split]. }
  apply wp_ret. cbv beta iota.
  destruct (ctl_io w0 w2 w3 (conj Hb2 Hc2) Hio3) as [Hb3 Hc3].
  destruct (List.filter (Py.endswith ".mp4") objs) as [|o mp4] eqn:Emp4;
    [apply wp_ret; now apply Hnext|].
  rewrite <- Emp4. apply wp_bind, wp_group_objects.
  intros [d inv] w4 Hio4. cbv beta iota.
  destruct (ctl_io w0 w3 w4 (conj Hb3 Hc3) Hio4) as [Hb4 Hc4].
  set (stats2 := if Nat.ltb 0 inv then add_stat "文件名无效数" inv stats1
                 else stats1).
  assert (Ha2 : segments_accounted stats2).
  { unfold stats2. destruct (Nat.ltb 0 inv); [|exact Ha1].
    revert Ha1. unfold segments_accounted. stat_norm. trivial. }
  assert (Hn2 : stat NEW_SEGMENTS stats2 = stat NEW_SEGMENTS stats).
  { unfold stats2. destruct (Nat.ltb 0 inv); [|exact Hn1].
    rewrite <- Hn1. unfold NEW_SEGMENTS. now stat_norm. }
  apply wp_bind.
  eapply wp_conseq.
  - apply (wp_foreach (pair_segment (session_id_of sp) debug_mode stats2)
             (fun _ p w' => pair_ctl w0 stats2 p w')
             (fun res w' => seg_ctl_done w0 res w')
             (fun _ _ => False) (sorted_items d) [] (mkPairState O O O ns) w4).
    + intros done item p w5 _ Hp. now apply pair_segment_ctl.
    + split; [exact Hb4|]. split; [exact Hc4|].
      intros Hdm. cbn [paired_new]. rewrite Hn2, Nat.add_0_r. now apply Hd.
  - intros [[p|res]|err] w5; [|intros H; now apply wp_ret|intros []].
    intros (Hb5 & Hc5 & Hd5). apply wp_ret.
    split; [exact Hb5|]. split; [exact Hc5|].
    split; [now apply segments_accounted_result|].
    intros Hdm. cbn [fst]. rewrite stat_new_result. now apply Hd5.
Qed.

(** The loop state in full: the invariant of the tables with the counter
    of new segments, and the control state. *)
Definition seg_run (w0 : World) (st : segments_result) (w : World) : Prop :=
  seg_state_ok w0 st w /\ seg_ctl w0 st w.

Definition seg_run_done (w0 : World) (st : segments_result) (w : World)
  : Prop :=
  seg_state_ok w0 st w /\ seg_ctl_done w0 st w.

(** How the segment phase may be aborted: by the exhausted retries of a
    prefix listing, in a state the loop could have returned. *)
Definition seg_aborted (w0 : World) (e : exn) (w : World) : Prop :=
  e = RetryError /\ listing_fault (bucket w0)
  /\ exists st, seg_run_done w0 st w.

Lemma seg_run_to_done w0 st w : seg_run w0 st w -> seg_run_done w0 st w.
Proof. intros [H1 H2]. split; [exact H1|now apply seg_ctl_to_done]. Qed.

Lemma seg_ctl_stats w0 stats stats' ns w :
  segments_accounted stats' ->
  stat NEW_SEGMENTS stats' = stat NEW_SEGMENTS stats ->
  seg_ctl w0 (stats, ns) w -> seg_ctl w0 (stats', ns) w.
Proof.
  intros Ha Hn (Hb & Hc & _ & Hd). split; [exact Hb|]. split; [exact Hc|].
  split; [exact Ha|]. cbn [fst] in *. now rewrite Hn.
Qed.

Lemma seg_ctl_io w0 st w w' :
  seg_ctl w0 st w -> io_step w w' -> seg_ctl w0 st w'.
Proof.
  intros (Hb & Hc & Ha & Hd) Hio.
  destruct (ctl_io w0 w w' (conj Hb Hc) Hio) as [Hb' Hc'].
  now repeat split.
Qed.

Lemma seg_run_io w0 st w w' :
  seg_run w0 st w -> io_step w w' -> seg_run w0 st w'.
Proof.
  intros [H1 H2] Hio.
  split; [now apply (seg_state_ok_io w0 st w)|now apply (seg_ctl_io w0 st w)].
Qed.

Lemma scan_segments_session_run w0 sp st w :
  (exists dp, In dp (prefix_list (bucket w0) "")
              /\ In sp (prefix_list (bucket w0) dp)) ->
  seg_run w0 st w ->
  wp (scan_segments_session start_date end_date debug_mode sp st) w
    (fun r w' =>
       match r with
       | Ok (Next st') => seg_run w0 st' w'
       | Ok (Return st') => seg_run_done w0 st' w'
       | Raise _ => False
       end).
Proof.
  intros Hsp [H1 H2].
  pose proof (scan_segments_session_ok w0 start_date end_date debug_mode
                sp st w Hsp H1) as A.
  pose proof (scan_segments_session_ctl w0 sp st w H2) as B.
  unfold wp in *.
  destruct (scan_segments_session start_date end_date debug_mode sp st w).1
    as [[st'|st']|e]; [now split|now split|exact A].
Qed.

Lemma scan_segments_device_run w0 dp st w :
  In dp (prefix_list (bucket w0) "") ->
  seg_run w0 st w ->
  wp (scan_segments_device start_date end_date device_id_filter debug_mode
        dp st) w
    (fun r w' =>
       match r with
       | Ok (Next st') => seg_run w0 st' w'
       | Ok (Return st') => seg_run_done w0 st' w'
       | Raise e => seg_aborted w0 e w'
       end).
Proof.
  intros Hdp Hok. destruct st as [stats ns]. unfold scan_segments_device.
  destruct (filtered_out device_id_filter (Py.rstrip_char "/" dp));
    [now apply wp_ret|].
  apply wp_bind, wp_get_world.
  destruct (device_config w !! Py.rstrip_char "/" dp) as [entry|];
    [|now apply wp_ret].
  destruct (skip_scan entry); [now apply wp_ret|].
  apply wp_bind. unfold wp at 1.
  destruct (list_prefixes_outcome dp w) as [Hio Hres].
  set (w1 := (list_prefixes dp w).2) in *.
  assert (Hok1 : seg_run w0 (incr "扫描设备数" stats, ns) w1).
  { apply (seg_run_io w0 _ w); [|exact Hio].
    destruct Hok as [H1 H2]. pose proof H2 as (_ & _ & Ha & _).
    cbn [fst] in Ha.
    assert (Hn : stat NEW_SEGMENTS (incr "扫描设备数" stats)
                 = stat NEW_SEGMENTS stats)
      by (unfold NEW_SEGMENTS; now stat_norm).
    split; [now apply (seg_state_ok_stats w0 stats)|].
    apply (seg_ctl_stats w0 stats); [|exact Hn|exact H2].
    revert Ha. unfold segments_accounted. stat_norm. trivial. }
  assert (Hb : bucket w = bucket w0) by apply Hok.
  destruct (list_prefixes dp w).1 as [l|e].
  2:{ destruct Hres as [-> Hf]. split; [reflexivity|].
      split; [rewrite <- Hb; now exists (List.length (oss_trace w)), dp|].
      exists (incr "扫描设备数" stats, ns). now apply seg_run_to_done. }
  subst l. rewrite Hb.
  eapply wp_conseq.
  - apply (wp_foreach _ (fun _ st' w' => seg_run w0 st' w')
             (fun st' w' => seg_run_done w0 st' w') (fun _ _ => False) _ []).
    + intros done sp s0 w3 [rest Hsplit] Hok3.
      apply scan_segments_session_run; [|exact Hok3].
      exists dp. split; [exact Hdp|].
      assert (Hin : In sp (List.filter is_session_prefix
                             (prefix_list (bucket w0) dp))).
      { cbn [app] in Hsplit. rewrite Hsplit. apply in_app_iff.
        right. now left. }
      now apply List.filter_In in Hin as [Hin _].
    + exact Hok1.
  - intros [[st'|st']|e] w'; [auto|auto|intros []].
Qed.

Lemma segments_accounted_init : segments_accounted segments_stats_init.
Proof. vm_compute. reflexivity. Qed.

Lemma stat_new_segments_init : stat NEW_SEGMENTS segments_stats_init = O.
Proof. vm_compute. reflexivity. Qed.

(** The segment phase ends with the invariant, its counters in balance and
    within the debug limit, or is aborted by a listing in such a state. *)
Lemma scan_segments_run w0 :
  clean w0 ->
  wp (scan_segments start_date end_date device_id_filter debug_mode) w0
    (fun r w' =>
       match r with
       | Ok st => seg_run_done w0 st w'
       | Raise e => seg_aborted w0 e w'
       end).
Proof.
  intros Hc. unfold scan_segments.
  assert (Hok0 : seg_run w0 (segments_stats_init, ∅) w0).
  { split.
    - split; [now apply seg_inv_init|].
      cbn [fst snd]. now rewrite stat_new_segments_init, size_empty.
    - split; [reflexivity|]. split; [exact Hc|].
      split; [apply segments_accounted_init|].
      intros _. cbn [fst]. rewrite stat_new_segments_init. lia. }
  apply wp_bind. unfold wp at 1.
  destruct (list_prefixes_outcome "" w0) as [Hio Hres].
  set (w1 := (list_prefixes "" w0).2) in *.
  assert (Hok1 : seg_run w0 (segments_stats_init, ∅) w1)
    by now apply (seg_run_io w0 _ w0).
  destruct (list_prefixes "" w0).1 as [l|e].
  2:{ destruct Hres as [-> Hf]. split; [reflexivity|].
      split; [now exists (List.length (oss_trace w0)), ""|].
      exists (segments_stats_init, ∅). now apply seg_run_to_done. }
  subst l. apply wp_bind.
  eapply wp_conseq.
  - apply (wp_foreach _ (fun _ st' w' => seg_run w0 st' w')
             (fun st' w' => seg_run_done w0 st' w')
             (fun e w' => seg_aborted w0 e w') _ []).
    + intros done dp s0 w3 [rest Hsplit] Hok3.
      apply scan_segments_device_run; [|exact Hok3].
      cbn [app] in Hsplit. rewrite Hsplit. apply in_app_iff. right. now left.
    + exact Hok1.
  - intros [[st'|st']|e] w' H;
      [apply wp_ret; now apply seg_run_to_done|apply wp_ret; exact H|exact H].
Qed.

End SegmentControl.

Section SegmentPhaseProperties.

Variables (start_date end_date : option date).
Variable device_id_filter : option string.
Variable debug_mode : bool.

Local Abbreviation run_segments :=
  (scan_segments start_date end_date device_id_filter debug_mode).

(** The state the segment phase ends in, whether it returns or is
    aborted. *)
Lemma scan_segments_inv (w : World) :
  clean w ->
  exists st,
    seg_run_done debug_mode w st (run_segments w).2
    /\ match (run_segments w).1 with
       | Ok st' => st' = st
       | Raise e => e = RetryError /\ listing_fault (bucket w)
       end.
Proof.
  intros Hc.
  pose proof (scan_segments_run start_date end_date device_id_filter
                debug_mode w Hc) as H.
  unfold wp in H. destruct (run_segments w).1 as [st|e].
  - now exists st.
  - destruct H as (He & Hf & st & Hst). now exists st.
Qed.

(** X27.  The session counters of the segment phase add up: in the
    statistics the phase returns, every scanned session directory is counted
    exactly once as skipped by the date filter, as having no session row, or
    as processed. *)
Theorem segment_stats_add_up (w : World) (stats : gmap string nat)
  (ns : gset (string * string)) :
  clean w ->
  (run_segments w).1 = Ok (stats, ns) ->
  stat "扫描会话数" stats
  = (stat "跳过会话数" stats + stat "会话不存在数" stats
     + stat "处理会话数" stats)%nat.
Proof.
  intros Hc Hr.
  destruct (scan_segments_inv w Hc) as (st & (_ & _ & _ & Ha & _) & He).
  rewrite Hr in He. subst st. exact Ha.
Qed.

(** X28.  Only a prefix listing can abort the segment phase, as long as
    the insert of a segment fails in no other way than by a unique
    violation.  [insert_segment] is called outside every [try], and its
    handlers roll back; so the statement is made for stores on which no
    insert of a segment and no commit raises (a colliding insert still
    raises its unique violation).  Then the phase raises nothing but the
    error of the exhausted retries, and only when a prefix listing met a
    fault; when no prefix listing fails the phase returns, whatever else
    fails (the listing of a session's files, the size lookups, the
    existence queries). *)
Theorem segment_phase_aborts_on_listing_only (w : World) :
  clean w ->
  (forall n r, db_fault w n (InsertSegment r) = false) ->
  (forall n, db_fault w n Commit = false) ->
  (forall e, (run_segments w).1 = Raise e ->
             e = RetryError
             /\ exists n prefix,
                  oss_fault (bucket w) n (ListObjectsV2 prefix "/" 0) = true)
  /\ ((forall n prefix,
         oss_fault (bucket w) n (ListObjectsV2 prefix "/" 0) = false) ->
      exists stats ns, (run_segments w).1 = Ok (stats, ns)).
Proof.
  intros Hc _ _. destruct (scan_segments_inv w Hc) as (st & _ & He). split.
  - intros e Hr. rewrite Hr in He. exact He.
  - intros Hnone. destruct (run_segments w).1 as [[stats ns]|e]; [eauto|].
    destruct He as (_ & n & prefix & Hf). rewrite Hnone in Hf. discriminate.
Qed.

(** X29.  The segment phase writes to the segments table only.  Whether it
    returns or is aborted, the devices and the session metadata are as they
    were, no write is left pending, and every segment row that was there is
    still there, unchanged. *)
Theorem segment_phase_writes_segments_only (w : World) :
  clean w ->
  devices (committed (run_segments w).2) = devices (committed w)
  /\ session_metadata (committed (run_segments w).2)
     = session_metadata (committed w)
  /\ clean (run_segments w).2
  /\ forall k row, segments (committed w) !! k = Some row ->
                   segments (committed (run_segments w).2) !! k = Some row.
Proof.
  intros Hc. destruct (scan_segments_inv w Hc) as (st & ([Hi _] & _) & _).
  destruct Hi as [Ab Af Ac Acl As Ad Am Asub Adom Afr Aj].
  split; [exact Ad|]. split; [exact Am|]. split; [exact Acl|].
  intros k row Hk. exact (lookup_weaken _ _ _ _ Hk Asub).
Qed.

End SegmentPhaseProperties.

(** X30.  The debug limit of the segment phase.  With the debug flag on,
    the phase adds at most five segment rows, whether it returns or is
    aborted; when it returns, the count of new segments and the set of new
    keys it returns have at most five. *)
Theorem debug_limit_bounds_new_segments
  (start_date end_date : option date) (device_id_filter : option string)
  (w : World) :
  clean w ->
  let run := scan_segments start_date end_date device_id_filter true w in
  (size (segments (committed run.2)) <= size (segments (committed w)) + 5)%nat
  /\ forall stats ns, run.1 = Ok (stats, ns) ->
                      (stat "新增视频段数" stats <= 5)%nat
                      /\ (size ns <= 5)%nat.
Proof.
  intros Hc run.
  destruct (scan_segments_inv start_date end_date device_id_filter true w Hc)
    as ([stats0 ns0] & ([Hi Hn] & _ & _ & _ & Hd) & He).
  fold run in Hi, He. specialize (Hd eq_refl). cbn [fst snd] in *.
  unfold NEW_SEGMENTS in *.
  destruct Hi as [Ab Af Ac Acl As Ad Am Asub Adom Afr Aj].
  assert (Hsize : size (segments (committed run.2))
                  = (size (segments (committed w)) + size ns0)%nat).
  { rewrite <- !size_dom, Adom. rewrite size_union by set_solver. lia. }
  split; [lia|]. intros stats ns Hr. rewrite Hr in He.
  injection He as -> ->. lia.
Qed.

(** The scanned deployment on services where every call on the bucket
    fails, prefix listings apart, and every statement on the store fails,
    the segment inserts and the commits apart. *)
Definition demo_scanned_failing : World :=
  mkWorld (bucket demo_only_listing) [] []
          (fun _ s => match s with
                      | InsertSegment _ | Commit => false
                      | _ => true
                      end)
          (committed demo_scanned) (committed demo_scanned) []
          (device_config demo_scanned) [].

Lemma returned_pair {A B : Type} (d : A * B) (r : result (A * B)) :
  returned r = true -> r = Ok ((result_value d r).1, (result_value d r).2).
Proof. now destruct r as [[a b]|e]. Qed.

(** [segment_stats_add_up] on the scanned deployment. *)
Lemma segment_stats_add_up_witness :
  clean demo_scanned
  /\ demo_segments_run.1
     = Ok ((result_value (∅, ∅) demo_segments_run.1).1,
           (result_value (∅, ∅) demo_segments_run.1).2)
  /\ stat "扫描会话数" (result_value (∅, ∅) demo_segments_run.1).1
     = (stat "跳过会话数" (result_value (∅, ∅) demo_segments_run.1).1
        + stat "会话不存在数" (result_value (∅, ∅) demo_segments_run.1).1
        + stat "处理会话数" (result_value (∅, ∅) demo_segments_run.1).1)%nat.
Proof.
  assert (Hc : clean demo_scanned) by (vm_compute; reflexivity).
  assert (Hr : demo_segments_run.1
               = Ok ((result_value (∅, ∅) demo_segments_run.1).1,
                     (result_value (∅, ∅) demo_segments_run.1).2))
    by (apply returned_pair; vm_compute; reflexivity).
  split; [exact Hc|]. split; [exact Hr|].
  exact (segment_stats_add_up demo_day demo_day (Some "7393") false
           demo_scanned _ _ Hc Hr).
Defined.

(** [segment_phase_aborts_on_listing_only] where everything else fails:
    the phase returns. *)
Lemma segment_phase_aborts_on_listing_only_witness :
  clean demo_scanned_failing
  /\ (forall n r, db_fault demo_scanned_failing n (InsertSegment r) = false)
  /\ (forall n, db_fault demo_scanned_failing n Commit = false)
  /\ exists stats ns,
       (scan_segments demo_day demo_day (Some "7393") false
          demo_scanned_failing).1 = Ok (stats, ns).
Proof.
  assert (Hc : clean demo_scanned_failing) by (vm_compute; reflexivity).
  assert (Hs : forall n r, db_fault demo_scanned_failing n (InsertSegment r)
                           = false) by reflexivity.
  assert (Hm : forall n, db_fault demo_scanned_failing n Commit = false)
    by reflexivity.
  split; [exact Hc|]. split; [exact Hs|]. split; [exact Hm|].
  apply (proj2 (segment_phase_aborts_on_listing_only demo_day demo_day
                  (Some "7393") false demo_scanned_failing Hc Hs Hm)).
  intros n prefix. reflexivity.
Defined.

(** [segment_phase_writes_segments_only] on the scanned deployment. *)
Lemma segment_phase_writes_segments_only_witness :
  clean demo_scanned
  /\ devices (committed demo_segments_run.2) = devices (committed demo_scanned)
  /\ session_metadata (committed demo_segments_run.2)
     = session_metadata (committed demo_scanned)
  /\ clean demo_segments_run.2.
Proof.
  assert (Hc : clean demo_scanned) by (vm_compute; reflexivity).
  destruct (segment_phase_writes_segments_only demo_day demo_day
              (Some "7393") false demo_scanned Hc) as (H1 & H2 & H3 & _).
  split; [exact Hc|]. split; [exact H1|]. split; [exact H2|exact H3].
Defined.

(** [debug_limit_bounds_new_segments] on the scanned deployment. *)
Lemma debug_limit_bounds_new_segments_witness :
  clean demo_scanned
  /\ (size (segments (committed
              (scan_segments demo_day demo_day (Some "7393") true
                 demo_scanned).2))
      <= size (segments (committed demo_scanned)) + 5)%nat.
Proof.
  assert (Hc : clean demo_scanned) by (vm_compute; reflexivity).
  split; [exact Hc|].
  exact (proj1 (debug_limit_bounds_new_segments demo_day demo_day
                  (Some "7393") demo_scanned Hc)).
Defined.
